(** * merge_obj.py: merging Wavefront OBJ files with index renumbering

    A shallow embedding of [merge_obj_files_in_memory] and of the
    [__main__] block (src/merge_obj.py), and of the Python string
    primitives they call, followed by the properties of the merge.

    Modelling conventions.
    - A Python [str] is a [string]; a character is a code point below 256
      (Latin-1), which covers the ASCII text of OBJ files.
    - A Python [int] is a [Z] (unbounded).  The function is embedded
      twice: [merge_obj_files_in_memory] with the interpreter's limit on
      the digits of an [int]/[str] conversion switched off, and
      [Limited.merge_obj_files_in_memory] with the default limit of
      4300 digits.  The two agree on every run that converts no longer
      numeral, and every run that completes under the limit is a run
      without it ([merge_limited_same], [merge_limited_completed]).
    - The input directory is an association list from entry names to
      nodes, in the order [os.listdir] enumerates them; the output file is
      not one of its entries.  A regular file is given by its decoded
      text; a directory that cannot be listed, an input that cannot be
      decoded and an output path that cannot be opened are outside the
      model of the function (the first and the last are in the model of
      the script).
    - The effects of the function are a trace of events: the files it
      opens for reading and the strings it passes to [out_f.write], in
      order.  The text of the output file is the concatenation of the
      written strings.  An exception ends the trace.
    - The lines of the output are the lines of that text, read as
      Pass 1 reads a file.  They are the strings written (the header
      being two lines) as long as no merged file name contains a line
      break; the name is written as it is. *)

From Stdlib Require Import ZArith NArith List String Ascii Bool Lia.
From Stdlib Require Import Permutation Sorting.Sorted Sorting.Mergesort.
From Stdlib Require Import Numbers.DecimalString Numbers.DecimalZ.
Import ListNotations.

Open Scope string_scope.
Open Scope list_scope.

(* ================================================================= *)
(** ** Characters and the Python string primitives *)

Module Py.

(** The line feed written by ["\n"]. *)
Definition LF : ascii := ascii_of_nat 10.
Definition CR : ascii := ascii_of_nat 13.
Definition nl : string := String LF "".

(** [str.isspace] on one code point below 256: TAB..CR, FS..US, SPACE,
    NEL (0x85) and NBSP (0xA0). *)
Definition isspace (c : ascii) : bool :=
  let n := N_of_ascii c in
  ((9 <=? n) && (n <=? 13) || (28 <=? n) && (n <=? 32)
   || (n =? 133) || (n =? 160))%N.

(** Decimal digits below 256 are ['0'..'9']. *)
Definition isdigit (c : ascii) : bool :=
  let n := N_of_ascii c in ((48 <=? n) && (n <=? 57))%N.

Definition digit_val (c : ascii) : Z := Z.of_N (N_of_ascii c) - 48.

(** [str.lower] on one code point below 256: A..Z and the accented
    capitals 0xC0..0xDE (except the multiplication sign 0xD7). *)
Definition lower_char (c : ascii) : ascii :=
  let n := N_of_ascii c in
  if ((65 <=? n) && (n <=? 90)
      || (192 <=? n) && (n <=? 222) && negb (n =? 215))%N
  then ascii_of_N (n + 32) else c.

Fixpoint lower (s : string) : string :=
  match s with
  | "" => ""
  | String c s' => String (lower_char c) (lower s')
  end.

(** [s.startswith(p)]. *)
Fixpoint startswith (s p : string) {struct p} : bool :=
  match p with
  | "" => true
  | String a p' =>
      match s with
      | "" => false
      | String b s' => (a =? b)%char && startswith s' p'
      end
  end.

(** [s.endswith(suf)]: some tail of [s] is [suf]. *)
Fixpoint endswith (s suf : string) : bool :=
  if (s =? suf)%string then true
  else match s with
       | "" => false
       | String _ s' => endswith s' suf
       end.

(** [s.strip()] with no argument removes white space at both ends. *)
Fixpoint lstrip (s : string) : string :=
  match s with
  | "" => ""
  | String c s' => if isspace c then lstrip s' else s
  end.

Fixpoint rstrip (s : string) : string :=
  match s with
  | "" => ""
  | String c s' =>
      match rstrip s' with
      | "" => if isspace c then "" else String c ""
      | r => String c r
      end
  end.

Definition strip (s : string) : string := rstrip (lstrip s).

(** [s.split()] with no argument: the maximal runs of characters that
    are not white space. *)
Fixpoint split_ws (s : string) : list string :=
  match s with
  | "" => []
  | String c s' =>
      if isspace c then split_ws s'
      else match s' with
           | "" => [String c ""]
           | String c' _ =>
               if isspace c' then String c "" :: split_ws s'
               else match split_ws s' with
                    | w :: ws => String c w :: ws
                    | [] => [String c ""]
                    end
           end
  end.

(** [s.split(sep)] for a one-character separator: empty fields are
    kept, and the result is never empty. *)
Fixpoint split_on (sep : ascii) (s : string) : list string :=
  match s with
  | "" => [""]
  | String c s' =>
      if (c =? sep)%char then "" :: split_on sep s'
      else match split_on sep s' with
           | w :: ws => String c w :: ws
           | [] => [String c ""]
           end
  end.

(** [sep.join(l)] is [String.concat sep l]. *)
Definition join (sep : string) (l : list string) : string :=
  String.concat sep l.

(** The white space that [int] skips at both ends of a [str]: TAB..CR
    and SPACE, and NEL and NBSP, which the conversion first turns into
    spaces.  FS..US (0x1C..0x1F) are white space for [str.strip] and
    [str.split] and are not skipped by [int]. *)
Definition int_space (c : ascii) : bool :=
  let n := N_of_ascii c in
  ((9 <=? n) && (n <=? 13) || (n =? 32) || (n =? 133) || (n =? 160))%N.

Fixpoint int_lstrip (s : string) : string :=
  match s with
  | "" => ""
  | String c s' => if int_space c then int_lstrip s' else s
  end.

Fixpoint int_rstrip (s : string) : string :=
  match s with
  | "" => ""
  | String c s' =>
      match int_rstrip s' with
      | "" => if int_space c then "" else String c ""
      | r => String c r
      end
  end.

(** [int(s)] in base 10: optional white space, an optional sign, then
    digits in which single underscores may separate digits.  [None] is
    [ValueError].  The numeral may have any number of digits: this is
    [int] with the interpreter's limit on the digits of a conversion
    switched off (the limit is modelled further down). *)
Fixpoint int_digits (acc : Z) (after_digit : bool) (s : string) : option Z :=
  match s with
  | "" => if after_digit then Some acc else None
  | String c s' =>
      if isdigit c then int_digits (10 * acc + digit_val c) true s'
      else if (c =? "_")%char && after_digit then int_digits acc false s'
      else None
  end.

Definition int (s : string) : option Z :=
  match int_rstrip (int_lstrip s) with
  | String c r =>
      if (c =? "+")%char then int_digits 0 false r
      else if (c =? "-")%char then option_map Z.opp (int_digits 0 false r)
      else int_digits 0 false (String c r)
  | "" => None
  end.

(** [str(z)], also what an f-string prints for an [int], again without
    the limit on the number of digits. *)
Definition str (z : Z) : string := NilZero.string_of_int (Z.to_int z).

(** Iterating over a text file opened with [open(path, 'r')]: universal
    newlines turn CR LF and a lone CR into LF, and every line keeps its
    final LF. *)
Fixpoint readlines (text : string) : list string :=
  match text with
  | "" => []
  | String c s' =>
      if (c =? LF)%char then nl :: readlines s'
      else if (c =? CR)%char then
        nl :: match s' with
              | String c' s'' => if (c' =? LF)%char then readlines s''
                                 else readlines s'
              | "" => []
              end
      else match readlines s' with
           | l :: ls => String c l :: ls
           | [] => [String c ""]
           end
  end.

(** [str.rfind(c)]: the index of the last occurrence of [c]. *)
Fixpoint rfind (c : ascii) (s : string) : option nat :=
  match s with
  | "" => None
  | String c' s' =>
      match rfind c s' with
      | Some i => Some (S i)
      | None => if (c' =? c)%char then Some 0 else None
      end
  end.

Fixpoint all_dots (s : string) : bool :=
  match s with
  | "" => true
  | String c s' => (c =? ".")%char && all_dots s'
  end.

(** [os.path.splitext(p)] (posixpath): the extension starts at the last
    dot of the last path component; leading dots of that component do
    not start an extension. *)
Definition splitext (p : string) : string * string :=
  match rfind "." p with
  | None => (p, "")
  | Some dotIndex =>
      let filenameIndex :=
        match rfind "/" p with Some sepIndex => S sepIndex | None => 0 end in
      if (filenameIndex <=? dotIndex)%nat
         && negb (all_dots (substring filenameIndex (dotIndex - filenameIndex) p))
      then (substring 0 dotIndex p,
            substring dotIndex (String.length p - dotIndex) p)
      else (p, "")
  end.

End Py.

(* ================================================================= *)
(** ** Exceptions, the event trace and the input directory *)

Inductive exn : Type :=
| ValueError   (* int() on a string that is not an integer *)
| OSError.     (* open() on a path that cannot be read *)

Inductive result (A : Type) : Type :=
| Ok (a : A)
| Raise (e : exn).
Arguments Ok {A} a.
Arguments Raise {A} e.

(** The pure part of the code only fails or returns. *)
Definition rbind {A B} (r : result A) (k : A -> result B) : result B :=
  match r with
  | Ok a => k a
  | Raise e => Raise e
  end.

Fixpoint rmap {A B} (f : A -> result B) (l : list A) : result (list B) :=
  match l with
  | [] => Ok []
  | x :: l' => rbind (f x) (fun y => rbind (rmap f l') (fun ys => Ok (y :: ys)))
  end.

(** What the function does to the outside: it opens input files and
    writes to the output file. *)
Inductive event : Type :=
| Open (filename : string)
| Write (s : string).

(** A computation leaves a trace and then returns or raises. *)
Definition IO (A : Type) : Type := list event * result A.

Definition ret {A} (a : A) : IO A := ([], Ok a).
Definition raise {A} (e : exn) : IO A := ([], Raise e).
Definition write (s : string) : IO unit := ([Write s], Ok tt).
Definition lift {A} (r : result A) : IO A := ([], r).

Definition bind {A B} (m : IO A) (k : A -> IO B) : IO B :=
  match m with
  | (t, Ok a) => let (t', r) := k a in (t ++ t', r)
  | (t, Raise e) => (t, Raise e)
  end.

Notation "x <- m ;; k" := (bind m (fun x => k))
  (at level 61, m at next level, right associativity).
Notation "m ;;; k" := (bind m (fun _ => k))
  (at level 61, right associativity).

(** [for x in l: body x]. *)
Fixpoint for_each {A} (l : list A) (body : A -> IO unit) : IO unit :=
  match l with
  | [] => ret tt
  | x :: l' => body x ;;; for_each l' body
  end.

(** The strings written, in order, and the text they leave in the
    output file. *)
Fixpoint writes (t : list event) : list string :=
  match t with
  | [] => []
  | Write s :: t' => s :: writes t'
  | Open _ :: t' => writes t'
  end.

Fixpoint opens (t : list event) : list string :=
  match t with
  | [] => []
  | Open f :: t' => f :: opens t'
  | Write _ :: t' => opens t'
  end.

Definition file_text (t : list event) : string := String.concat "" (writes t).

(** A directory entry is a regular file with its text, or anything else
    (a subdirectory, a socket, a dangling link). *)
Inductive node : Type :=
| RegularFile (text : string)
| Other.

Definition directory : Type := list (string * node).

Fixpoint lookup (d : directory) (name : string) : option node :=
  match d with
  | [] => None
  | (n, x) :: d' => if (n =? name)%string then Some x else lookup d' name
  end.

(** [os.listdir], [os.path.isfile] and the lines of [open(path, 'r')]
    for a path directly inside the directory. *)
Definition listdir (d : directory) : list string := map fst d.

Definition isfile (d : directory) (name : string) : bool :=
  match lookup d name with
  | Some (RegularFile _) => true
  | _ => false
  end.

Definition open_lines (d : directory) (name : string) : IO (list string) :=
  match lookup d name with
  | Some (RegularFile text) => ([Open name], Ok (Py.readlines text))
  | _ => raise OSError
  end.

(** [list.sort()] on strings: a stable sort by code points. *)
Module StringOrder <: Orders.TotalLeBool.
Definition t := string.
Definition leb (x y : string) : bool := String.leb x y.
Lemma leb_total : forall x y, leb x y = true \/ leb y x = true.
Proof. exact String.leb_total. Qed.
End StringOrder.

Module StringSort := Sort StringOrder.

(* ================================================================= *)
(** ** merge_obj_files_in_memory *)

(** The three running offsets ([vertex_offset], [tex_offset],
    [norm_offset]). *)
Record offsets : Type := mkOffsets {
  vertex_offset : Z;
  tex_offset : Z;
  norm_offset : Z
}.

(** The four temporary buffers of one input file. *)
Record buffers : Type := mkBuffers {
  vertices : list string;
  texcoords : list string;
  normals : list string;
  faces : list string
}.

Definition no_buffers : buffers := mkBuffers [] [] [] [].

(** Pass 1, the body of [for line in in_f]. *)
Definition classify (b : buffers) (raw : string) : buffers :=
  let line := Py.strip raw in
  if (line =? "")%string then b
  else if Py.startswith line "o " || Py.startswith line "g " then b
  else if Py.startswith line "v " then
    mkBuffers (vertices b ++ [line]) (texcoords b) (normals b) (faces b)
  else if Py.startswith line "vt " then
    mkBuffers (vertices b) (texcoords b ++ [line]) (normals b) (faces b)
  else if Py.startswith line "vn " then
    mkBuffers (vertices b) (texcoords b) (normals b ++ [line]) (faces b)
  else if Py.startswith line "f " then
    mkBuffers (vertices b) (texcoords b) (normals b) (faces b ++ [line])
  else b.

Definition read_buffers (lines : list string) : buffers :=
  fold_left classify lines no_buffers.

(** One index of a face token: [int(indices[i]) + offset] when
    [len(indices) > i and indices[i]], otherwise the empty string,
    here [None]. *)
Definition index_field (indices : list string) (i : nat) (offset : Z)
  : result (option Z) :=
  match nth_error indices i with
  | Some s =>
      if (s =? "")%string then Ok None
      else match Py.int s with
           | Some z => Ok (Some (z + offset)%Z)
           | None => Raise ValueError
           end
  | None => Ok None
  end.

(** An f-string field: the decimal numeral, or nothing for [""]. *)
Definition fmt (x : option Z) : string :=
  match x with
  | Some z => Py.str z
  | None => ""
  end.

(** The body of [for p in parts]. *)
Definition renumber_token (o : offsets) (p : string) : result string :=
  let indices := Py.split_on "/" p in
  rbind (index_field indices 0 (vertex_offset o)) (fun v_idx =>
  rbind (index_field indices 1 (tex_offset o)) (fun t_idx =>
  rbind (index_field indices 2 (norm_offset o)) (fun n_idx =>
  Ok (match t_idx, n_idx with
      | None, None => fmt v_idx
      | _, None => fmt v_idx ++ "/" ++ fmt t_idx
      | _, _ => fmt v_idx ++ "/" ++ fmt t_idx ++ "/" ++ fmt n_idx
      end)%string))).

(** The tokens of a face line after the keyword, [face_line.split()[1:]]. *)
Definition face_parts (face_line : string) : list string :=
  tl (Py.split_ws face_line).

(** The string written for one face line. *)
Definition renumber_face (o : offsets) (face_line : string) : result string :=
  rbind (rmap (renumber_token o) (face_parts face_line)) (fun new_face_tokens =>
  Ok ("f " ++ Py.join " " new_face_tokens ++ Py.nl)%string).

(** The offsets after a file. *)
Definition advance (o : offsets) (b : buffers) : offsets :=
  mkOffsets (vertex_offset o + Z.of_nat (List.length (vertices b)))
            (tex_offset o + Z.of_nat (List.length (texcoords b)))
            (norm_offset o + Z.of_nat (List.length (normals b))).

Definition write_line (l : string) : IO unit := write (l ++ Py.nl).

(** The body of [for face_line in faces]: nothing is written for a face
    line when one of its tokens raises. *)
Definition write_face (o : offsets) (face_line : string) : IO unit :=
  s <- lift (renumber_face o face_line) ;; write s.

(** The body of [for filename in obj_files]; it returns the offsets for
    the next file. *)
Definition merge_file (d : directory) (o : offsets) (filename : string)
  : IO offsets :=
  let obj_name := fst (Py.splitext filename) in
  lines <- open_lines d filename ;;
  let b := read_buffers lines in
  write ("o " ++ obj_name ++ Py.nl) ;;;
  write ("g " ++ obj_name ++ Py.nl) ;;;
  for_each (vertices b) write_line ;;;
  for_each (texcoords b) write_line ;;;
  for_each (normals b) write_line ;;;
  for_each (faces b) (write_face o) ;;;
  ret (advance o b).

Fixpoint merge_files (d : directory) (o : offsets) (obj_files : list string)
  : IO unit :=
  match obj_files with
  | [] => ret tt
  | filename :: rest => o' <- merge_file d o filename ;; merge_files d o' rest
  end.

Definition is_obj_file (d : directory) (f : string) : bool :=
  Py.endswith (Py.lower f) ".obj" && isfile d f.

Definition obj_files (d : directory) : list string :=
  StringSort.sort (filter (is_obj_file d) (listdir d)).

Definition header : string := ("# Merged OBJ file" ++ Py.nl ++ Py.nl)%string.

Definition zero_offsets : offsets := mkOffsets 0 0 0.

Definition merge_obj_files_in_memory (d : directory) : IO unit :=
  write header ;;;
  merge_files d zero_offsets (obj_files d).

(** A small directory to run the function on. *)
Definition cube_text : string :=
  "# a comment
o Cube
v 0 0 0
v 1 0 0
v 1 1 0
vt 0 0
vn 0 0 1
vn 0 1 0
s off
f 1/1/1 2/1/1 3/1/2
f 1//2 2//2 3//1
".

Definition tri_text : string :=
  "v 5 5 5
v 6 5 5
v 6 6 5
vt 1 1
vn 1 0 0
g tri
f 1 2 3
f 1/1 2/1 3/1
f 3//1 2//1 1//1".

Definition sample_dir : directory :=
  [ ("tri.OBJ", RegularFile tri_text);
    ("notes.txt", RegularFile "v 9 9 9");
    ("sub.obj", Other);
    ("cube.obj", RegularFile cube_text) ].

(* ================================================================= *)
(** ** Running the embedding *)

Example ex_strip : Py.strip ("  v 1 2 3 " ++ Py.nl)%string = "v 1 2 3".
Proof. reflexivity. Qed.
Example ex_split_ws : Py.split_ws "f 1/2/3   4//5 6" = ["f"; "1/2/3"; "4//5"; "6"].
Proof. reflexivity. Qed.
Example ex_split_on : Py.split_on "/" "4//5" = ["4"; ""; "5"].
Proof. reflexivity. Qed.
Example ex_split_on_bare : Py.split_on "/" "12" = ["12"].
Proof. reflexivity. Qed.
Example ex_int : Py.int "0012" = Some 12%Z /\ Py.int "-7" = Some (-7)%Z
                 /\ Py.int "1_000" = Some 1000%Z /\ Py.int "1__0" = None
                 /\ Py.int "x" = None /\ Py.int "1.5" = None /\ Py.int "+" = None.
Proof. repeat split; reflexivity. Qed.
Example ex_int_space :
  Py.int (String (ascii_of_nat 9) "12 ") = Some 12%Z
  /\ Py.int (String (ascii_of_nat 28) "12") = None
  /\ Py.strip (String (ascii_of_nat 28) "12") = "12".
Proof. repeat split; reflexivity. Qed.
Example ex_str : Py.str 0 = "0" /\ Py.str 120 = "120" /\ Py.str (-45) = "-45".
Proof. repeat split; reflexivity. Qed.
Example ex_splitext :
  Py.splitext "cube.obj" = ("cube", ".obj")
  /\ Py.splitext "a.b.OBJ" = ("a.b", ".OBJ")
  /\ Py.splitext ".obj" = (".obj", "")
  /\ Py.splitext "..obj" = ("..obj", "")
  /\ Py.splitext "x/.y" = ("x/.y", "").
Proof. repeat split; reflexivity. Qed.
Example ex_endswith :
  Py.endswith (Py.lower "Cube.OBJ") ".obj" = true
  /\ Py.endswith (Py.lower "cube.obj.bak") ".obj" = false
  /\ Py.endswith (Py.lower "obj") ".obj" = false.
Proof. repeat split; reflexivity. Qed.

Example ex_sample_text :
  file_text (fst (merge_obj_files_in_memory sample_dir))
  = "# Merged OBJ file

o cube
g cube
v 0 0 0
v 1 0 0
v 1 1 0
vt 0 0
vn 0 0 1
vn 0 1 0
f 1/1/1 2/1/1 3/1/2
f 1//2 2//2 3//1
o tri
g tri
v 5 5 5
v 6 5 5
v 6 6 5
vt 1 1
vn 1 0 0
f 4 5 6
f 4/2 5/2 6/2
f 6//3 5//3 4//3
"
  /\ snd (merge_obj_files_in_memory sample_dir) = Ok tt
  /\ opens (fst (merge_obj_files_in_memory sample_dir)) = ["cube.obj"; "tri.OBJ"].
Proof. repeat split; reflexivity. Qed.

(* ================================================================= *)
(** ** Facts about the string primitives *)

(** A property of one character is settled by trying all 256. *)
Ltac by_cases_on_char c :=
  destruct c as [[] [] [] [] [] [] [] []]; vm_compute; congruence.

Section StringFacts.

Fixpoint all_chars (P : ascii -> bool) (s : string) : bool :=
  match s with
  | "" => true
  | String c s' => P c && all_chars P s'
  end.

(** A character of a decimal numeral: a digit or the minus sign. *)
Definition numeral_char (c : ascii) : bool := Py.isdigit c || (c =? "-")%char.

Definition not_char (x : ascii) (c : ascii) : bool := negb (c =? x)%char.

Lemma all_chars_impl (P Q : ascii -> bool) s :
  (forall c, P c = true -> Q c = true) ->
  all_chars P s = true -> all_chars Q s = true.
Proof.
  intros HPQ. induction s as [|c s IH]; simpl; [reflexivity|].
  rewrite !andb_true_iff. intros [Hc Hs]. split; auto.
Qed.

Lemma all_chars_app P s1 s2 :
  all_chars P (s1 ++ s2) = all_chars P s1 && all_chars P s2.
Proof.
  induction s1 as [|c s1 IH]; simpl; [reflexivity|].
  now rewrite IH, andb_assoc.
Qed.

Lemma append_assoc (s1 s2 s3 : string) :
  ((s1 ++ s2) ++ s3 = s1 ++ (s2 ++ s3))%string.
Proof. induction s1 as [|c s1 IH]; simpl; [reflexivity | now rewrite IH]. Qed.

Lemma append_nil_r (s : string) : (s ++ "")%string = s.
Proof. induction s as [|c s IH]; simpl; [reflexivity | now rewrite IH]. Qed.

(** *** The numeral printed by [str] *)

Fixpoint uint_value (acc : Z) (d : Decimal.uint) : Z :=
  match d with
  | Decimal.Nil => acc
  | Decimal.D0 d' => uint_value (10 * acc + 0) d'
  | Decimal.D1 d' => uint_value (10 * acc + 1) d'
  | Decimal.D2 d' => uint_value (10 * acc + 2) d'
  | Decimal.D3 d' => uint_value (10 * acc + 3) d'
  | Decimal.D4 d' => uint_value (10 * acc + 4) d'
  | Decimal.D5 d' => uint_value (10 * acc + 5) d'
  | Decimal.D6 d' => uint_value (10 * acc + 6) d'
  | Decimal.D7 d' => uint_value (10 * acc + 7) d'
  | Decimal.D8 d' => uint_value (10 * acc + 8) d'
  | Decimal.D9 d' => uint_value (10 * acc + 9) d'
  end.

Lemma of_uint_acc_value d : forall acc,
  Zpos (Pos.of_uint_acc d acc) = uint_value (Zpos acc) d.
Proof.
  induction d; intros acc; cbn [Pos.of_uint_acc uint_value];
    try reflexivity; rewrite IHd; f_equal; lia.
Qed.

Lemma of_uint_value d : Z.of_N (Pos.of_uint d) = uint_value 0 d.
Proof.
  induction d; cbn [Pos.of_uint uint_value]; try reflexivity;
    try assumption; apply of_uint_acc_value.
Qed.

Lemma int_digits_uint d : forall acc,
  Py.int_digits acc true (NilEmpty.string_of_uint d) = Some (uint_value acc d).
Proof.
  induction d; intros acc; simpl; try reflexivity; apply IHd.
Qed.

Lemma int_digits_uint_start d :
  d <> Decimal.Nil ->
  Py.int_digits 0 false (NilEmpty.string_of_uint d) = Some (uint_value 0 d).
Proof.
  destruct d; intros Hd; try congruence; simpl; apply int_digits_uint.
Qed.

Lemma string_of_uint_digits d :
  all_chars Py.isdigit (NilEmpty.string_of_uint d) = true.
Proof. induction d; simpl; auto. Qed.

Lemma pos_to_uint_nonnil p : Pos.to_uint p <> Decimal.Nil.
Proof.
  intros H. pose proof (DecimalPos.Unsigned.of_to p) as E.
  rewrite H in E. discriminate E.
Qed.

Lemma str_pos p : Py.str (Zpos p) = NilEmpty.string_of_uint (Pos.to_uint p).
Proof.
  unfold Py.str; simpl. unfold NilZero.string_of_uint.
  pose proof (pos_to_uint_nonnil p). destruct (Pos.to_uint p); congruence.
Qed.

Lemma str_neg p :
  Py.str (Zneg p) = String "-" (NilEmpty.string_of_uint (Pos.to_uint p)).
Proof.
  unfold Py.str; simpl. unfold NilZero.string_of_uint.
  pose proof (pos_to_uint_nonnil p). destruct (Pos.to_uint p); congruence.
Qed.

Lemma uint_value_pos p : uint_value 0 (Pos.to_uint p) = Zpos p.
Proof.
  rewrite <- of_uint_value, DecimalPos.Unsigned.of_to. reflexivity.
Qed.

Lemma str_numeral z : all_chars numeral_char (Py.str z) = true.
Proof.
  destruct z as [|p|p].
  - reflexivity.
  - rewrite str_pos. apply all_chars_impl with (P := Py.isdigit).
    + intros c Hc. unfold numeral_char. now rewrite Hc.
    + apply string_of_uint_digits.
  - rewrite str_neg. simpl. apply all_chars_impl with (P := Py.isdigit).
    + intros c Hc. unfold numeral_char. now rewrite Hc.
    + apply string_of_uint_digits.
Qed.

Lemma str_nonempty z : Py.str z <> "".
Proof.
  destruct z as [|p|p].
  - discriminate.
  - rewrite str_pos. pose proof (pos_to_uint_nonnil p).
    destruct (Pos.to_uint p); simpl; congruence.
  - rewrite str_neg. discriminate.
Qed.

(** *** White space and [strip] *)

Definition nonspace (c : ascii) : bool := negb (Py.isspace c).

Lemma numeral_char_nonspace c : numeral_char c = true -> nonspace c = true.
Proof. by_cases_on_char c. Qed.

Lemma numeral_char_not_slash c : numeral_char c = true -> not_char "/" c = true.
Proof. by_cases_on_char c. Qed.

Lemma rstrip_nonspace s : all_chars nonspace s = true -> Py.rstrip s = s.
Proof.
  induction s as [|c s IH]; simpl; [reflexivity|].
  rewrite andb_true_iff. intros [Hc Hs]. rewrite (IH Hs).
  unfold nonspace in Hc. apply negb_true_iff in Hc. rewrite Hc.
  now destruct s.
Qed.

Lemma lstrip_nonspace s : all_chars nonspace s = true -> Py.lstrip s = s.
Proof.
  destruct s as [|c s]; simpl; [reflexivity|].
  rewrite andb_true_iff. intros [Hc _].
  unfold nonspace in Hc. apply negb_true_iff in Hc. now rewrite Hc.
Qed.

Lemma strip_nonspace s : all_chars nonspace s = true -> Py.strip s = s.
Proof.
  intros H. unfold Py.strip. rewrite (lstrip_nonspace s H).
  now apply rstrip_nonspace.
Qed.

Lemma numeral_char_not_int_space c :
  numeral_char c = true -> Py.int_space c = false.
Proof. by_cases_on_char c. Qed.

Lemma int_strip_numeral s :
  all_chars numeral_char s = true -> Py.int_rstrip (Py.int_lstrip s) = s.
Proof.
  intros H. assert (E : Py.int_lstrip s = s).
  { destruct s as [|c s]; [reflexivity|]. cbn [all_chars] in H.
    apply andb_true_iff in H. destruct H as [Hc _]. cbn [Py.int_lstrip].
    now rewrite (numeral_char_not_int_space c Hc). }
  rewrite E. clear E. induction s as [|c s IH]; [reflexivity|].
  cbn [all_chars] in H. apply andb_true_iff in H. destruct H as [Hc Hs].
  cbn [Py.int_rstrip]. rewrite (IH Hs), (numeral_char_not_int_space c Hc).
  now destruct s.
Qed.

(** [int] reads back what [str] prints. *)
Lemma int_str z : Py.int (Py.str z) = Some z.
Proof.
  unfold Py.int. rewrite int_strip_numeral by apply str_numeral.
  destruct z as [|p|p].
  - reflexivity.
  - rewrite str_pos.
    transitivity (Some (uint_value 0 (Pos.to_uint p)));
      [|now rewrite uint_value_pos].
    pose proof (pos_to_uint_nonnil p) as Hn.
    destruct (Pos.to_uint p); try congruence; simpl; apply int_digits_uint.
  - rewrite str_neg. simpl.
    rewrite int_digits_uint_start by apply pos_to_uint_nonnil.
    simpl. now rewrite uint_value_pos.
Qed.

(** *** Splitting at a separator *)

Lemma split_on_nonempty sep s : Py.split_on sep s <> [].
Proof.
  destruct s as [|c s]; simpl; [discriminate|].
  destruct (c =? sep)%char; [discriminate|].
  destruct (Py.split_on sep s); discriminate.
Qed.

Lemma split_on_no_sep sep s :
  all_chars (not_char sep) s = true -> Py.split_on sep s = [s].
Proof.
  induction s as [|c s IH]; simpl; [reflexivity|].
  rewrite andb_true_iff. intros [Hc Hs].
  unfold not_char in Hc. apply negb_true_iff in Hc. rewrite Hc.
  now rewrite (IH Hs).
Qed.

Lemma split_on_app sep s rest :
  all_chars (not_char sep) s = true ->
  Py.split_on sep (s ++ String sep rest) = s :: Py.split_on sep rest.
Proof.
  induction s as [|c s IH]; simpl.
  - intros _. now rewrite Ascii.eqb_refl.
  - rewrite andb_true_iff. intros [Hc Hs].
    unfold not_char in Hc. apply negb_true_iff in Hc. rewrite Hc.
    now rewrite (IH Hs).
Qed.

(** The fields that [split_on] returns do not contain the separator. *)
Lemma split_on_fields sep s :
  Forall (fun f => all_chars (not_char sep) f = true) (Py.split_on sep s).
Proof.
  induction s as [|c s IH]; simpl.
  - repeat constructor.
  - destruct (c =? sep)%char eqn:Hc.
    + constructor; [reflexivity | exact IH].
    + destruct (Py.split_on sep s) as [|w ws].
      * repeat constructor. simpl. unfold not_char. now rewrite Hc.
      * inversion IH; subst. constructor; [|assumption].
        simpl. unfold not_char at 1. now rewrite Hc.
Qed.

(** Joining fields with the separator and splitting again gives the
    fields back. *)
Lemma split_on_join sep f fs :
  Forall (fun f => all_chars (not_char sep) f = true) (f :: fs) ->
  Py.split_on sep (Py.join (String sep "") (f :: fs)) = f :: fs.
Proof.
  revert f. induction fs as [|g fs IH]; intros f H.
  - simpl. apply split_on_no_sep. now inversion H.
  - inversion H; subst.
    change (Py.join (String sep "") (f :: g :: fs))
      with (f ++ String sep (Py.join (String sep "") (g :: fs)))%string.
    rewrite split_on_app by assumption. now rewrite IH.
Qed.

Lemma str_no_slash z : all_chars (not_char "/") (Py.str z) = true.
Proof.
  apply all_chars_impl with (P := numeral_char);
    [exact numeral_char_not_slash | apply str_numeral].
Qed.

End StringFacts.

(* ================================================================= *)
(** ** Renumbering one face token *)

Section Tokens.

(** Field [i] of a token, [""] when the token has no such field. *)
Definition nth_field (p : string) (i : nat) : string :=
  nth i (Py.split_on "/" p) "".

(** The running offset that belongs to field [i]. *)
Definition offset_of (o : offsets) (i : nat) : Z :=
  match i with
  | 0 => vertex_offset o
  | 1 => tex_offset o
  | _ => norm_offset o
  end.

(** A field is well formed when it is absent or reads as an integer. *)
Definition field_ok (s : string) : bool :=
  (s =? "")%string || match Py.int s with Some _ => true | None => false end.

Definition token_ok (p : string) : bool :=
  field_ok (nth_field p 0) && field_ok (nth_field p 1) && field_ok (nth_field p 2).

(** The token built from the three renumbered indices. *)
Definition assemble (v_idx t_idx n_idx : option Z) : string :=
  match t_idx, n_idx with
  | None, None => fmt v_idx
  | _, None => fmt v_idx ++ "/" ++ fmt t_idx
  | _, _ => fmt v_idx ++ "/" ++ fmt t_idx ++ "/" ++ fmt n_idx
  end.

Lemma index_field_spec p i off :
  index_field (Py.split_on "/" p) i off =
  if (nth_field p i =? "")%string then Ok None
  else match Py.int (nth_field p i) with
       | Some z => Ok (Some (z + off)%Z)
       | None => Raise ValueError
       end.
Proof.
  unfold index_field, nth_field.
  destruct (nth_error (Py.split_on "/" p) i) as [s|] eqn:E.
  - now rewrite (nth_error_nth _ _ "" E).
  - apply nth_error_None in E. now rewrite nth_overflow.
Qed.

Lemma renumber_token_unfold o p :
  renumber_token o p =
  rbind (index_field (Py.split_on "/" p) 0 (vertex_offset o)) (fun v =>
  rbind (index_field (Py.split_on "/" p) 1 (tex_offset o)) (fun t =>
  rbind (index_field (Py.split_on "/" p) 2 (norm_offset o)) (fun n =>
  Ok (assemble v t n)))).
Proof. reflexivity. Qed.

Lemma fmt_no_slash x : all_chars (not_char "/") (fmt x) = true.
Proof. destruct x; simpl; [apply str_no_slash | reflexivity]. Qed.

(** The fields of an assembled token. *)
Lemma split_assemble v t n :
  Py.split_on "/" (assemble v t n) =
  match t, n with
  | None, None => [fmt v]
  | _, None => [fmt v; fmt t]
  | _, _ => [fmt v; fmt t; fmt n]
  end.
Proof.
  unfold assemble.
  destruct t as [t|], n as [n|];
    repeat (first [ rewrite split_on_app by apply fmt_no_slash
                  | rewrite split_on_no_sep by apply fmt_no_slash
                  | change ("/" ++ ?s)%string with (String "/" s) ]);
    reflexivity.
Qed.

Lemma nth_field_assemble v t n i :
  i < 3 -> nth_field (assemble v t n) i = fmt (nth i [v; t; n] None).
Proof.
  intros Hi. unfold nth_field. rewrite split_assemble.
  destruct i as [|[|[|i]]]; [| | |lia]; destruct t, n; reflexivity.
Qed.

(** A token is renumbered exactly when its three fields are well
    formed; a field that does not read as an integer raises. *)
Lemma renumber_token_ok o p :
  token_ok p = true ->
  exists v t n,
    renumber_token o p = Ok (assemble v t n)
    /\ forall i, i < 3 ->
       index_field (Py.split_on "/" p) i (offset_of o i)
       = Ok (nth i [v; t; n] None).
Proof.
  unfold token_ok, field_ok. rewrite !andb_true_iff, !orb_true_iff.
  intros [[H0 H1] H2].
  rewrite renumber_token_unfold.
  assert (F : forall i off, (nth_field p i =? "")%string = true
              \/ match Py.int (nth_field p i) with Some _ => true | None => false end = true ->
              exists x, index_field (Py.split_on "/" p) i off = Ok x).
  { intros i off H. rewrite index_field_spec.
    destruct (nth_field p i =? "")%string; [eauto|].
    destruct H as [H|H]; [discriminate|].
    destruct (Py.int (nth_field p i)); [eauto | discriminate]. }
  destruct (F 0 (vertex_offset o) H0) as [v Ev].
  destruct (F 1 (tex_offset o) H1) as [t Et].
  destruct (F 2 (norm_offset o) H2) as [n En].
  exists v, t, n. rewrite Ev, Et, En. split; [reflexivity|].
  intros i Hi. destruct i as [|[|[|i]]]; simpl; auto; lia.
Qed.

Lemma renumber_token_bad o p :
  token_ok p = false -> renumber_token o p = Raise ValueError.
Proof.
  unfold token_ok, field_ok. rewrite renumber_token_unfold, !index_field_spec.
  intros H.
  destruct (nth_field p 0 =? "")%string; simpl in *;
  [|destruct (Py.int (nth_field p 0)); simpl in *; [|reflexivity]];
  (destruct (nth_field p 1 =? "")%string; simpl in *;
   [|destruct (Py.int (nth_field p 1)); simpl in *; [|reflexivity]]);
  (destruct (nth_field p 2 =? "")%string; simpl in *;
   [|destruct (Py.int (nth_field p 2)); simpl in *; [|reflexivity]]);
  discriminate.
Qed.

Lemma renumber_token_raises o p e :
  renumber_token o p = Raise e -> e = ValueError /\ token_ok p = false.
Proof.
  intros H. destruct (token_ok p) eqn:E.
  - destruct (renumber_token_ok o p E) as (v & t & n & Hr & _). congruence.
  - rewrite (renumber_token_bad o p E) in H. split; congruence.
Qed.

(** What a renumbered token holds in each of its three positions. *)
Lemma renumber_token_fields o p p' :
  renumber_token o p = Ok p' ->
  forall i, i < 3 ->
    (nth_field p i = "" /\ nth_field p' i = "")
    \/ (nth_field p i <> "" /\
        exists z, Py.int (nth_field p i) = Some z
                  /\ nth_field p' i = Py.str (z + offset_of o i)).
Proof.
  intros H i Hi.
  destruct (token_ok p) eqn:E;
    [|rewrite (renumber_token_bad o p E) in H; discriminate].
  destruct (renumber_token_ok o p E) as (v & t & n & Hr & Hf).
  rewrite Hr in H. injection H as <-.
  rewrite nth_field_assemble by assumption.
  specialize (Hf i Hi). rewrite index_field_spec in Hf.
  destruct (nth_field p i =? "")%string eqn:Ee.
  - apply String.eqb_eq in Ee. left. split; [assumption|].
    replace (nth i [v; t; n] None) with (@None Z) by congruence. reflexivity.
  - apply String.eqb_neq in Ee. right. split; [assumption|].
    destruct (Py.int (nth_field p i)) as [z|]; [|discriminate].
    exists z. split; [reflexivity|].
    replace (nth i [v; t; n] None) with (Some (z + offset_of o i)%Z)
      by congruence.
    reflexivity.
Qed.

End Tokens.

Example ex_token_vtn : renumber_token (mkOffsets 10 20 30) "1/2/3" = Ok "11/22/33".
Proof. reflexivity. Qed.
Example ex_token_vn : renumber_token (mkOffsets 10 20 30) "1//3" = Ok "11//33".
Proof. reflexivity. Qed.
Example ex_token_v : renumber_token (mkOffsets 10 20 30) "7" = Ok "17".
Proof. reflexivity. Qed.
Example ex_token_four : renumber_token (mkOffsets 10 20 30) "1/2/3/x" = Ok "11/22/33".
Proof. reflexivity. Qed.
Example ex_token_bad : renumber_token (mkOffsets 10 20 30) "1/x/3" = Raise ValueError.
Proof. reflexivity. Qed.

(* ================================================================= *)
(** ** Pass 1: the four buffers of a file *)

Section Buffers.

(** [line] if it starts with the keyword, nothing otherwise. *)
Definition keep (keyword line : string) : list string :=
  if Py.startswith line keyword then [line] else [].

Ltac split_keyword :=
  repeat first
    [ progress cbn [Py.startswith andb orb String.eqb]
    | match goal with
      | |- context [(?a =? ?b)%char] =>
          is_var b; destruct (Ascii.eqb_spec a b); [subst b|]
      | |- context [(?a =? ?b)%char] =>
          let v := eval vm_compute in (a =? b)%char in
          change (a =? b)%char with v
      | |- context [match ?s with "" => _ | String _ _ => _ end] =>
          is_var s; destruct s
      end ].

(** Each stripped line goes to at most one buffer, chosen by its
    keyword; blank lines, [o]/[g] lines and all others go nowhere. *)
Lemma classify_keep b raw :
  classify b raw =
  let line := Py.strip raw in
  mkBuffers (vertices b ++ keep "v " line) (texcoords b ++ keep "vt " line)
            (normals b ++ keep "vn " line) (faces b ++ keep "f " line).
Proof.
  unfold classify, keep. cbv zeta.
  destruct b as [vs ts ns fs]. remember (Py.strip raw) as line eqn:E. clear E.
  cbn [vertices texcoords normals faces].
  destruct line as [|c1 line]; [cbn; now rewrite !app_nil_r|].
  split_keyword; cbn [app]; rewrite ?app_nil_r; reflexivity.
Qed.

Lemma read_buffers_from b lines :
  fold_left classify lines b =
  mkBuffers
    (vertices b ++ flat_map (fun raw => keep "v " (Py.strip raw)) lines)
    (texcoords b ++ flat_map (fun raw => keep "vt " (Py.strip raw)) lines)
    (normals b ++ flat_map (fun raw => keep "vn " (Py.strip raw)) lines)
    (faces b ++ flat_map (fun raw => keep "f " (Py.strip raw)) lines).
Proof.
  revert b. induction lines as [|raw lines IH]; intros b; simpl.
  - destruct b; simpl. now rewrite !app_nil_r.
  - rewrite IH, classify_keep. cbn [vertices texcoords normals faces].
    now rewrite <- !app_assoc.
Qed.

Lemma flat_map_keep keyword lines :
  flat_map (fun raw => keep keyword (Py.strip raw)) lines
  = filter (fun line => Py.startswith line keyword) (map Py.strip lines).
Proof.
  induction lines as [|raw lines IH]; simpl; [reflexivity|].
  unfold keep at 1. destruct (Py.startswith (Py.strip raw) keyword); simpl;
    now rewrite IH.
Qed.

(** The buffers hold, in file order, the stripped lines that start with
    [v ], [vt ], [vn ] and [f ]. *)
Lemma read_buffers_filter lines :
  let stripped := map Py.strip lines in
  read_buffers lines =
  mkBuffers (filter (fun l => Py.startswith l "v ") stripped)
            (filter (fun l => Py.startswith l "vt ") stripped)
            (filter (fun l => Py.startswith l "vn ") stripped)
            (filter (fun l => Py.startswith l "f ") stripped).
Proof.
  cbv zeta. unfold read_buffers. rewrite read_buffers_from. simpl.
  now rewrite !flat_map_keep.
Qed.

End Buffers.

(* ================================================================= *)
(** ** The trace of a merge *)

Section Trace.

(** The buffers that Pass 1 fills for a directory entry. *)
Definition file_buffers (d : directory) (name : string) : buffers :=
  match lookup d name with
  | Some (RegularFile text) => read_buffers (Py.readlines text)
  | _ => no_buffers
  end.

(** A face line, and a file, all of whose tokens are well formed. *)
Definition face_ok (face_line : string) : bool :=
  forallb token_ok (face_parts face_line).

Definition file_ok (d : directory) (name : string) : bool :=
  forallb face_ok (faces (file_buffers d name)).

(** The face lines written before the first one that raises. *)
Fixpoint face_lines (o : offsets) (fs : list string) : list string :=
  match fs with
  | [] => []
  | face_line :: fs' =>
      match renumber_face o face_line with
      | Ok s => s :: face_lines o fs'
      | Raise _ => []
      end
  end.

Definition line_writes (ls : list string) : list event :=
  map (fun l => Write (l ++ Py.nl)) ls.

(** The events of one file: the file is opened and read, then come the
    two headers, the three verbatim buffers and the face lines. *)
Definition block (d : directory) (o : offsets) (name : string) : list event :=
  let b := file_buffers d name in
  let obj_name := fst (Py.splitext name) in
  Open name
  :: Write ("o " ++ obj_name ++ Py.nl)
  :: Write ("g " ++ obj_name ++ Py.nl)
  :: line_writes (vertices b) ++ line_writes (texcoords b)
     ++ line_writes (normals b) ++ map Write (face_lines o (faces b)).

(** The events of a list of files, up to and including the first file
    with an ill-formed face token. *)
Fixpoint blocks (d : directory) (o : offsets) (names : list string)
  : list event :=
  match names with
  | [] => []
  | name :: rest =>
      block d o name
      ++ (if file_ok d name
          then blocks d (advance o (file_buffers d name)) rest
          else [])
  end.

(** The offsets after a list of files. *)
Definition offsets_after (d : directory) (o : offsets) (names : list string)
  : offsets :=
  fold_left (fun o name => advance o (file_buffers d name)) names o.

Definition status (ok : bool) : result unit :=
  if ok then Ok tt else Raise ValueError.

Lemma bind_ok {A B} t (a : A) (k : A -> IO B) :
  bind (t, Ok a) k = (t ++ fst (k a), snd (k a)).
Proof. unfold bind. now destruct (k a). Qed.

Lemma bind_raise {A B} t e (k : A -> IO B) :
  bind (t, Raise e) k = (t, Raise e).
Proof. reflexivity. Qed.

Lemma rmap_ok {A B} (f : A -> result B) l :
  Forall (fun x => exists y, f x = Ok y) l ->
  exists ys, rmap f l = Ok ys /\ Forall2 (fun x y => f x = Ok y) l ys.
Proof.
  induction 1 as [|x l [y Hy] _ (ys & Hys & HF)]; simpl.
  - exists []. split; [reflexivity | constructor].
  - exists (y :: ys). rewrite Hy, Hys. split; [reflexivity|].
    now constructor.
Qed.

Lemma rmap_raise {A B} (f : A -> result B) l x e :
  In x l -> f x = Raise e ->
  (forall y e', f y = Raise e' -> e' = e) ->
  rmap f l = Raise e.
Proof.
  intros Hin Hx Hu. induction l as [|y l IH]; simpl in *; [contradiction|].
  destruct (f y) as [b|e'] eqn:Ey; simpl.
  - destruct Hin as [->|Hin]; [congruence|]. now rewrite (IH Hin).
  - f_equal. eauto.
Qed.

(** *** One face line *)

Lemma renumber_face_ok o face_line :
  face_ok face_line = true ->
  exists toks,
    renumber_face o face_line = Ok ("f " ++ Py.join " " toks ++ Py.nl)%string
    /\ Forall2 (fun p p' => renumber_token o p = Ok p')
               (face_parts face_line) toks.
Proof.
  unfold face_ok. rewrite forallb_forall. intros H.
  destruct (rmap_ok (renumber_token o) (face_parts face_line)) as (ys & E & F).
  - apply Forall_forall. intros p Hp.
    destruct (renumber_token_ok o p (H p Hp)) as (v & t & n & Hr & _). eauto.
  - exists ys. unfold renumber_face. rewrite E. now split.
Qed.

Lemma renumber_face_bad o face_line :
  face_ok face_line = false -> renumber_face o face_line = Raise ValueError.
Proof.
  unfold face_ok. intros H.
  assert (exists p, In p (face_parts face_line) /\ token_ok p = false)
    as (p & Hin & Hp).
  { clear o. induction (face_parts face_line) as [|q l IH]; simpl in H;
      [discriminate|].
    destruct (token_ok q) eqn:Eq; simpl in H.
    - destruct (IH H) as (p & Hin & Hp). exists p. split; [now right | easy].
    - exists q. split; [now left | easy]. }
  unfold renumber_face.
  rewrite (rmap_raise (renumber_token o) _ p ValueError Hin);
    [reflexivity | now apply renumber_token_bad |].
  intros y e' Hy. now apply renumber_token_raises in Hy.
Qed.

(** *** The three loops that write a file's block *)

Lemma for_each_write_line ls :
  for_each ls write_line = (line_writes ls, Ok tt).
Proof.
  induction ls as [|l ls IH]; cbn [for_each]; [reflexivity|].
  unfold write_line at 1, write. now rewrite bind_ok, IH.
Qed.

Lemma for_each_write_face o fs :
  for_each fs (write_face o)
  = (map Write (face_lines o fs), status (forallb face_ok fs)).
Proof.
  induction fs as [|f fs IH]; cbn [for_each face_lines forallb];
    [reflexivity|].
  unfold write_face at 1, lift.
  destruct (face_ok f) eqn:E.
  - destruct (renumber_face_ok o f E) as (toks & Hr & _).
    rewrite Hr. unfold write. rewrite !bind_ok. simpl. now rewrite IH.
  - rewrite (renumber_face_bad o f E). reflexivity.
Qed.

(** *** One file *)

Lemma merge_file_spec d o name :
  isfile d name = true ->
  merge_file d o name
  = (block d o name,
     if file_ok d name then Ok (advance o (file_buffers d name))
     else Raise ValueError).
Proof.
  unfold isfile, merge_file, block, open_lines, file_ok, file_buffers.
  destruct (lookup d name) as [[text|]|]; try discriminate. intros _.
  unfold write. rewrite !bind_ok, !for_each_write_line, !bind_ok.
  rewrite for_each_write_face.
  destruct (forallb face_ok (faces (read_buffers (Py.readlines text))));
    simpl; rewrite ?app_nil_r; reflexivity.
Qed.

(** *** All files *)

Lemma merge_files_spec d names : forall o,
  Forall (fun name => isfile d name = true) names ->
  merge_files d o names
  = (blocks d o names, status (forallb (file_ok d) names)).
Proof.
  induction names as [|name rest IH]; intros o H;
    cbn [merge_files blocks forallb]; [reflexivity|].
  inversion H as [|? ? Hname Hrest]; subst.
  rewrite (merge_file_spec d o name Hname).
  destruct (file_ok d name); cbn [andb].
  - rewrite bind_ok, (IH _ Hrest). reflexivity.
  - rewrite bind_raise. now rewrite app_nil_r.
Qed.

Lemma obj_files_perm d :
  Permutation (filter (is_obj_file d) (listdir d)) (obj_files d).
Proof. apply StringSort.Permuted_sort. Qed.

Lemma obj_files_in d name :
  In name (obj_files d) <-> In name (listdir d) /\ is_obj_file d name = true.
Proof.
  rewrite <- filter_In. split; apply Permutation_in;
    [symmetry|]; apply obj_files_perm.
Qed.

Lemma obj_files_isfile d :
  Forall (fun name => isfile d name = true) (obj_files d).
Proof.
  apply Forall_forall. intros name H. apply obj_files_in in H.
  destruct H as [_ H]. unfold is_obj_file in H.
  now apply andb_true_iff in H.
Qed.

(** The whole function: the header, then the blocks of the merged
    files; the result tells whether every face token was well formed. *)
Lemma merge_spec d :
  merge_obj_files_in_memory d
  = (Write header :: blocks d zero_offsets (obj_files d),
     status (forallb (file_ok d) (obj_files d))).
Proof.
  unfold merge_obj_files_in_memory, write.
  rewrite bind_ok, (merge_files_spec d _ _ (obj_files_isfile d)).
  reflexivity.
Qed.

End Trace.

(* ================================================================= *)
(** ** Properties of the renumbered tokens *)

Lemma renumber_token_ext o p q :
  (forall i, i < 3 -> nth_field p i = nth_field q i) ->
  renumber_token o p = renumber_token o q.
Proof.
  intros H. rewrite !renumber_token_unfold, !index_field_spec.
  now rewrite (H 0), (H 1), (H 2) by lia.
Qed.

Lemma append_length (s1 s2 : string) :
  String.length (s1 ++ s2) = String.length s1 + String.length s2.
Proof. induction s1 as [|c s1 IH]; simpl; [reflexivity | now rewrite IH]. Qed.

(** The printed form of field [i] after renumbering: empty when the
    field is absent. *)
Definition renumbered (o : offsets) (i : nat) (s : string) : string :=
  if (s =? "")%string then ""
  else match Py.int s with
       | Some z => Py.str (z + offset_of o i)
       | None => ""
       end.

Lemma renumbered_no_slash o i s :
  all_chars (not_char "/") (renumbered o i s) = true.
Proof.
  unfold renumbered. destruct (s =? "")%string; [reflexivity|].
  destruct (Py.int s); [apply str_no_slash | reflexivity].
Qed.

Lemma index_field_renumbered o p i x :
  index_field (Py.split_on "/" p) i (offset_of o i) = Ok x ->
  fmt x = renumbered o i (nth_field p i).
Proof.
  rewrite index_field_spec. unfold renumbered.
  destruct (nth_field p i =? "")%string; [now intros [= <-]|].
  destruct (Py.int (nth_field p i)); [now intros [= <-] | discriminate].
Qed.

(** C8: a face token without a slash that holds a vertex index is
    re-emitted as the bare decimal numeral of the index plus the vertex
    offset; the emitted token contains no slash, so it gains no texcoord
    or normal position. *)
Theorem C8_bare_vertex_index_stays_bare :
  forall (o : offsets) (p : string) (z : Z),
    all_chars (not_char "/") p = true ->
    Py.int p = Some z ->
    renumber_token o p = Ok (Py.str (z + vertex_offset o))
    /\ Py.split_on "/" (Py.str (z + vertex_offset o))
       = [Py.str (z + vertex_offset o)].
Proof.
  intros o p z Hp Hz. split; [|apply split_on_no_sep, str_no_slash].
  rewrite renumber_token_unfold. unfold index_field.
  rewrite (split_on_no_sep _ _ Hp). simpl.
  destruct (p =? "")%string eqn:E.
  - apply String.eqb_eq in E. subst p. discriminate Hz.
  - now rewrite Hz.
Qed.

Lemma C8_witness :
  all_chars (not_char "/") "3" = true
  /\ Py.int "3" = Some 3%Z
  /\ renumber_token (mkOffsets 8 4 2) "3" = Ok "11"
  /\ Py.split_on "/" "11" = ["11"].
Proof.
  split; [reflexivity|]. split; [reflexivity|].
  exact (C8_bare_vertex_index_stays_bare (mkOffsets 8 4 2) "3" 3%Z
           eq_refl eq_refl).
Defined.

Example ex_face_bare :
  renumber_face (mkOffsets 8 4 2) "f 1 2 3" = Ok ("f 9 10 11" ++ Py.nl)%string.
Proof. reflexivity. Qed.

(** C2: a well-formed face token whose texcoord field is empty and
    whose normal field holds an index is re-emitted with both slashes:
    the renumbered vertex, an empty texcoord position and the renumbered
    normal.  It is never the collapsed two-field form. *)
Theorem C2_double_slash_preserved :
  forall (o : offsets) (p : string) (n : Z),
    token_ok p = true ->
    nth_field p 1 = "" ->
    Py.int (nth_field p 2) = Some n ->
    let v' := renumbered o 0 (nth_field p 0) in
    let n' := Py.str (n + norm_offset o) in
    renumber_token o p = Ok (v' ++ "//" ++ n')%string
    /\ Py.split_on "/" (v' ++ "//" ++ n') = [v'; ""; n']
    /\ (v' ++ "//" ++ n' <> v' ++ "/" ++ n')%string.
Proof.
  intros o p n Hok H1 H2 v' n'.
  destruct (renumber_token_ok o p Hok) as (v & t & x & Hr & Hf).
  pose proof (Hf 0 ltac:(lia)) as F0. pose proof (Hf 1 ltac:(lia)) as F1.
  pose proof (Hf 2 ltac:(lia)) as F2. cbn [nth] in F0, F1, F2.
  apply index_field_renumbered in F0.
  rewrite index_field_spec, H1 in F1. cbn in F1. injection F1 as <-.
  rewrite index_field_spec, H2 in F2.
  destruct (nth_field p 2 =? "")%string eqn:E.
  { apply String.eqb_eq in E. rewrite E in H2. discriminate H2. }
  injection F2 as <-.
  assert (S3 : Py.split_on "/" (v' ++ "//" ++ n') = [v'; ""; n']).
  { change (v' ++ "//" ++ n')%string with (v' ++ String "/" ("" ++ String "/" n'))%string.
    rewrite split_on_app by apply renumbered_no_slash.
    rewrite split_on_app by reflexivity.
    now rewrite split_on_no_sep by apply str_no_slash. }
  split; [|split; [exact S3|]].
  - rewrite Hr. unfold assemble. cbn [fmt offset_of]. now rewrite F0.
  - intros Heq. rewrite Heq in S3.
    change (v' ++ "/" ++ n')%string with (v' ++ String "/" n')%string in S3.
    rewrite split_on_app in S3 by apply renumbered_no_slash.
    rewrite split_on_no_sep in S3 by apply str_no_slash. discriminate S3.
Qed.

Lemma C2_witness :
  token_ok "5//7" = true
  /\ nth_field "5//7" 1 = ""
  /\ Py.int (nth_field "5//7" 2) = Some 7%Z
  /\ renumber_token (mkOffsets 10 20 30) "5//7" = Ok "15//37".
Proof.
  split; [reflexivity|]. split; [reflexivity|]. split; [reflexivity|].
  exact (proj1 (C2_double_slash_preserved (mkOffsets 10 20 30) "5//7" 7%Z
                  eq_refl eq_refl eq_refl)).
Defined.

(** C10: a face token with more than three slash-separated fields is
    renumbered as the token made of its first three fields alone, and a
    renumbered token never has more than three fields. *)
Theorem C10_fields_beyond_third_dropped :
  forall (o : offsets) (p : string),
    3 < List.length (Py.split_on "/" p) ->
    renumber_token o p
    = renumber_token o (Py.join "/" (firstn 3 (Py.split_on "/" p)))
    /\ forall p', renumber_token o p = Ok p' ->
                  List.length (Py.split_on "/" p') <= 3.
Proof.
  intros o p Hlen. split.
  - apply renumber_token_ext. intros i Hi. unfold nth_field.
    pose proof (split_on_fields "/" p) as F.
    set (l := Py.split_on "/" p) in *.
    destruct (firstn 3 l) as [|g gs] eqn:Eg.
    { destruct l; simpl in *; [lia | discriminate]. }
    rewrite split_on_join; rewrite <- Eg.
    + now rewrite nth_firstn, (proj2 (Nat.ltb_lt i 3) Hi).
    + rewrite <- (firstn_skipn 3 l) in F. now apply Forall_app in F.
  - intros p' Hr.
    destruct (token_ok p) eqn:E;
      [|rewrite (renumber_token_bad o p E) in Hr; discriminate].
    destruct (renumber_token_ok o p E) as (v & t & n & Hr' & _).
    rewrite Hr' in Hr. injection Hr as <-. rewrite split_assemble.
    destruct t, n; simpl; lia.
Qed.

Lemma C10_witness :
  3 < List.length (Py.split_on "/" "1/2/3/4")
  /\ renumber_token (mkOffsets 10 20 30) "1/2/3/4"
     = renumber_token (mkOffsets 10 20 30) "1/2/3"
  /\ renumber_token (mkOffsets 10 20 30) "1/2/3/4" = Ok "11/22/33".
Proof.
  split; [vm_compute; lia|]. split; [|reflexivity].
  exact (proj1 (C10_fields_beyond_third_dropped (mkOffsets 10 20 30) "1/2/3/4"
                  ltac:(vm_compute; lia))).
Defined.

(* ================================================================= *)
(** ** Blocks, offsets and the files opened *)

Section Blocks.

Variable d : directory.

Lemma offsets_after_app o l1 l2 :
  offsets_after d o (l1 ++ l2) = offsets_after d (offsets_after d o l1) l2.
Proof. unfold offsets_after. apply fold_left_app. Qed.

Lemma offsets_after_snoc o l name :
  offsets_after d o (l ++ [name])
  = advance (offsets_after d o l) (file_buffers d name).
Proof. now rewrite offsets_after_app. Qed.

(** The number of buffered lines of one kind in a list of files. *)
Definition count_lines (kind : buffers -> list string) (names : list string)
  : Z :=
  fold_right Z.add 0%Z
    (map (fun name => Z.of_nat (List.length (kind (file_buffers d name)))) names).

Lemma offsets_after_counts names : forall o,
  offsets_after d o names
  = mkOffsets (vertex_offset o + count_lines vertices names)
              (tex_offset o + count_lines texcoords names)
              (norm_offset o + count_lines normals names).
Proof.
  induction names as [|name rest IH]; intros o.
  - destruct o; unfold count_lines; simpl. f_equal; lia.
  - change (offsets_after d o (name :: rest))
      with (offsets_after d (advance o (file_buffers d name)) rest).
    rewrite IH. unfold count_lines, advance.
    cbn [map fold_right vertex_offset tex_offset norm_offset]. f_equal; lia.
Qed.

Lemma blocks_app l1 : forall o l2,
  forallb (file_ok d) l1 = true ->
  blocks d o (l1 ++ l2) = blocks d o l1 ++ blocks d (offsets_after d o l1) l2.
Proof.
  induction l1 as [|name l1 IH]; intros o l2 H; [reflexivity|].
  simpl in H. apply andb_true_iff in H. destruct H as [Hn Hl].
  cbn [app blocks]. rewrite Hn, (IH _ _ Hl), <- app_assoc. reflexivity.
Qed.

Lemma opens_app t1 t2 : opens (t1 ++ t2) = opens t1 ++ opens t2.
Proof.
  induction t1 as [|[f|s] t1 IH]; simpl; [reflexivity| |assumption].
  now rewrite IH.
Qed.

Lemma writes_app t1 t2 : writes (t1 ++ t2) = writes t1 ++ writes t2.
Proof.
  induction t1 as [|[f|s] t1 IH]; simpl; [reflexivity|assumption|].
  now rewrite IH.
Qed.

Lemma opens_map_Write l : opens (map Write l) = [].
Proof. induction l; simpl; auto. Qed.

Lemma writes_map_Write l : writes (map Write l) = l.
Proof. induction l; simpl; [reflexivity | now f_equal]. Qed.

Lemma opens_line_writes l : opens (line_writes l) = [].
Proof. unfold line_writes. induction l; simpl; auto. Qed.

Lemma opens_block o name : opens (block d o name) = [name].
Proof.
  unfold block. cbn [opens]. rewrite !opens_app, !opens_line_writes.
  now rewrite opens_map_Write.
Qed.

(** A merge that meets no ill-formed token opens every file, in order. *)
Lemma opens_blocks names : forall o,
  forallb (file_ok d) names = true -> opens (blocks d o names) = names.
Proof.
  induction names as [|name rest IH]; intros o H; [reflexivity|].
  simpl in H. apply andb_true_iff in H. destruct H as [Hn Hr].
  cbn [blocks]. rewrite Hn, opens_app, opens_block, (IH _ Hr). reflexivity.
Qed.

(** The trace around the block of one merged file. *)
Lemma blocks_at o pre name post :
  forallb (file_ok d) pre = true ->
  blocks d o (pre ++ name :: post)
  = blocks d o pre
    ++ block d (offsets_after d o pre) name
    ++ (if file_ok d name
        then blocks d (offsets_after d o (pre ++ [name])) post
        else []).
Proof.
  intros H. rewrite (blocks_app _ _ _ H). cbn [blocks].
  now rewrite offsets_after_snoc.
Qed.

(** When every face line is well formed, each one is written. *)
Lemma face_lines_ok o fs :
  forallb face_ok fs = true ->
  Forall2 (fun face_line s => renumber_face o face_line = Ok s)
          fs (face_lines o fs).
Proof.
  induction fs as [|f fs IH]; simpl; [constructor|].
  rewrite andb_true_iff. intros [Hf Hfs].
  destruct (renumber_face_ok o f Hf) as (toks & Hr & _). rewrite Hr.
  constructor; [assumption | now apply IH].
Qed.

Lemma forallb_app_true {A} (f : A -> bool) l1 l2 :
  forallb f (l1 ++ l2) = true ->
  forallb f l1 = true /\ forallb f l2 = true.
Proof. rewrite forallb_app. apply andb_true_iff. Qed.

End Blocks.

Lemma status_ok b : status b = Ok tt -> b = true.
Proof. destruct b; [reflexivity | discriminate]. Qed.

Lemma merge_ok_files d :
  snd (merge_obj_files_in_memory d) = Ok tt ->
  forallb (file_ok d) (obj_files d) = true.
Proof. rewrite merge_spec. apply status_ok. Qed.

(** The file's buffers in terms of its text. *)
Lemma file_buffers_text d name text :
  lookup d name = Some (RegularFile text) ->
  let stripped := map Py.strip (Py.readlines text) in
  file_buffers d name
  = mkBuffers (filter (fun l => Py.startswith l "v ") stripped)
              (filter (fun l => Py.startswith l "vt ") stripped)
              (filter (fun l => Py.startswith l "vn ") stripped)
              (filter (fun l => Py.startswith l "f ") stripped).
Proof.
  intros H. unfold file_buffers. rewrite H. apply read_buffers_filter.
Qed.

Lemma obj_files_lookup d name :
  In name (obj_files d) -> exists text, lookup d name = Some (RegularFile text).
Proof.
  intros H. pose proof (obj_files_isfile d) as F.
  rewrite Forall_forall in F. specialize (F name H). unfold isfile in F.
  destruct (lookup d name) as [[text|]|]; try discriminate. now exists text.
Qed.

(* ================================================================= *)
(** ** The object name of a file *)

Section ObjectName.

Lemma rfind_absent c s : all_chars (not_char c) s = true -> Py.rfind c s = None.
Proof.
  induction s as [|a s IH]; simpl; [reflexivity|].
  rewrite andb_true_iff. intros [Ha Hs]. rewrite (IH Hs).
  unfold not_char in Ha. apply negb_true_iff in Ha. now rewrite Ha.
Qed.

Lemma rfind_last c s e :
  all_chars (not_char c) e = true ->
  Py.rfind c (s ++ String c e) = Some (String.length s).
Proof.
  intros He. induction s as [|a s IH]; simpl.
  - now rewrite (rfind_absent c e He), Ascii.eqb_refl.
  - now rewrite IH.
Qed.

Lemma substring_prefix s t : substring 0 (String.length s) (s ++ t) = s.
Proof.
  induction s as [|a s IH]; simpl; [now destruct t | now rewrite IH].
Qed.

Lemma substring_all t : substring 0 (String.length t) t = t.
Proof. induction t as [|a t IH]; simpl; [reflexivity | now rewrite IH]. Qed.

Lemma substring_suffix s t :
  substring (String.length s) (String.length t) (s ++ t) = t.
Proof. induction s as [|a s IH]; simpl; [apply substring_all | exact IH]. Qed.

(** A name made of a stem, a dot and an extension without dot or slash
    splits at that dot, unless the stem consists of dots only. *)
Lemma splitext_stem stem e :
  all_chars (not_char "/") stem = true ->
  Py.all_dots stem = false ->
  all_chars (not_char ".") e = true ->
  all_chars (not_char "/") e = true ->
  Py.splitext (stem ++ String "." e) = (stem, String "." e).
Proof.
  intros Hs Hd He Hes. unfold Py.splitext.
  rewrite (rfind_last "." stem e He).
  rewrite rfind_absent.
  2:{ rewrite all_chars_app, Hs. simpl. exact Hes. }
  cbn [Nat.leb andb]. rewrite Nat.sub_0_r, substring_prefix, Hd.
  cbn [negb]. f_equal.
  rewrite append_length, Nat.add_comm, Nat.add_sub. apply substring_suffix.
Qed.

Lemma lower_char_dot c : Py.lower_char c = "."%char -> c = "."%char.
Proof. by_cases_on_char c. Qed.

Lemma lower_char_letter c x :
  Py.lower_char c = x ->
  (("a" <=? x)%char && (x <=? "z")%char)%bool = true ->
  not_char "." c = true /\ not_char "/" c = true.
Proof.
  intros <-. destruct c as [[] [] [] [] [] [] [] []]; vm_compute;
    intros; split; congruence.
Qed.

(** The name written in the [o] and [g] headers of a file whose name is
    a stem followed by [.obj] in any letter case. *)
Lemma obj_name_is_stem stem ext :
  Py.lower ext = ".obj" ->
  all_chars (not_char "/") stem = true ->
  Py.all_dots stem = false ->
  fst (Py.splitext (stem ++ ext)) = stem.
Proof.
  intros Hext Hs Hd.
  destruct ext as [|c1 [|c2 [|c3 [|c4 [|c5 ext]]]]]; try discriminate Hext.
  cbn [Py.lower] in Hext. injection Hext as H1 H2 H3 H4.
  apply lower_char_dot in H1. subst c1.
  destruct (lower_char_letter c2 _ H2 eq_refl) as [D2 S2].
  destruct (lower_char_letter c3 _ H3 eq_refl) as [D3 S3].
  destruct (lower_char_letter c4 _ H4 eq_refl) as [D4 S4].
  rewrite splitext_stem; try assumption; [reflexivity| |];
    cbn [all_chars]; rewrite ?D2, ?D3, ?D4, ?S2, ?S3, ?S4; reflexivity.
Qed.

End ObjectName.

(* ================================================================= *)
(** ** The output file *)

Lemma concat_empty_cons s l :
  String.concat "" (s :: l) = (s ++ String.concat "" l)%string.
Proof. destruct l; simpl; [now rewrite append_nil_r | reflexivity]. Qed.

Lemma file_text_write s t : file_text (Write s :: t) = (s ++ file_text t)%string.
Proof. unfold file_text. cbn [writes]. apply concat_empty_cons. Qed.

Lemma filter_none {A} (f : A -> bool) l :
  (forall x, In x l -> f x = false) -> filter f l = [].
Proof.
  induction l as [|x l IH]; intros H; simpl; [reflexivity|].
  rewrite (H x (or_introl eq_refl)). apply IH. intros y Hy. apply H. now right.
Qed.

(** C6: every output begins with the two-line header, the comment line
    [# Merged OBJ file] and one blank line; for a directory without
    [.obj] files the header is all that is written. *)
Theorem C6_header_then_blocks :
  forall d : directory,
    Py.split_on Py.LF header = ["# Merged OBJ file"; ""; ""]
    /\ (exists rest,
          fst (merge_obj_files_in_memory d) = Write header :: rest
          /\ file_text (fst (merge_obj_files_in_memory d))
             = (header ++ file_text rest)%string)
    /\ ((forall name, In name (listdir d) -> is_obj_file d name = false) ->
        merge_obj_files_in_memory d = ([Write header], Ok tt)
        /\ file_text (fst (merge_obj_files_in_memory d)) = header).
Proof.
  intros d. split; [reflexivity|]. split.
  - rewrite merge_spec. eexists. split; [reflexivity|].
    cbn [fst]. apply file_text_write.
  - intros H. rewrite merge_spec. unfold obj_files.
    rewrite (filter_none _ _ H). split; reflexivity.
Qed.

Definition no_obj_dir : directory :=
  [ ("notes.txt", RegularFile "v 1 2 3"); ("sub.obj", Other);
    ("mesh.objx", RegularFile "v 0 0 0") ].

Lemma C6_witness :
  (forall name, In name (listdir no_obj_dir) ->
                is_obj_file no_obj_dir name = false)
  /\ merge_obj_files_in_memory no_obj_dir = ([Write header], Ok tt)
  /\ file_text (fst (merge_obj_files_in_memory no_obj_dir)) = header.
Proof.
  assert (H : forall name, In name (listdir no_obj_dir) ->
                           is_obj_file no_obj_dir name = false).
  { intros name [<-|[<-|[<-|[]]]]; reflexivity. }
  split; [exact H|].
  exact (proj2 (proj2 (C6_header_then_blocks no_obj_dir)) H).
Defined.

(** C7: in a completed merge the block of every merged file is laid
    out as: the [o] header with the file name stripped of its extension,
    the [g] header with the same name, the file's vertex lines, its
    texcoord lines, its normal lines (the stripped lines of the file
    with those keywords, unchanged and in file order), and last its
    face lines, each renumbered with the offsets left by the files
    before it.  The name in the headers is the first component of
    [os.path.splitext]: the stem of the file name, for every stem that
    is not made of dots alone. *)
Theorem C7_block_layout :
  forall (d : directory) (pre : list string) (name : string)
         (post : list string),
    obj_files d = pre ++ name :: post ->
    snd (merge_obj_files_in_memory d) = Ok tt ->
    exists text before after new_faces,
      let obj_name := fst (Py.splitext name) in
      let stripped := map Py.strip (Py.readlines text) in
      let kind keyword := filter (fun l => Py.startswith l keyword) stripped in
      lookup d name = Some (RegularFile text)
      /\ fst (merge_obj_files_in_memory d)
         = Write header :: before
           ++ (Open name
               :: Write ("o " ++ obj_name ++ Py.nl)
               :: Write ("g " ++ obj_name ++ Py.nl)
               :: line_writes (kind "v ") ++ line_writes (kind "vt ")
                  ++ line_writes (kind "vn ") ++ map Write new_faces)
           ++ after
      /\ opens before = pre
      /\ opens after = post
      /\ Forall2 (fun face_line s =>
                    renumber_face (offsets_after d zero_offsets pre) face_line
                    = Ok s)
                 (kind "f ") new_faces
      /\ (forall stem ext,
             name = (stem ++ ext)%string -> Py.lower ext = ".obj" ->
             all_chars (not_char "/") stem = true ->
             Py.all_dots stem = false ->
             obj_name = stem).
Proof.
  intros d pre name post Hfiles Hok.
  apply merge_ok_files in Hok. rewrite Hfiles in Hok.
  apply forallb_app_true in Hok. destruct Hok as [Hpre Hrest].
  cbn [forallb] in Hrest. apply andb_true_iff in Hrest.
  destruct Hrest as [Hname Hpost].
  destruct (obj_files_lookup d name) as [text Htext].
  { rewrite Hfiles. apply in_elt. }
  set (o := offsets_after d zero_offsets pre).
  exists text, (blocks d zero_offsets pre),
    (blocks d (offsets_after d zero_offsets (pre ++ [name])) post),
    (face_lines o (faces (file_buffers d name))).
  cbv zeta. split; [exact Htext|]. split; [|split; [|split; [|split]]].
  - rewrite merge_spec, Hfiles. cbn [fst].
    rewrite (blocks_at d _ _ _ _ Hpre), Hname. unfold block.
    rewrite (file_buffers_text d name text Htext).
    cbn [vertices texcoords normals faces]. reflexivity.
  - now apply opens_blocks.
  - now apply opens_blocks.
  - pose proof (face_lines_ok o _ Hname) as F.
    rewrite (file_buffers_text d name text Htext) in F |- *. exact F.
  - intros stem ext -> Hext Hs Hd. now apply obj_name_is_stem.
Qed.

Definition layout_of_tri : Prop :=
  exists text before after new_faces,
    lookup sample_dir "tri.OBJ" = Some (RegularFile text)
    /\ opens before = ["cube.obj"]
    /\ opens after = []
    /\ Forall2 (fun face_line s =>
                  renumber_face (offsets_after sample_dir zero_offsets ["cube.obj"])
                                face_line = Ok s)
               (filter (fun l => Py.startswith l "f ")
                       (map Py.strip (Py.readlines text)))
               new_faces.

Lemma C7_witness :
  obj_files sample_dir = ["cube.obj"] ++ "tri.OBJ" :: []
  /\ snd (merge_obj_files_in_memory sample_dir) = Ok tt
  /\ layout_of_tri.
Proof.
  split; [reflexivity|]. split; [reflexivity|].
  destruct (C7_block_layout sample_dir ["cube.obj"] "tri.OBJ" []
              eq_refl eq_refl)
    as (text & before & after & new_faces & H1 & _ & H3 & H4 & H5 & _).
  exists text, before, after, new_faces. repeat split; assumption.
Defined.

(* ================================================================= *)
(** ** Renumbering against the running offsets *)

(** Field [i] of [p'] is field [i] of [p] shifted by its offset, or
    both are absent. *)
Definition renumbered_token (o : offsets) (p p' : string) : Prop :=
  forall i, i < 3 ->
    (nth_field p i = "" /\ nth_field p' i = "")
    \/ (nth_field p i <> ""
        /\ exists z, Py.int (nth_field p i) = Some z
                     /\ nth_field p' i = Py.str (z + offset_of o i)).

(** The written line [s] is the face line with every token shifted. *)
Definition renumbered_face (o : offsets) (face_line s : string) : Prop :=
  exists toks,
    s = ("f " ++ Py.join " " toks ++ Py.nl)%string
    /\ Forall2 (renumbered_token o) (face_parts face_line) toks.

Lemma rmap_Forall2 {A B} (f : A -> result B) l : forall ys,
  rmap f l = Ok ys -> Forall2 (fun x y => f x = Ok y) l ys.
Proof.
  induction l as [|x l IH]; simpl; intros ys H.
  - injection H as <-. constructor.
  - destruct (f x) as [y|e] eqn:Ex; simpl in H; [|discriminate].
    destruct (rmap f l) as [ys'|e] eqn:El; simpl in H; [|discriminate].
    injection H as <-. constructor; [assumption | now apply IH].
Qed.

Lemma Forall2_impl {A B} (P Q : A -> B -> Prop) l l' :
  (forall x y, P x y -> Q x y) -> Forall2 P l l' -> Forall2 Q l l'.
Proof. intros H. induction 1; constructor; auto. Qed.

Lemma renumber_face_tokens o face_line s :
  renumber_face o face_line = Ok s ->
  exists toks,
    s = ("f " ++ Py.join " " toks ++ Py.nl)%string
    /\ Forall2 (fun p p' => renumber_token o p = Ok p')
               (face_parts face_line) toks.
Proof.
  unfold renumber_face.
  destruct (rmap (renumber_token o) (face_parts face_line)) as [toks|e] eqn:E;
    simpl; [|discriminate].
  intros [= <-]. exists toks. split; [reflexivity|]. now apply rmap_Forall2.
Qed.

Lemma renumber_face_renumbered o face_line s :
  renumber_face o face_line = Ok s -> renumbered_face o face_line s.
Proof.
  intros H. destruct (renumber_face_tokens o face_line s H) as (toks & -> & F).
  exists toks. split; [reflexivity|].
  eapply Forall2_impl; [|exact F].
  intros p p' Hp i Hi. now apply (renumber_token_fields o p p' Hp).
Qed.

(** C1: in a completed merge, the face lines in the block of a merged
    file are the file's face lines in which every present field of every
    token is the integer it held plus the offset of its kind, and every
    absent field stays absent.  The offsets are the numbers of vertex,
    texcoord and normal lines of the files merged before this one; after
    the block each offset has grown by this file's number of lines of
    its kind. *)
Theorem C1_face_indices_shifted_by_running_offsets :
  forall (d : directory) (pre : list string) (name : string)
         (post : list string),
    obj_files d = pre ++ name :: post ->
    snd (merge_obj_files_in_memory d) = Ok tt ->
    let b := file_buffers d name in
    let o := mkOffsets (count_lines d vertices pre)
                       (count_lines d texcoords pre)
                       (count_lines d normals pre) in
    let obj_name := fst (Py.splitext name) in
    (exists before after new_faces,
       fst (merge_obj_files_in_memory d)
       = Write header :: before
         ++ (Open name
             :: Write ("o " ++ obj_name ++ Py.nl)
             :: Write ("g " ++ obj_name ++ Py.nl)
             :: line_writes (vertices b) ++ line_writes (texcoords b)
                ++ line_writes (normals b) ++ map Write new_faces)
         ++ after
       /\ opens before = pre
       /\ opens after = post
       /\ Forall2 (renumbered_face o) (faces b) new_faces)
    /\ snd (merge_file d o name)
       = Ok (mkOffsets
               (vertex_offset o + Z.of_nat (List.length (vertices b)))
               (tex_offset o + Z.of_nat (List.length (texcoords b)))
               (norm_offset o + Z.of_nat (List.length (normals b))))
    /\ forall kind,
         count_lines d kind (pre ++ [name])
         = (count_lines d kind pre + Z.of_nat (List.length (kind b)))%Z.
Proof.
  intros d pre name post Hfiles Hok b o obj_name.
  apply merge_ok_files in Hok. rewrite Hfiles in Hok.
  apply forallb_app_true in Hok. destruct Hok as [Hpre Hrest].
  cbn [forallb] in Hrest. apply andb_true_iff in Hrest.
  destruct Hrest as [Hname Hpost].
  assert (Ho : offsets_after d zero_offsets pre = o).
  { rewrite offsets_after_counts. reflexivity. }
  split; [|split].
  - exists (blocks d zero_offsets pre),
      (blocks d (offsets_after d zero_offsets (pre ++ [name])) post),
      (face_lines o (faces b)).
    split; [|split; [|split]].
    + rewrite merge_spec, Hfiles. cbn [fst].
      rewrite (blocks_at d _ _ _ _ Hpre), Hname, Ho. reflexivity.
    + now apply opens_blocks.
    + now apply opens_blocks.
    + eapply Forall2_impl; [|apply face_lines_ok; exact Hname].
      intros face_line s. apply renumber_face_renumbered.
  - rewrite merge_file_spec.
    + cbn [snd]. now rewrite Hname.
    + pose proof (obj_files_isfile d) as F. rewrite Forall_forall in F.
      apply F. rewrite Hfiles. apply in_elt.
  - intros kind. unfold count_lines. rewrite map_app, fold_right_app.
    cbn [map fold_right]. fold b.
    generalize (Z.of_nat (List.length (kind b))). intros k.
    induction (map (fun name0 => Z.of_nat (List.length (kind (file_buffers d name0)))) pre)
      as [|x xs IH]; cbn [fold_right]; lia.
Qed.

Lemma C1_witness :
  obj_files sample_dir = ["cube.obj"] ++ "tri.OBJ" :: []
  /\ snd (merge_obj_files_in_memory sample_dir) = Ok tt
  /\ snd (merge_file sample_dir (mkOffsets 3 1 2) "tri.OBJ")
     = Ok (mkOffsets 6 2 3).
Proof.
  split; [reflexivity|]. split; [reflexivity|].
  exact (proj1 (proj2 (C1_face_indices_shifted_by_running_offsets
                         sample_dir ["cube.obj"] "tri.OBJ" []
                         eq_refl eq_refl))).
Defined.

(* ================================================================= *)
(** ** A single input file *)

(** Two fields with the same content as numbers: both absent, or both
    the same integer. *)
Definition same_index (s s' : string) : Prop :=
  (s = "" /\ s' = "")
  \/ (exists z, Py.int s = Some z /\ Py.int s' = Some z).

Definition same_token (p p' : string) : Prop :=
  forall i, i < 3 -> same_index (nth_field p i) (nth_field p' i).

Definition same_face (face_line s : string) : Prop :=
  exists toks,
    s = ("f " ++ Py.join " " toks ++ Py.nl)%string
    /\ Forall2 same_token (face_parts face_line) toks.

Lemma offset_of_zero i : offset_of zero_offsets i = 0%Z.
Proof. destruct i as [|[|i]]; reflexivity. Qed.

Lemma renumbered_zero_same p p' :
  renumbered_token zero_offsets p p' -> same_token p p'.
Proof.
  intros H i Hi. destruct (H i Hi) as [[E E']|[_ (z & Hz & E')]].
  - now left.
  - right. exists z. split; [assumption|].
    rewrite E', offset_of_zero, Z.add_0_r. apply int_str.
Qed.

Lemma sort_single name : StringSort.sort [name] = [name].
Proof. reflexivity. Qed.

(** C5: when the directory holds exactly one [.obj] regular file and
    the merge completes, the output is the header, the [o] and [g] lines
    and then the file's own data: its stripped vertex, texcoord and
    normal lines character for character, and its face lines with every
    index of the first three fields equal as a number to the index it
    had (absent ones absent). *)
Theorem C5_single_file_round_trip :
  forall (d : directory) (name : string),
    filter (is_obj_file d) (listdir d) = [name] ->
    snd (merge_obj_files_in_memory d) = Ok tt ->
    exists text new_faces,
      let obj_name := fst (Py.splitext name) in
      let stripped := map Py.strip (Py.readlines text) in
      let kind keyword := filter (fun l => Py.startswith l keyword) stripped in
      lookup d name = Some (RegularFile text)
      /\ fst (merge_obj_files_in_memory d)
         = [Write header; Open name;
            Write ("o " ++ obj_name ++ Py.nl);
            Write ("g " ++ obj_name ++ Py.nl)]
           ++ line_writes (kind "v ") ++ line_writes (kind "vt ")
           ++ line_writes (kind "vn ") ++ map Write new_faces
      /\ Forall2 same_face (kind "f ") new_faces.
Proof.
  intros d name Hone Hok.
  assert (Hfiles : obj_files d = [name]).
  { unfold obj_files. rewrite Hone. apply sort_single. }
  destruct (obj_files_lookup d name) as [text Htext].
  { rewrite Hfiles. now left. }
  apply merge_ok_files in Hok. rewrite Hfiles in Hok. cbn [forallb] in Hok.
  rewrite andb_true_r in Hok.
  pose proof (file_buffers_text d name text Htext) as Hb. cbv zeta in Hb.
  exists text, (face_lines zero_offsets (faces (file_buffers d name))).
  cbv zeta. split; [exact Htext|]. split.
  - rewrite merge_spec, Hfiles. cbn [fst blocks]. rewrite Hok, app_nil_r.
    unfold block. rewrite Hb. reflexivity.
  - unfold file_ok in Hok. rewrite Hb in Hok |- *. cbn [faces] in Hok |- *.
    eapply Forall2_impl; [|apply face_lines_ok; exact Hok].
    intros face_line s Hs.
    destruct (renumber_face_renumbered _ _ _ Hs) as (toks & -> & Ht).
    exists toks. split; [reflexivity|].
    eapply Forall2_impl; [|exact Ht]. intros p p'. apply renumbered_zero_same.
Qed.

Definition one_file_dir : directory :=
  [ ("readme.md", RegularFile "f 1 2 3"); ("tri.OBJ", RegularFile tri_text) ].

Definition round_trip_of_tri : Prop :=
  exists text new_faces,
    lookup one_file_dir "tri.OBJ" = Some (RegularFile text)
    /\ Forall2 same_face
         (filter (fun l => Py.startswith l "f ")
                 (map Py.strip (Py.readlines text)))
         new_faces.

Lemma C5_witness :
  filter (is_obj_file one_file_dir) (listdir one_file_dir) = ["tri.OBJ"]
  /\ snd (merge_obj_files_in_memory one_file_dir) = Ok tt
  /\ round_trip_of_tri.
Proof.
  split; [reflexivity|]. split; [reflexivity|].
  destruct (C5_single_file_round_trip one_file_dir "tri.OBJ" eq_refl eq_refl)
    as (text & new_faces & H1 & _ & H3).
  exists text, new_faces. split; assumption.
Defined.

Example ex_one_file :
  file_text (fst (merge_obj_files_in_memory one_file_dir))
  = "# Merged OBJ file

o tri
g tri
v 5 5 5
v 6 5 5
v 6 6 5
vt 1 1
vn 1 0 0
f 1 2 3
f 1/1 2/1 3/1
f 3//1 2//1 1//1
".
Proof. reflexivity. Qed.

(* ================================================================= *)
(** ** Ill-formed face indices *)

(** A field that is present and is not an integer numeral. *)
Definition bad_field (s : string) : Prop := s <> "" /\ Py.int s = None.

Definition bad_token (p : string) : Prop :=
  exists i, i < 3 /\ bad_field (nth_field p i).

(** A file with a face line that has such a token. *)
Definition bad_file (d : directory) (name : string) : Prop :=
  exists face_line p,
    In face_line (faces (file_buffers d name))
    /\ In p (face_parts face_line)
    /\ bad_token p.

Lemma field_ok_false s : field_ok s = false <-> bad_field s.
Proof.
  unfold field_ok, bad_field. rewrite orb_false_iff, String.eqb_neq.
  destruct (Py.int s); split; intros [H1 H2]; split; congruence.
Qed.

Lemma token_ok_false p : token_ok p = false <-> bad_token p.
Proof.
  unfold token_ok, bad_token. split.
  - intros H.
    destruct (field_ok (nth_field p 0)) eqn:E0;
      [|exists 0; split; [lia | now apply field_ok_false]].
    destruct (field_ok (nth_field p 1)) eqn:E1;
      [|exists 1; split; [lia | now apply field_ok_false]].
    destruct (field_ok (nth_field p 2)) eqn:E2; [discriminate|].
    exists 2. split; [lia | now apply field_ok_false].
  - intros (i & Hi & Hb). apply field_ok_false in Hb.
    destruct i as [|[|[|i]]]; [| | |lia]; rewrite Hb;
      rewrite ?andb_false_r; reflexivity.
Qed.

Lemma forallb_false {A} (f : A -> bool) l :
  forallb f l = false <-> exists x, In x l /\ f x = false.
Proof.
  induction l as [|y l IH]; simpl.
  - split; [discriminate | intros (x & [] & _)].
  - rewrite andb_false_iff, IH. split.
    + intros [H|(x & Hx & Hf)]; [exists y | exists x]; auto.
    + intros (x & [->|Hx] & Hf); [now left | right; now exists x].
Qed.

Lemma file_ok_false d name : file_ok d name = false <-> bad_file d name.
Proof.
  unfold file_ok, bad_file, face_ok. rewrite forallb_false. split.
  - intros (face_line & Hin & H). apply forallb_false in H.
    destruct H as (p & Hp & Hbad). apply token_ok_false in Hbad.
    now exists face_line, p.
  - intros (face_line & p & Hin & Hp & Hbad). exists face_line.
    split; [assumption|]. apply forallb_false. exists p.
    split; [assumption | now apply token_ok_false].
Qed.

Definition broken_text : string :=
  "v 0 0 0
f 1 1 1
f 1/x 1 1
f 1 1 1
".

Definition broken_dir : directory :=
  [ ("c.obj", RegularFile tri_text);
    ("b.obj", RegularFile broken_text);
    ("a.obj", RegularFile cube_text) ].

Example ex_broken_trace :
  merge_obj_files_in_memory broken_dir
  = ([Write header;
      Open "a.obj"; Write ("o a" ++ Py.nl); Write ("g a" ++ Py.nl);
      Write ("v 0 0 0" ++ Py.nl); Write ("v 1 0 0" ++ Py.nl);
      Write ("v 1 1 0" ++ Py.nl); Write ("vt 0 0" ++ Py.nl);
      Write ("vn 0 0 1" ++ Py.nl); Write ("vn 0 1 0" ++ Py.nl);
      Write ("f 1/1/1 2/1/1 3/1/2" ++ Py.nl);
      Write ("f 1//2 2//2 3//1" ++ Py.nl);
      Open "b.obj"; Write ("o b" ++ Py.nl); Write ("g b" ++ Py.nl);
      Write ("v 0 0 0" ++ Py.nl); Write ("f 4 4 4" ++ Py.nl)],
     Raise ValueError).
Proof. reflexivity. Qed.

(* ================================================================= *)
(** ** The interpreter's limit on the digits of a numeral *)

(** CPython 3.11 and later (and the security releases of 3.7 to 3.10)
    refuse to convert between [str] and [int] in base 10 when the
    numeral has more than [sys.int_info.default_max_str_digits] = 4300
    digits: [int(s)], [str(z)] and an f-string field raise
    [ValueError].  Only digits count, not the sign, underscores or
    white space.  [Py.int] and [Py.str] are the conversions with the
    limit switched off ([sys.set_int_max_str_digits(0)], or an older
    interpreter); [int_limited] and [str_limited] are the conversions
    under the default limit. *)
Definition int_max_str_digits : N := 4300.

Fixpoint count_digits (s : string) : N :=
  match s with
  | "" => 0
  | String c s' => (if Py.isdigit c then 1 else 0) + count_digits s'
  end.

Definition in_limit (s : string) : bool :=
  (count_digits s <=? int_max_str_digits)%N.

Definition int_limited (s : string) : option Z :=
  if in_limit s then Py.int s else None.

Definition str_limited (z : Z) : result string :=
  if in_limit (Py.str z) then Ok (Py.str z) else Raise ValueError.

(** [merge_obj_files_in_memory] run under the limit: the same code,
    with [int] and the f-string fields of lines 88 to 110 raising
    [ValueError] beyond 4300 digits. *)
Module Limited.

(** [int(indices[i]) + offset], or the empty string. *)
Definition index_field (indices : list string) (i : nat) (offset : Z)
  : result (option Z) :=
  match nth_error indices i with
  | Some s =>
      if (s =? "")%string then Ok None
      else match int_limited s with
           | Some z => Ok (Some (z + offset)%Z)
           | None => Raise ValueError
           end
  | None => Ok None
  end.

(** An f-string field: the numeral, when it can be printed. *)
Definition fmt (x : option Z) : result string :=
  match x with
  | Some z => str_limited z
  | None => Ok ""
  end.

(** The body of [for p in parts]: the three indices are read first,
    then the f-string of the branch taken prints them. *)
Definition renumber_token (o : offsets) (p : string) : result string :=
  let indices := Py.split_on "/" p in
  rbind (index_field indices 0 (vertex_offset o)) (fun v_idx =>
  rbind (index_field indices 1 (tex_offset o)) (fun t_idx =>
  rbind (index_field indices 2 (norm_offset o)) (fun n_idx =>
  match t_idx, n_idx with
  | None, None => fmt v_idx
  | _, None =>
      rbind (fmt v_idx) (fun v => rbind (fmt t_idx) (fun t =>
      Ok (v ++ "/" ++ t)%string))
  | _, _ =>
      rbind (fmt v_idx) (fun v => rbind (fmt t_idx) (fun t =>
      rbind (fmt n_idx) (fun n => Ok (v ++ "/" ++ t ++ "/" ++ n)%string)))
  end))).

Definition renumber_face (o : offsets) (face_line : string) : result string :=
  rbind (rmap (renumber_token o) (face_parts face_line)) (fun new_face_tokens =>
  Ok ("f " ++ Py.join " " new_face_tokens ++ Py.nl)%string).

Definition write_face (o : offsets) (face_line : string) : IO unit :=
  s <- lift (renumber_face o face_line) ;; write s.

Definition merge_file (d : directory) (o : offsets) (filename : string)
  : IO offsets :=
  let obj_name := fst (Py.splitext filename) in
  lines <- open_lines d filename ;;
  let b := read_buffers lines in
  write ("o " ++ obj_name ++ Py.nl) ;;;
  write ("g " ++ obj_name ++ Py.nl) ;;;
  for_each (vertices b) write_line ;;;
  for_each (texcoords b) write_line ;;;
  for_each (normals b) write_line ;;;
  for_each (faces b) (write_face o) ;;;
  ret (advance o b).

Fixpoint merge_files (d : directory) (o : offsets) (obj_files : list string)
  : IO unit :=
  match obj_files with
  | [] => ret tt
  | filename :: rest => o' <- merge_file d o filename ;; merge_files d o' rest
  end.

Definition merge_obj_files_in_memory (d : directory) : IO unit :=
  write header ;;;
  merge_files d zero_offsets (obj_files d).

End Limited.

Section LimitedTokens.

(** A field that is converted within the limit, on the way in and on
    the way out. *)
Definition field_in_limit (s : string) (offset : Z) : bool :=
  (s =? "")%string
  || in_limit s
     && match Py.int s with
        | Some z => in_limit (Py.str (z + offset))
        | None => true
        end.

Definition token_in_limit (o : offsets) (p : string) : bool :=
  field_in_limit (nth_field p 0) (vertex_offset o)
  && field_in_limit (nth_field p 1) (tex_offset o)
  && field_in_limit (nth_field p 2) (norm_offset o).

Lemma index_field_limited_spec p i off :
  Limited.index_field (Py.split_on "/" p) i off =
  if (nth_field p i =? "")%string then Ok None
  else if in_limit (nth_field p i) then
         match Py.int (nth_field p i) with
         | Some z => Ok (Some (z + off)%Z)
         | None => Raise ValueError
         end
       else Raise ValueError.
Proof.
  unfold Limited.index_field, nth_field, int_limited.
  destruct (nth_error (Py.split_on "/" p) i) as [s|] eqn:E.
  - rewrite (nth_error_nth _ _ "" E). now destruct (in_limit s).
  - apply nth_error_None in E. now rewrite nth_overflow.
Qed.

(** Under the limit a token is renumbered as without it, or raises. *)
Lemma renumber_token_limited o p :
  Limited.renumber_token o p
  = if token_in_limit o p then renumber_token o p else Raise ValueError.
Proof.
  unfold Limited.renumber_token. cbv zeta.
  rewrite !index_field_limited_spec, renumber_token_unfold, !index_field_spec.
  unfold token_in_limit, field_in_limit, Limited.fmt, str_limited, assemble, fmt.
  destruct (nth_field p 0 =? "")%string; cbn [orb andb rbind];
    [|destruct (in_limit (nth_field p 0)); cbn [orb andb rbind];
      [destruct (Py.int (nth_field p 0)) as [z0|]; cbn [orb andb rbind];
        [destruct (in_limit (Py.str (z0 + vertex_offset o))) |]|]];
  (destruct (nth_field p 1 =? "")%string; cbn [orb andb rbind];
    [|destruct (in_limit (nth_field p 1)); cbn [orb andb rbind];
      [destruct (Py.int (nth_field p 1)) as [z1|]; cbn [orb andb rbind];
        [destruct (in_limit (Py.str (z1 + tex_offset o))) |]|]]);
  (destruct (nth_field p 2 =? "")%string; cbn [orb andb rbind];
    [|destruct (in_limit (nth_field p 2)); cbn [orb andb rbind];
      [destruct (Py.int (nth_field p 2)) as [z2|]; cbn [orb andb rbind];
        [destruct (in_limit (Py.str (z2 + norm_offset o))) |]|]]);
  cbn [orb andb rbind]; reflexivity.
Qed.

End LimitedTokens.

Section LimitedTrace.

(** A token, a face line and a file that are renumbered under the
    limit, with the offsets [o]. *)
Definition token_ok_limited (o : offsets) (p : string) : bool :=
  token_ok p && token_in_limit o p.

Definition face_ok_limited (o : offsets) (face_line : string) : bool :=
  forallb (token_ok_limited o) (face_parts face_line).

Definition file_ok_limited (d : directory) (o : offsets) (name : string) : bool :=
  forallb (face_ok_limited o) (faces (file_buffers d name)).

Fixpoint files_ok_limited (d : directory) (o : offsets) (names : list string)
  : bool :=
  match names with
  | [] => true
  | name :: rest =>
      file_ok_limited d o name
      && files_ok_limited d (advance o (file_buffers d name)) rest
  end.

Lemma renumber_token_limited_ok o p :
  token_ok_limited o p = true ->
  Limited.renumber_token o p = renumber_token o p.
Proof.
  unfold token_ok_limited. rewrite andb_true_iff. intros [_ H].
  now rewrite renumber_token_limited, H.
Qed.

Lemma renumber_token_limited_bad o p :
  token_ok_limited o p = false ->
  Limited.renumber_token o p = Raise ValueError.
Proof.
  unfold token_ok_limited. rewrite renumber_token_limited. intros H.
  destruct (token_in_limit o p); [|reflexivity].
  rewrite andb_true_r in H. now apply renumber_token_bad.
Qed.

Lemma renumber_token_limited_raises o p e :
  Limited.renumber_token o p = Raise e -> e = ValueError.
Proof.
  rewrite renumber_token_limited. destruct (token_in_limit o p).
  - intros H. now apply renumber_token_raises in H.
  - congruence.
Qed.

Lemma rmap_same {A B} (f g : A -> result B) l :
  (forall x, In x l -> f x = g x) -> rmap f l = rmap g l.
Proof.
  induction l as [|x l IH]; intros H; [reflexivity|]. cbn [rmap].
  rewrite (H x (or_introl eq_refl)), IH; [reflexivity|].
  intros y Hy. apply H. now right.
Qed.

Lemma renumber_face_limited_ok o face_line :
  face_ok_limited o face_line = true ->
  Limited.renumber_face o face_line = renumber_face o face_line
  /\ face_ok face_line = true.
Proof.
  unfold face_ok_limited, face_ok. rewrite !forallb_forall. intros H. split.
  - unfold Limited.renumber_face, renumber_face. f_equal.
    apply rmap_same. intros p Hp. apply renumber_token_limited_ok. now apply H.
  - intros p Hp. specialize (H p Hp). unfold token_ok_limited in H.
    now apply andb_true_iff in H.
Qed.

Lemma renumber_face_limited_bad o face_line :
  face_ok_limited o face_line = false ->
  Limited.renumber_face o face_line = Raise ValueError.
Proof.
  unfold face_ok_limited. intros H. apply forallb_false in H.
  destruct H as (p & Hin & Hp). unfold Limited.renumber_face.
  rewrite (rmap_raise (Limited.renumber_token o) _ p ValueError Hin);
    [reflexivity | now apply renumber_token_limited_bad |].
  intros y e'. apply renumber_token_limited_raises.
Qed.

(** The face lines written under the limit: those before the first one
    that raises. *)
Fixpoint face_lines_limited (o : offsets) (fs : list string) : list string :=
  match fs with
  | [] => []
  | face_line :: fs' =>
      if face_ok_limited o face_line
      then match renumber_face o face_line with
           | Ok s => s :: face_lines_limited o fs'
           | Raise _ => []
           end
      else []
  end.

Definition block_limited (d : directory) (o : offsets) (name : string)
  : list event :=
  let b := file_buffers d name in
  let obj_name := fst (Py.splitext name) in
  Open name
  :: Write ("o " ++ obj_name ++ Py.nl)
  :: Write ("g " ++ obj_name ++ Py.nl)
  :: line_writes (vertices b) ++ line_writes (texcoords b)
     ++ line_writes (normals b) ++ map Write (face_lines_limited o (faces b)).

Fixpoint blocks_limited (d : directory) (o : offsets) (names : list string)
  : list event :=
  match names with
  | [] => []
  | name :: rest =>
      block_limited d o name
      ++ (if file_ok_limited d o name
          then blocks_limited d (advance o (file_buffers d name)) rest
          else [])
  end.

Lemma for_each_write_face_limited o fs :
  for_each fs (Limited.write_face o)
  = (map Write (face_lines_limited o fs), status (forallb (face_ok_limited o) fs)).
Proof.
  induction fs as [|f fs IH]; cbn [for_each face_lines_limited forallb];
    [reflexivity|].
  unfold Limited.write_face at 1, lift.
  destruct (face_ok_limited o f) eqn:E.
  - destruct (renumber_face_limited_ok o f E) as [-> Hok].
    destruct (renumber_face_ok o f Hok) as (toks & Hr & _).
    rewrite Hr. unfold write. rewrite !bind_ok. simpl. now rewrite IH.
  - rewrite (renumber_face_limited_bad o f E). reflexivity.
Qed.

Lemma merge_file_limited_spec d o name :
  isfile d name = true ->
  Limited.merge_file d o name
  = (block_limited d o name,
     if file_ok_limited d o name then Ok (advance o (file_buffers d name))
     else Raise ValueError).
Proof.
  unfold isfile, Limited.merge_file, block_limited, open_lines,
    file_ok_limited, file_buffers.
  destruct (lookup d name) as [[text|]|]; try discriminate. intros _.
  unfold write. rewrite !bind_ok, !for_each_write_line, !bind_ok.
  rewrite for_each_write_face_limited.
  destruct (forallb (face_ok_limited o) (faces (read_buffers (Py.readlines text))));
    simpl; rewrite ?app_nil_r; reflexivity.
Qed.

Lemma merge_files_limited_spec d names : forall o,
  Forall (fun name => isfile d name = true) names ->
  Limited.merge_files d o names
  = (blocks_limited d o names, status (files_ok_limited d o names)).
Proof.
  induction names as [|name rest IH]; intros o H;
    cbn [Limited.merge_files blocks_limited files_ok_limited]; [reflexivity|].
  inversion H as [|? ? Hname Hrest]; subst.
  rewrite (merge_file_limited_spec d o name Hname).
  destruct (file_ok_limited d o name); cbn [andb].
  - rewrite bind_ok, (IH _ Hrest). reflexivity.
  - rewrite bind_raise. now rewrite app_nil_r.
Qed.

(** The whole function under the limit. *)
Lemma merge_limited_spec d :
  Limited.merge_obj_files_in_memory d
  = (Write header :: blocks_limited d zero_offsets (obj_files d),
     status (files_ok_limited d zero_offsets (obj_files d))).
Proof.
  unfold Limited.merge_obj_files_in_memory, write.
  rewrite bind_ok, (merge_files_limited_spec d _ _ (obj_files_isfile d)).
  reflexivity.
Qed.

End LimitedTrace.

Section LimitedAgreement.

(** The face tokens of a list of files are converted within the limit,
    with the offsets that are running when each file is reached. *)
Definition file_in_limit (d : directory) (o : offsets) (name : string) : bool :=
  forallb (fun face_line => forallb (token_in_limit o) (face_parts face_line))
          (faces (file_buffers d name)).

Fixpoint files_in_limit (d : directory) (o : offsets) (names : list string)
  : bool :=
  match names with
  | [] => true
  | name :: rest =>
      file_in_limit d o name
      && files_in_limit d (advance o (file_buffers d name)) rest
  end.

Definition numerals_in_limit (d : directory) : bool :=
  files_in_limit d zero_offsets (obj_files d).

Lemma forallb_andb {A} (f g : A -> bool) l :
  forallb (fun x => f x && g x) l = forallb f l && forallb g l.
Proof.
  induction l as [|x l IH]; [reflexivity|]. cbn [forallb]. rewrite IH.
  destruct (f x), (g x), (forallb f l); reflexivity.
Qed.

Lemma forallb_same {A} (f g : A -> bool) l :
  (forall x, f x = g x) -> forallb f l = forallb g l.
Proof. intros H. induction l as [|x l IH]; cbn; [reflexivity | now rewrite H, IH]. Qed.

Lemma file_ok_limited_split d o name :
  file_ok_limited d o name = file_ok d name && file_in_limit d o name.
Proof.
  unfold file_ok_limited, file_ok, file_in_limit. rewrite <- forallb_andb.
  apply forallb_same. intros f. unfold face_ok_limited, face_ok.
  rewrite <- forallb_andb. reflexivity.
Qed.

Lemma face_lines_limited_same o fs :
  forallb (fun f => forallb (token_in_limit o) (face_parts f)) fs = true ->
  face_lines_limited o fs = face_lines o fs.
Proof.
  induction fs as [|f fs IH]; [reflexivity|]. cbn [forallb].
  rewrite andb_true_iff. intros [Hf Hfs]. cbn [face_lines_limited face_lines].
  destruct (face_ok_limited o f) eqn:E.
  - now rewrite (IH Hfs).
  - assert (Hb : face_ok f = false).
    { unfold face_ok_limited, token_ok_limited in E.
      rewrite forallb_andb, Hf, andb_true_r in E. exact E. }
    now rewrite (renumber_face_bad o f Hb).
Qed.

Lemma blocks_limited_same d names : forall o,
  files_in_limit d o names = true ->
  blocks_limited d o names = blocks d o names
  /\ files_ok_limited d o names = forallb (file_ok d) names.
Proof.
  induction names as [|name rest IH]; intros o H; [now split|].
  cbn [files_in_limit] in H. apply andb_true_iff in H. destruct H as [Hn Hr].
  cbn [blocks_limited blocks files_ok_limited forallb].
  rewrite file_ok_limited_split, Hn, andb_true_r.
  unfold block_limited, block. rewrite (face_lines_limited_same o _ Hn).
  destruct (IH _ Hr) as [-> ->]. now split.
Qed.

(** A run that converts no numeral beyond the limit is the run without
    the limit. *)
Lemma merge_limited_same d :
  numerals_in_limit d = true ->
  Limited.merge_obj_files_in_memory d = merge_obj_files_in_memory d.
Proof.
  intros H. rewrite merge_limited_spec, merge_spec.
  destruct (blocks_limited_same d _ _ H) as [-> ->]. reflexivity.
Qed.

Lemma files_ok_limited_in_limit d names : forall o,
  files_ok_limited d o names = true -> files_in_limit d o names = true.
Proof.
  induction names as [|name rest IH]; intros o H; [reflexivity|].
  cbn [files_ok_limited files_in_limit] in *.
  rewrite file_ok_limited_split in H. apply andb_true_iff in H.
  destruct H as [Hn Hr]. apply andb_true_iff in Hn. destruct Hn as [_ Hn].
  now rewrite Hn, (IH _ Hr).
Qed.

(** A run that completes under the limit is the run without the limit:
    what holds of every completed merge holds under the limit too. *)
Lemma merge_limited_completed d :
  snd (Limited.merge_obj_files_in_memory d) = Ok tt ->
  Limited.merge_obj_files_in_memory d = merge_obj_files_in_memory d.
Proof.
  intros H. apply merge_limited_same. rewrite merge_limited_spec in H.
  apply status_ok in H. now apply files_ok_limited_in_limit.
Qed.

End LimitedAgreement.

Section Rejected.

(** A present field that [int] rejects: it is not an integer numeral,
    or it has more digits than the limit allows. *)
Definition rejected_field (s : string) : Prop :=
  s <> "" /\ int_limited s = None.

Definition rejected_file (d : directory) (name : string) : Prop :=
  exists face_line p i,
    In face_line (faces (file_buffers d name))
    /\ In p (face_parts face_line)
    /\ i < 3
    /\ rejected_field (nth_field p i).

Lemma rejected_token o p i :
  i < 3 -> rejected_field (nth_field p i) -> token_ok_limited o p = false.
Proof.
  intros Hi [Hne Hr]. unfold int_limited in Hr.
  apply String.eqb_neq in Hne.
  unfold token_ok_limited, token_ok, token_in_limit, field_ok, field_in_limit.
  destruct i as [|[|[|i]]]; [| | |lia]; rewrite Hne;
    destruct (in_limit (nth_field p _)); cbn [orb andb];
    rewrite ?Hr, ?andb_false_r; cbn [andb]; rewrite ?andb_false_r; reflexivity.
Qed.

Lemma rejected_file_not_ok d o name :
  rejected_file d name -> file_ok_limited d o name = false.
Proof.
  intros (f & p & i & Hf & Hp & Hi & Hr). unfold file_ok_limited.
  apply forallb_false. exists f. split; [exact Hf|]. unfold face_ok_limited.
  apply forallb_false. exists p. split; [exact Hp|]. now apply (rejected_token o p i).
Qed.

Lemma opens_block_limited d o name : opens (block_limited d o name) = [name].
Proof.
  unfold block_limited. cbn [opens]. rewrite !opens_app, !opens_line_writes.
  now rewrite opens_map_Write.
Qed.

(** The files opened under the limit are an initial part of the list,
    which ends at the latest with a file that holds a rejected field. *)
Lemma opens_blocks_limited d pre name post : forall o,
  rejected_file d name ->
  files_ok_limited d o (pre ++ name :: post) = false
  /\ exists rest,
       (pre ++ [name] = opens (blocks_limited d o (pre ++ name :: post)) ++ rest).
Proof.
  induction pre as [|q pre IH]; intros o Hr.
  - cbn [app blocks_limited files_ok_limited].
    rewrite opens_app, opens_block_limited.
    rewrite (rejected_file_not_ok d o name Hr). split; [reflexivity|].
    now exists [].
  - cbn [app blocks_limited files_ok_limited].
    rewrite opens_app, opens_block_limited.
    destruct (file_ok_limited d o q).
    + destruct (IH (advance o (file_buffers d q)) Hr) as [-> [rest Hrest]].
      split; [reflexivity|]. exists rest. cbn [app]. now rewrite <- Hrest.
    + split; [reflexivity|]. exists (pre ++ [name]). reflexivity.
Qed.

Lemma opens_blocks_limited_ok d names : forall o,
  files_ok_limited d o names = true -> opens (blocks_limited d o names) = names.
Proof.
  induction names as [|name rest IH]; intros o H; [reflexivity|].
  cbn [files_ok_limited] in H. apply andb_true_iff in H. destruct H as [Hn Hr].
  cbn [blocks_limited]. rewrite Hn, opens_app, opens_block_limited, (IH _ Hr).
  reflexivity.
Qed.

End Rejected.

(** C9: under the interpreter's limit on the digits of a numeral.  If a
    face token of a merged file has, among its first three fields, a
    present field that [int] rejects (it is not an integer numeral, or
    it has more than 4300 digits), the merge raises [ValueError], and
    the files opened are an initial part of the merged files that ends
    at the latest with that file: no file after it is opened, and no
    file is skipped.  Conversely, if no merged file has such a field
    and no index has more than 4300 digits, neither as it is read nor
    as it is printed after renumbering, the merge runs to completion
    and opens every file. *)
Theorem C9_bad_index_aborts_merge :
  forall d : directory,
    let run := Limited.merge_obj_files_in_memory d in
    (forall pre name post,
        obj_files d = pre ++ name :: post ->
        rejected_file d name ->
        snd run = Raise ValueError
        /\ exists rest, pre ++ [name] = opens (fst run) ++ rest)
    /\ ((forall name, In name (obj_files d) -> ~ rejected_file d name) ->
        numerals_in_limit d = true ->
        snd run = Ok tt /\ opens (fst run) = obj_files d).
Proof.
  intros d. cbv zeta. rewrite merge_limited_spec. cbn [fst snd opens]. split.
  - intros pre name post Hfiles Hr. rewrite Hfiles.
    destruct (opens_blocks_limited d pre name post zero_offsets Hr) as [-> H].
    split; [reflexivity | exact H].
  - intros Hgood Hlim.
    assert (Hall : forallb (file_ok d) (obj_files d) = true).
    { apply forallb_forall. intros name Hin.
      destruct (file_ok d name) eqn:E; [reflexivity|].
      apply file_ok_false in E. destruct (Hgood name Hin).
      destruct E as (f & p & Hf & Hp & i & Hi & Hne & Hint).
      exists f, p, i. repeat split; try assumption.
      unfold int_limited. rewrite Hint. now destruct (in_limit _). }
    destruct (blocks_limited_same d _ _ Hlim) as [Eb Eo].
    rewrite Eo, Hall. split; [reflexivity|].
    apply opens_blocks_limited_ok. now rewrite Eo.
Qed.

Lemma broken_file_is_rejected : rejected_file broken_dir "b.obj".
Proof.
  exists "f 1/x 1 1", "1/x", 1. split; [vm_compute; tauto|].
  split; [vm_compute; tauto|]. split; [lia|].
  split; [discriminate | reflexivity].
Qed.

Lemma sample_dir_not_rejected name :
  In name (obj_files sample_dir) -> ~ rejected_file sample_dir name.
Proof.
  intros Hn (f & p & i & Hf & Hp & Hi & Hne & Hr).
  vm_compute in Hn.
  destruct Hn as [<-|[<-|[]]]; vm_compute in Hf;
    repeat (destruct Hf as [<-|Hf];
            [vm_compute in Hp;
             repeat (destruct Hp as [<-|Hp];
                     [destruct i as [|[|[|i]]]; [| | |lia];
                      vm_compute in Hne, Hr;
                      first [discriminate Hr | now apply Hne]|]);
             destruct Hp|]);
    destruct Hf.
Qed.

Lemma C9_witness :
  (obj_files broken_dir = ["a.obj"] ++ "b.obj" :: ["c.obj"]
   /\ rejected_file broken_dir "b.obj"
   /\ snd (Limited.merge_obj_files_in_memory broken_dir) = Raise ValueError
   /\ exists rest,
        ["a.obj"] ++ ["b.obj"]
        = opens (fst (Limited.merge_obj_files_in_memory broken_dir)) ++ rest)
  /\ ((forall name, In name (obj_files sample_dir) ->
                    ~ rejected_file sample_dir name)
      /\ numerals_in_limit sample_dir = true
      /\ snd (Limited.merge_obj_files_in_memory sample_dir) = Ok tt
      /\ opens (fst (Limited.merge_obj_files_in_memory sample_dir))
         = obj_files sample_dir).
Proof.
  split.
  - split; [reflexivity|]. split; [exact broken_file_is_rejected|].
    exact (proj1 (C9_bad_index_aborts_merge broken_dir)
             ["a.obj"] "b.obj" ["c.obj"] eq_refl broken_file_is_rejected).
  - split; [exact sample_dir_not_rejected|]. split; [reflexivity|].
    exact (proj2 (C9_bad_index_aborts_merge sample_dir)
             sample_dir_not_rejected eq_refl).
Defined.

Example ex_broken_limited :
  Limited.merge_obj_files_in_memory broken_dir
  = merge_obj_files_in_memory broken_dir
  /\ numerals_in_limit sample_dir = true
  /\ Limited.merge_obj_files_in_memory sample_dir
     = merge_obj_files_in_memory sample_dir.
Proof. repeat split; reflexivity. Qed.

(** *** The converse fails at the limit *)

Section Nines.

Fixpoint repeat_char (c : ascii) (n : nat) : string :=
  match n with
  | 0 => ""
  | S n' => String c (repeat_char c n')
  end.

Lemma all_chars_repeat P c n : P c = true -> all_chars P (repeat_char c n) = true.
Proof. intros H. induction n as [|n IH]; cbn; [reflexivity | now rewrite H, IH]. Qed.

Lemma count_digits_nines n : count_digits (repeat_char "9" n) = N.of_nat n.
Proof.
  induction n as [|n IH]; [reflexivity|]. cbn [repeat_char count_digits].
  change (Py.isdigit "9") with true. cbv iota. rewrite IH. lia.
Qed.

Lemma int_digits_nines n : forall acc,
  Py.int_digits acc true (repeat_char "9" n)
  = Some (acc * 10 ^ Z.of_nat n + (10 ^ Z.of_nat n - 1))%Z.
Proof.
  induction n as [|n IH]; intros acc.
  - cbn [repeat_char Py.int_digits]. f_equal. change (Z.of_nat 0) with 0%Z.
    rewrite Z.pow_0_r. lia.
  - cbn [repeat_char Py.int_digits]. change (Py.isdigit "9") with true.
    cbv iota. change (Py.digit_val "9") with 9%Z. rewrite IH. f_equal.
    rewrite Nat2Z.inj_succ, Z.pow_succ_r by lia. ring.
Qed.

Lemma int_nines n :
  Py.int (repeat_char "9" (S n)) = Some (10 ^ Z.of_nat (S n) - 1)%Z.
Proof.
  unfold Py.int. rewrite int_strip_numeral by (now apply all_chars_repeat).
  cbn [repeat_char]. change ("9" =? "+")%char with false.
  change ("9" =? "-")%char with false. cbv iota.
  cbn [Py.int_digits]. change (Py.isdigit "9") with true. cbv iota.
  change (Py.digit_val "9") with 9%Z. rewrite int_digits_nines. f_equal.
  rewrite Nat2Z.inj_succ, Z.pow_succ_r by lia. ring.
Qed.

(** A numeral of [n] digits is below [10 ^ n]. *)
Lemma uint_value_bound d : forall acc,
  (0 <= acc)%Z ->
  (uint_value acc d
   < (acc + 1) * 10 ^ Z.of_N (count_digits (NilEmpty.string_of_uint d)))%Z.
Proof.
  induction d; intros acc Hacc;
    cbn [uint_value NilEmpty.string_of_uint count_digits];
    try (change (Z.of_N 0) with 0%Z; rewrite Z.pow_0_r; lia);
    match goal with
    | |- context [Py.isdigit ?c] => change (Py.isdigit c) with true
    end; cbv iota;
    rewrite N2Z.inj_add, Z.pow_add_r by lia;
    change (10 ^ Z.of_N 1)%Z with 10%Z;
    match goal with
    | |- (uint_value ?a _ < _)%Z =>
        specialize (IHd a ltac:(lia));
        pose proof (Z.pow_pos_nonneg 10
                      (Z.of_N (count_digits (NilEmpty.string_of_uint d)))
                      ltac:(lia) ltac:(lia))
    end; nia.
Qed.

Lemma str_digits_bound z :
  (0 < z)%Z -> (z < 10 ^ Z.of_N (count_digits (Py.str z)))%Z.
Proof.
  destruct z as [|p|p]; try lia. intros _. rewrite str_pos.
  pose proof (uint_value_bound (Pos.to_uint p) 0 ltac:(lia)) as H.
  rewrite uint_value_pos in H. lia.
Qed.

Lemma power_of_ten_digits n :
  (count_digits (Py.str (10 ^ Z.of_N n)) <=? n)%N = false.
Proof.
  apply N.leb_gt.
  pose proof (str_digits_bound (10 ^ Z.of_N n)
                ltac:(apply Z.pow_pos_nonneg; lia)) as H.
  apply Z.pow_lt_mono_r_iff in H; lia.
Qed.

(** A face index of 4300 nines: [int] reads it, and the next integer
    has one digit more than [str] prints. *)
Definition nines : string := repeat_char "9" (N.to_nat int_max_str_digits).

Lemma nines_in_limit : in_limit nines = true.
Proof.
  unfold in_limit, nines. rewrite count_digits_nines, N2Nat.id.
  apply N.leb_refl.
Qed.

Lemma nines_int : Py.int nines = Some (10 ^ Z.of_N int_max_str_digits - 1)%Z.
Proof.
  unfold nines.
  assert (E : N.to_nat int_max_str_digits = S (N.to_nat (N.pred int_max_str_digits))).
  { rewrite <- N2Nat.inj_succ. reflexivity. }
  rewrite E, int_nines, <- E. now rewrite N_nat_Z.
Qed.

Lemma nines_read :
  int_limited nines = Some (10 ^ Z.of_N int_max_str_digits - 1)%Z.
Proof. unfold int_limited. rewrite nines_in_limit. exact nines_int. Qed.

Lemma nines_nonempty : nines <> "".
Proof.
  intros H. pose proof (count_digits_nines (N.to_nat int_max_str_digits)) as E.
  fold nines in E. rewrite H, N2Nat.id in E. discriminate E.
Qed.

Lemma nines_fields :
  nth_field nines 0 = nines /\ nth_field nines 1 = "" /\ nth_field nines 2 = "".
Proof.
  unfold nth_field. rewrite split_on_no_sep by (now apply all_chars_repeat).
  now repeat split.
Qed.

Lemma next_not_printed :
  in_limit (Py.str (10 ^ Z.of_N int_max_str_digits - 1 + 1)) = false.
Proof.
  unfold in_limit. generalize int_max_str_digits. intros n.
  replace (10 ^ Z.of_N n - 1 + 1)%Z with (10 ^ Z.of_N n)%Z by lia.
  apply power_of_ten_digits.
Qed.

Lemma field_not_printed s z off :
  s <> "" -> Py.int s = Some z -> in_limit (Py.str (z + off)) = false ->
  field_in_limit s off = false.
Proof.
  intros Hs Hz Hp. apply String.eqb_neq in Hs. unfold field_in_limit.
  rewrite Hs, Hz, Hp. now rewrite andb_false_r.
Qed.

Lemma nines_not_printed o :
  vertex_offset o = 1%Z -> token_ok_limited o nines = false.
Proof.
  intros Ho. unfold token_ok_limited, token_in_limit.
  destruct nines_fields as (-> & _ & _). rewrite Ho.
  rewrite (field_not_printed nines _ 1 nines_nonempty nines_int next_not_printed).
  cbn [andb]. now rewrite andb_false_r.
Qed.

Example ex_nines_token :
  (exists z, int_limited nines = Some z)
  /\ Limited.renumber_token (mkOffsets 1 0 0) nines = Raise ValueError.
Proof.
  split; [eexists; exact nines_read|].
  apply renumber_token_limited_bad, nines_not_printed. reflexivity.
Qed.

(** One vertex line in a first file, so that the index is printed as
    [10 ^ 4300] in the second. *)
Definition nines_dir : directory :=
  [ ("a.obj", RegularFile "v 0 0 0");
    ("b.obj", RegularFile ("v 1 1 1" ++ Py.nl ++ "f " ++ nines)) ].

Lemma nines_dir_faces :
  obj_files nines_dir = ["a.obj"; "b.obj"]
  /\ file_buffers nines_dir "a.obj" = mkBuffers ["v 0 0 0"] [] [] []
  /\ faces (file_buffers nines_dir "b.obj") = [("f " ++ nines)%string]
  /\ face_parts ("f " ++ nines) = [nines].
Proof. repeat split; vm_compute; reflexivity. Qed.

Lemma nines_dir_not_rejected name :
  In name (obj_files nines_dir) -> ~ rejected_file nines_dir name.
Proof.
  destruct nines_dir_faces as (En & Ea & Eb & Ep).
  destruct nines_fields as (E0 & E1 & E2).
  rewrite En. intros Hn (f & p & i & Hf & Hp & Hi & Hne & Hr).
  destruct Hn as [<-|[<-|[]]].
  - rewrite Ea in Hf. destruct Hf.
  - rewrite Eb in Hf. destruct Hf as [<-|[]].
    rewrite Ep in Hp. destruct Hp as [<-|[]].
    destruct i as [|[|[|i]]]; [| | |lia].
    + rewrite E0, nines_read in Hr. discriminate Hr.
    + now rewrite E1 in Hne.
    + now rewrite E2 in Hne.
Qed.

Lemma nines_dir_raises :
  snd (Limited.merge_obj_files_in_memory nines_dir) = Raise ValueError.
Proof.
  destruct nines_dir_faces as (En & Ea & Eb & Ep).
  rewrite merge_limited_spec, En. cbn [snd files_ok_limited].
  rewrite Ea. unfold file_ok_limited at 2. rewrite Eb.
  cbn [forallb]. unfold face_ok_limited. rewrite Ep. cbn [forallb].
  rewrite nines_not_printed by reflexivity. cbn [andb].
  now rewrite andb_false_r.
Qed.

End Nines.

(** The converse as the claim has it: every present index field
    parses, so the merge completes. *)
Definition converse_claim : Prop :=
  forall d : directory,
    (forall name, In name (obj_files d) -> ~ rejected_file d name) ->
    snd (Limited.merge_obj_files_in_memory d) = Ok tt.

Lemma C9_counterexample : ~ converse_claim.
Proof.
  intros H. specialize (H nines_dir nines_dir_not_rejected).
  rewrite nines_dir_raises in H. discriminate H.
Qed.

(* ================================================================= *)
(** ** Reading a written face line back *)

Section ReadBack.

(** The string is empty or begins with white space. *)
Definition at_space (s : string) : bool :=
  match s with
  | "" => true
  | String c _ => Py.isspace c
  end.

Lemma split_ws_space c s : Py.isspace c = true ->
  Py.split_ws (String c s) = Py.split_ws s.
Proof. intros H. simpl. now rewrite H. Qed.

(** A word followed by white space or by the end is the first item. *)
Lemma split_ws_word w rest :
  w <> "" -> all_chars nonspace w = true -> at_space rest = true ->
  Py.split_ws (w ++ rest) = w :: Py.split_ws rest.
Proof.
  induction w as [|c w IH]; intros Hne Hw Hrest; [congruence|].
  cbn [all_chars] in Hw. apply andb_true_iff in Hw. destruct Hw as [Hc Hw].
  unfold nonspace in Hc. apply negb_true_iff in Hc.
  destruct w as [|c2 w].
  - cbn [append Py.split_ws]. rewrite Hc.
    destruct rest as [|c' rest]; [reflexivity|].
    cbn [at_space] in Hrest. now rewrite Hrest.
  - assert (Hc2 : Py.isspace c2 = false).
    { cbn [all_chars] in Hw. apply andb_true_iff in Hw.
      destruct Hw as [Hc2 _]. now apply negb_true_iff in Hc2. }
    change (String c (String c2 w) ++ rest)%string
      with (String c (String c2 w ++ rest)).
    cbn [Py.split_ws]. rewrite Hc.
    change (String c2 w ++ rest)%string with (String c2 (w ++ rest)) at 1.
    cbv iota. rewrite Hc2.
    rewrite IH by (try discriminate; assumption). reflexivity.
Qed.

Definition nonempty (s : string) : bool := negb (s =? "")%string.

(** Splitting the joined tokens gives the tokens that are not empty. *)
Lemma split_ws_join toks :
  Forall (fun p => all_chars nonspace p = true) toks ->
  Py.split_ws (Py.join " " toks ++ Py.nl) = filter nonempty toks.
Proof.
  induction 1 as [|p toks Hp _ IH]; [reflexivity|].
  assert (E : (Py.join " " (p :: toks) ++ Py.nl)%string
              = (p ++ match toks with
                      | [] => Py.nl
                      | _ :: _ => String " " (Py.join " " toks ++ Py.nl)
                      end)%string).
  { unfold Py.join. cbn [String.concat]. destruct toks as [|q toks];
      [reflexivity|]. now rewrite append_assoc. }
  rewrite E. cbn [filter]. destruct p as [|c p].
  - cbn [append nonempty String.eqb negb]. destruct toks as [|q toks];
      [reflexivity|]. now rewrite split_ws_space.
  - rewrite split_ws_word; [|discriminate|assumption|now destruct toks].
    cbn [nonempty String.eqb negb]. f_equal.
    destruct toks as [|q toks]; [reflexivity|]. now rewrite split_ws_space.
Qed.

Lemma fmt_nonspace x : all_chars nonspace (fmt x) = true.
Proof.
  destruct x as [z|]; [|reflexivity]. simpl.
  apply all_chars_impl with (P := numeral_char);
    [exact numeral_char_nonspace | apply str_numeral].
Qed.

Lemma assemble_nonspace v t n : all_chars nonspace (assemble v t n) = true.
Proof.
  unfold assemble. destruct t, n;
    rewrite ?all_chars_app, ?fmt_nonspace; reflexivity.
Qed.

Lemma renumber_token_nonspace o p p' :
  renumber_token o p = Ok p' -> all_chars nonspace p' = true.
Proof.
  intros H. destruct (token_ok p) eqn:E;
    [|rewrite (renumber_token_bad o p E) in H; discriminate].
  destruct (renumber_token_ok o p E) as (v & t & n & Hr & _).
  rewrite Hr in H. injection H as <-. apply assemble_nonspace.
Qed.

Lemma Forall2_in_right {A B} (P : A -> B -> Prop) l l' y :
  Forall2 P l l' -> In y l' -> exists x, In x l /\ P x y.
Proof.
  induction 1 as [|x y' l l' Hxy _ IH]; simpl; [contradiction|].
  intros [->|Hin]; [exists x; auto|].
  destruct (IH Hin) as (x' & Hx' & HP). exists x'. auto.
Qed.

(** Every token read back from a written face line is the renumbering
    of a token of the face line it was written for. *)
Lemma written_face_tokens o face_line s p' :
  renumber_face o face_line = Ok s -> In p' (face_parts s) ->
  exists p, In p (face_parts face_line) /\ renumber_token o p = Ok p'.
Proof.
  intros Hs Hin.
  destruct (renumber_face_tokens o face_line s Hs) as (toks & -> & F).
  assert (Hns : Forall (fun q => all_chars nonspace q = true) toks).
  { apply Forall_forall. intros q Hq.
    destruct (Forall2_in_right _ _ _ _ F Hq) as (p & _ & Hp).
    now apply (renumber_token_nonspace o p). }
  unfold face_parts in Hin.
  change ("f " ++ Py.join " " toks ++ Py.nl)%string
    with ("f" ++ String " " (Py.join " " toks ++ Py.nl))%string in Hin.
  rewrite split_ws_word in Hin by (try discriminate; reflexivity).
  rewrite split_ws_space in Hin by reflexivity.
  cbn [tl] in Hin. rewrite split_ws_join in Hin by assumption.
  apply filter_In in Hin. destruct Hin as [Hin _].
  exact (Forall2_in_right _ _ _ _ F Hin).
Qed.

Lemma face_lines_in o fs s :
  In s (face_lines o fs) ->
  exists face_line, In face_line fs /\ renumber_face o face_line = Ok s.
Proof.
  induction fs as [|f fs IH]; simpl; [contradiction|].
  destruct (renumber_face o f) as [s'|e] eqn:E; [|contradiction].
  intros [<-|Hin]; [exists f; auto|].
  destruct (IH Hin) as (g & Hg & Hr). exists g. auto.
Qed.

End ReadBack.

(* ================================================================= *)
(** ** The lines of the buffers *)

Section BufferLines.

Lemma filter_all {A} (f : A -> bool) l :
  (forall x, In x l -> f x = true) -> filter f l = l.
Proof.
  induction l as [|x l IH]; intros H; simpl; [reflexivity|].
  rewrite (H x (or_introl eq_refl)). f_equal. apply IH.
  intros y Hy. apply H. now right.
Qed.

Lemma writes_line_writes ls :
  writes (line_writes ls) = map (fun l => (l ++ Py.nl)%string) ls.
Proof. unfold line_writes. induction ls; simpl; [reflexivity | now f_equal]. Qed.

(** The lines in each buffer begin with the buffer's keyword. *)
Lemma file_buffers_keywords d name :
  let b := file_buffers d name in
  (forall l, In l (vertices b) -> Py.startswith l "v " = true)
  /\ (forall l, In l (texcoords b) -> Py.startswith l "vt " = true)
  /\ (forall l, In l (normals b) -> Py.startswith l "vn " = true)
  /\ (forall l, In l (faces b) -> Py.startswith l "f " = true).
Proof.
  cbv zeta. unfold file_buffers.
  destruct (lookup d name) as [[text|]|];
    try (repeat split; intros l []).
  rewrite read_buffers_filter. cbn [vertices texcoords normals faces].
  repeat split; intros l Hl; now apply filter_In in Hl.
Qed.

End BufferLines.

(** Every vertex index of every face token lies within its own file. *)
Definition indices_in_own_range (d : directory) : Prop :=
  forall name face_line p z,
    In name (obj_files d) ->
    In face_line (faces (file_buffers d name)) ->
    In p (face_parts face_line) ->
    Py.int (nth_field p 0) = Some z ->
    (1 <= z <= Z.of_nat (List.length (vertices (file_buffers d name))))%Z.

Lemma sample_dir_in_range : indices_in_own_range sample_dir.
Proof.
  intros name face_line p z Hn Hf Hp Hz.
  vm_compute in Hn.
  destruct Hn as [<-|[<-|[]]]; vm_compute in Hf;
    repeat (destruct Hf as [<-|Hf];
            [vm_compute in Hp;
             repeat (destruct Hp as [<-|Hp];
                     [vm_compute in Hz; injection Hz as <-;
                      split; vm_compute; discriminate|]);
             destruct Hp|]);
    destruct Hf.
Qed.

(* ================================================================= *)
(** ** The order of the merged files *)

Section Order.

Definition le (x y : string) : Prop := is_true (StringOrder.leb x y).

Lemma ascii_compare_lt_trans a b c :
  Ascii.compare a b = Lt -> Ascii.compare b c = Lt -> Ascii.compare a c = Lt.
Proof.
  unfold Ascii.compare. rewrite !N.compare_lt_iff. apply N.lt_trans.
Qed.

Lemma ascii_compare_refl a : Ascii.compare a a = Eq.
Proof. unfold Ascii.compare. apply N.compare_refl. Qed.

Lemma le_trans x : forall y z, le x y -> le y z -> le x z.
Proof.
  unfold le, StringOrder.leb, String.leb, is_true.
  induction x as [|a x IH]; intros [|b y] [|c z]; simpl; try congruence.
  destruct (Ascii.compare a b) eqn:Eab; try discriminate.
  - apply Ascii.compare_eq_iff in Eab. subst b.
    destruct (Ascii.compare a c) eqn:Eac; auto. apply IH.
  - destruct (Ascii.compare b c) eqn:Ebc; try discriminate.
    + apply Ascii.compare_eq_iff in Ebc. subst c. now rewrite Eab.
    + now rewrite (ascii_compare_lt_trans a b c Eab Ebc).
Qed.

Lemma le_antisym x y : le x y -> le y x -> x = y.
Proof. apply String.leb_antisym. Qed.

Lemma le_transitive : Relations_1.Transitive le.
Proof. intros x y z. apply le_trans. Qed.

Lemma sorted_obj_files d : StronglySorted le (obj_files d).
Proof.
  apply Sorted_StronglySorted; [exact le_transitive|].
  apply StringSort.Sorted_sort.
Qed.

(** Two sorted lists with the same elements are the same list. *)
Lemma sorted_unique l : forall l',
  StronglySorted le l -> StronglySorted le l' -> Permutation l l' -> l = l'.
Proof.
  induction l as [|a l IH]; intros l' Hl Hl' HP.
  - apply Permutation_nil in HP. now subst.
  - destruct l' as [|b l'].
    { apply Permutation_sym, Permutation_nil in HP. discriminate. }
    apply StronglySorted_inv in Hl. destruct Hl as [Hl Ha].
    apply StronglySorted_inv in Hl'. destruct Hl' as [Hl' Hb].
    rewrite Forall_forall in Ha, Hb.
    assert (a = b) as ->.
    { pose proof (Permutation_in a HP (or_introl eq_refl)) as Hin.
      pose proof (Permutation_in b (Permutation_sym HP) (or_introl eq_refl))
        as Hin'.
      destruct Hin as [->|Hin]; [reflexivity|].
      destruct Hin' as [->|Hin']; [reflexivity|].
      apply le_antisym; auto. }
    f_equal. apply IH; try assumption. now apply Permutation_cons_inv in HP.
Qed.

Lemma sort_permutation l l' :
  Permutation l l' -> StringSort.sort l = StringSort.sort l'.
Proof.
  intros HP. apply sorted_unique.
  - apply Sorted_StronglySorted; [exact le_transitive|].
    apply StringSort.Sorted_sort.
  - apply Sorted_StronglySorted; [exact le_transitive|].
    apply StringSort.Sorted_sort.
  - rewrite <- (StringSort.Permuted_sort l), <- (StringSort.Permuted_sort l').
    exact HP.
Qed.

Lemma filter_permutation {A} (f : A -> bool) l l' :
  Permutation l l' -> Permutation (filter f l) (filter f l').
Proof.
  induction 1 as [|x l l' _ IH|x y l|l l' l'' _ IH1 _ IH2]; simpl.
  - constructor.
  - destruct (f x); [now constructor | assumption].
  - destruct (f x), (f y); try apply Permutation_refl. apply perm_swap.
  - now transitivity (filter f l').
Qed.

(** *** Looking a name up does not depend on the enumeration order *)

Lemma lookup_in d name x :
  NoDup (listdir d) -> (lookup d name = Some x <-> In (name, x) d).
Proof.
  unfold listdir. induction d as [|[n y] d IH]; simpl; intros Hnd.
  - split; [discriminate | contradiction].
  - inversion Hnd as [|? ? Hn Hd]; subst.
    destruct (String.eqb_spec n name) as [->|Hne].
    + split.
      * intros [= ->]. now left.
      * intros [[= ->]|Hin]; [reflexivity|].
        exfalso. apply Hn. apply in_map_iff. now exists (name, x).
    + rewrite (IH Hd). split; [now right|].
      intros [[= -> _]|Hin]; [congruence | assumption].
Qed.

Lemma lookup_permutation d d' name :
  NoDup (listdir d) -> Permutation d d' -> lookup d name = lookup d' name.
Proof.
  intros Hnd HP.
  assert (Hnd' : NoDup (listdir d')).
  { unfold listdir in *. eapply Permutation_NoDup; [|exact Hnd].
    now apply Permutation_map. }
  destruct (lookup d name) as [x|] eqn:E.
  - symmetry. apply (lookup_in d' name x Hnd').
    apply (Permutation_in _ HP). now apply (lookup_in d name x Hnd).
  - destruct (lookup d' name) as [x'|] eqn:E'; [|reflexivity].
    apply (lookup_in d' name x' Hnd') in E'.
    apply (Permutation_in _ (Permutation_sym HP)) in E'.
    apply (lookup_in d name x' Hnd) in E'. congruence.
Qed.

Section SameLookup.

Variables d d' : directory.
Hypothesis same : forall name, lookup d name = lookup d' name.

Lemma file_buffers_same name : file_buffers d name = file_buffers d' name.
Proof. unfold file_buffers. now rewrite same. Qed.

Lemma file_ok_same name : file_ok d name = file_ok d' name.
Proof. unfold file_ok. now rewrite file_buffers_same. Qed.

Lemma block_same o name : block d o name = block d' o name.
Proof. unfold block. now rewrite file_buffers_same. Qed.

Lemma blocks_same names : forall o, blocks d o names = blocks d' o names.
Proof.
  induction names as [|name rest IH]; intros o; [reflexivity|].
  cbn [blocks]. now rewrite block_same, file_ok_same, file_buffers_same, IH.
Qed.

Lemma is_obj_file_same name : is_obj_file d name = is_obj_file d' name.
Proof. unfold is_obj_file, isfile. now rewrite same. Qed.

End SameLookup.

Lemma obj_files_permutation d d' :
  NoDup (listdir d) -> Permutation d d' -> obj_files d = obj_files d'.
Proof.
  intros Hnd HP. unfold obj_files. apply sort_permutation.
  rewrite (filter_ext (is_obj_file d) (is_obj_file d')).
  - apply filter_permutation. unfold listdir. now apply Permutation_map.
  - intros name. apply is_obj_file_same. intros n.
    now apply lookup_permutation.
Qed.

(** The trace is the same for every enumeration order. *)
Lemma merge_permutation d d' :
  NoDup (listdir d) -> Permutation d d' ->
  merge_obj_files_in_memory d' = merge_obj_files_in_memory d.
Proof.
  intros Hnd HP. rewrite !merge_spec.
  rewrite <- (obj_files_permutation d d' Hnd HP).
  assert (same : forall name, lookup d name = lookup d' name).
  { intros name. now apply lookup_permutation. }
  rewrite (blocks_same d d' same). f_equal. f_equal.
  induction (obj_files d) as [|name rest IH]; [reflexivity|].
  cbn [forallb]. now rewrite IH, (file_ok_same d d' same).
Qed.

End Order.

(* ================================================================= *)
(** ** Which files are merged, and in which order *)

Section MergedOrder.

(** In the trace the block of [a] comes before the block of [b]: every
    block begins with the event that opens its file. *)
Definition block_before (t : list event) (a b : string) : Prop :=
  exists t1 t2 t3, t = t1 ++ Open a :: t2 ++ Open b :: t3.

Lemma block_before_opens t a b :
  block_before t a b ->
  exists l1 l2 l3, opens t = l1 ++ a :: l2 ++ b :: l3.
Proof.
  intros (t1 & t2 & t3 & ->). exists (opens t1), (opens t2), (opens t3).
  rewrite opens_app. cbn [opens]. rewrite opens_app. reflexivity.
Qed.

(** The files opened are an initial segment of the sorted list. *)
Lemma opens_blocks_prefix d names : forall o,
  exists rest, names = opens (blocks d o names) ++ rest.
Proof.
  induction names as [|name names IH]; intros o; [now exists []|].
  cbn [blocks]. rewrite opens_app, opens_block.
  destruct (file_ok d name).
  - destruct (IH (advance o (file_buffers d name))) as [rest Hrest].
    exists rest. cbn [app]. now rewrite <- Hrest.
  - now exists names.
Qed.

Lemma compare_refl s : String.compare s s = Eq.
Proof.
  induction s as [|c s IH]; simpl; [reflexivity|].
  now rewrite ascii_compare_refl.
Qed.

Lemma ltb_irrefl s : String.ltb s s = false.
Proof. unfold String.ltb. now rewrite compare_refl. Qed.

Lemma ltb_asym a b : String.ltb a b = true -> String.ltb b a = false.
Proof.
  unfold String.ltb. rewrite (String.compare_antisym a b).
  destruct (String.compare b a); simpl; congruence.
Qed.

Lemma le_neq_ltb a b : le a b -> a <> b -> String.ltb a b = true.
Proof.
  unfold le, StringOrder.leb, String.leb, String.ltb, is_true.
  destruct (String.compare a b) eqn:E; try congruence.
  apply String.compare_eq_iff in E. congruence.
Qed.

Lemma NoDup_obj_files d : NoDup (listdir d) -> NoDup (obj_files d).
Proof.
  intros H. eapply Permutation_NoDup; [apply obj_files_perm|].
  now apply NoDup_filter.
Qed.

(** In a sorted list without repetition, an earlier name is smaller. *)
Lemma sorted_split_ltb l : forall l1 a l2 b l3,
  StronglySorted le l -> NoDup l -> l = l1 ++ a :: l2 ++ b :: l3 ->
  String.ltb a b = true.
Proof.
  intros l1 a l2 b l3 Hs Hnd ->. induction l1 as [|x l1 IH].
  - cbn [app] in *. apply StronglySorted_inv in Hs. destruct Hs as [_ Ha].
    inversion Hnd as [|? ? Hnotin _]; subst.
    rewrite Forall_forall in Ha. apply le_neq_ltb.
    + apply Ha. apply in_elt.
    + intros ->. apply Hnotin. apply in_elt.
  - cbn [app] in *. apply StronglySorted_inv in Hs.
    inversion Hnd; subst. now apply IH.
Qed.

Lemma obj_files_split_ltb d l1 a l2 b l3 :
  NoDup (listdir d) -> obj_files d = l1 ++ a :: l2 ++ b :: l3 ->
  String.ltb a b = true.
Proof.
  intros Hnd. apply sorted_split_ltb;
    [apply sorted_obj_files | now apply NoDup_obj_files].
Qed.

(** Two merged names are listed in their order. *)
Lemma obj_files_order d a b :
  NoDup (listdir d) ->
  In a (obj_files d) -> In b (obj_files d) -> String.ltb a b = true ->
  exists l1 l2 l3, obj_files d = l1 ++ a :: l2 ++ b :: l3.
Proof.
  intros Hnd Ha Hb Hab.
  destruct (in_split a _ Ha) as (l1 & l2 & E).
  rewrite E in Hb. apply in_app_or in Hb. destruct Hb as [Hb|[->|Hb]].
  - destruct (in_split b _ Hb) as (m1 & m2 & ->).
    rewrite <- app_assoc in E. cbn [app] in E.
    pose proof (obj_files_split_ltb d _ _ _ _ _ Hnd E) as Hba.
    rewrite (ltb_asym _ _ Hab) in Hba. discriminate.
  - rewrite ltb_irrefl in Hab. discriminate.
  - destruct (in_split b _ Hb) as (m1 & m2 & ->). now exists l1, m1, m2.
Qed.

(** A smaller stem gives a smaller file name when it is not a prefix of
    the other stem. *)
Lemma stem_order_name_order A : forall B extA extB,
  String.ltb A B = true -> String.prefix A B = false ->
  String.ltb (A ++ extA) (B ++ extB) = true.
Proof.
  unfold String.ltb.
  induction A as [|a A IH]; intros [|b B] extA extB; simpl; try discriminate.
  destruct (Ascii.compare a b) eqn:E; try discriminate.
  - apply Ascii.compare_eq_iff in E. subst b.
    destruct (ascii_dec a a) as [_|Hne]; [|congruence]. apply IH.
  - reflexivity.
Qed.

End MergedOrder.

Lemma blocks_before d o l1 a l2 b l3 :
  forallb (file_ok d) (l1 ++ a :: l2 ++ b :: l3) = true ->
  block_before (Write header :: blocks d o (l1 ++ a :: l2 ++ b :: l3)) a b.
Proof.
  intros H. apply forallb_app_true in H. destruct H as [H1 H].
  cbn [forallb] in H. apply andb_true_iff in H. destruct H as [Ha H].
  apply forallb_app_true in H. destruct H as [H2 H].
  cbn [forallb] in H. apply andb_true_iff in H. destruct H as [Hb H3].
  rewrite (blocks_at d _ _ _ _ H1), Ha, (blocks_at d _ _ _ _ H2), Hb.
  set (oa := offsets_after d o l1).
  set (ob := offsets_after d (offsets_after d o (l1 ++ [a])) l2).
  set (rest := blocks d _ l3).
  exists (Write header :: blocks d o l1),
    (tl (block d oa a) ++ blocks d (offsets_after d o (l1 ++ [a])) l2),
    (tl (block d ob b) ++ rest).
  change (block d oa a) with (Open a :: tl (block d oa a)).
  change (block d ob b) with (Open b :: tl (block d ob b)).
  cbn [tl]. repeat (rewrite <- app_comm_cons || rewrite <- app_assoc).
  reflexivity.
Qed.

(** C4 (amended): the files merged are exactly the entries of the
    directory that are regular files and whose lower-cased name ends in
    [.obj]; they are merged once each, in strictly ascending code-point
    order of their full names; the whole trace, and so the output, is
    the same for every enumeration order of the directory.  Hence the
    block of a file never comes after the block of a file with a larger
    name, and comes before it when the merge completes.  For two stems
    [A] < [B] this gives [A]'s block first when [A] is not a prefix of
    [B]. *)
Theorem C4_merged_in_file_name_order :
  forall d : directory,
    NoDup (listdir d) ->
    (forall name,
        In name (obj_files d)
        <-> In name (listdir d) /\ isfile d name = true
            /\ Py.endswith (Py.lower name) ".obj" = true)
    /\ NoDup (obj_files d)
    /\ (forall l1 a l2 b l3,
           obj_files d = l1 ++ a :: l2 ++ b :: l3 -> String.ltb a b = true)
    /\ (exists rest,
          obj_files d = opens (fst (merge_obj_files_in_memory d)) ++ rest)
    /\ (snd (merge_obj_files_in_memory d) = Ok tt ->
        opens (fst (merge_obj_files_in_memory d)) = obj_files d)
    /\ (forall d', Permutation d d' ->
                   merge_obj_files_in_memory d' = merge_obj_files_in_memory d)
    /\ (forall a b,
           In a (obj_files d) -> In b (obj_files d) ->
           String.ltb a b = true ->
           ~ block_before (fst (merge_obj_files_in_memory d)) b a
           /\ (snd (merge_obj_files_in_memory d) = Ok tt ->
               block_before (fst (merge_obj_files_in_memory d)) a b))
    /\ (forall A B extA extB,
           In (A ++ extA)%string (obj_files d) ->
           In (B ++ extB)%string (obj_files d) ->
           String.ltb A B = true -> String.prefix A B = false ->
           snd (merge_obj_files_in_memory d) = Ok tt ->
           block_before (fst (merge_obj_files_in_memory d))
                        (A ++ extA) (B ++ extB)).
Proof.
  intros d Hnd.
  assert (Hprefix : exists rest,
            obj_files d = opens (fst (merge_obj_files_in_memory d)) ++ rest).
  { rewrite merge_spec. cbn [fst opens]. apply opens_blocks_prefix. }
  assert (Hbefore : forall a b,
            In a (obj_files d) -> In b (obj_files d) ->
            String.ltb a b = true ->
            snd (merge_obj_files_in_memory d) = Ok tt ->
            block_before (fst (merge_obj_files_in_memory d)) a b).
  { intros a b Ha Hb Hab Hok. apply merge_ok_files in Hok.
    destruct (obj_files_order d a b Hnd Ha Hb Hab) as (l1 & l2 & l3 & E).
    rewrite merge_spec. cbn [fst]. rewrite E in Hok |- *.
    now apply blocks_before. }
  split; [|split; [|split; [|split; [|split; [|split; [|split]]]]]].
  - intros name. rewrite obj_files_in. unfold is_obj_file.
    rewrite andb_true_iff. tauto.
  - now apply NoDup_obj_files.
  - intros l1 a l2 b l3. now apply obj_files_split_ltb.
  - exact Hprefix.
  - intros Hok. apply merge_ok_files in Hok. rewrite merge_spec.
    cbn [fst opens]. now apply opens_blocks.
  - intros d' HP. now apply merge_permutation.
  - intros a b Ha Hb Hab. split; [|now apply Hbefore].
    intros Hba. apply block_before_opens in Hba.
    destruct Hba as (l1 & l2 & l3 & E). destruct Hprefix as [rest Hrest].
    rewrite E in Hrest. rewrite <- !app_assoc in Hrest. cbn [app] in Hrest.
    rewrite <- !app_assoc in Hrest. cbn [app] in Hrest.
    pose proof (obj_files_split_ltb d _ _ _ _ _ Hnd Hrest) as H.
    rewrite (ltb_asym _ _ Hab) in H. discriminate.
  - intros A B extA extB HA HB Hlt Hpre Hok.
    apply Hbefore; try assumption. now apply stem_order_name_order.
Qed.

Lemma NoDup_sample_dir : NoDup (listdir sample_dir).
Proof.
  repeat constructor; simpl; intuition discriminate.
Qed.

Lemma C4_witness :
  NoDup (listdir sample_dir)
  /\ opens (fst (merge_obj_files_in_memory sample_dir)) = ["cube.obj"; "tri.OBJ"]
  /\ merge_obj_files_in_memory (rev sample_dir)
     = merge_obj_files_in_memory sample_dir.
Proof.
  split; [exact NoDup_sample_dir|].
  pose proof (C4_merged_in_file_name_order sample_dir NoDup_sample_dir)
    as (_ & _ & _ & _ & Hopens & Hperm & _).
  split.
  - exact (Hopens eq_refl).
  - apply Hperm. apply Permutation_rev.
Defined.

(** *** The order of the stems is not the order of the blocks *)

(** The last sentence of the claim as it was written: for stems
    [A] < [B], the block of [A.obj] comes before the block of [B.obj]. *)
Definition stem_order_claim : Prop :=
  forall (d : directory) (A B : string),
    NoDup (listdir d) ->
    In (A ++ ".obj")%string (obj_files d) ->
    In (B ++ ".obj")%string (obj_files d) ->
    String.ltb A B = true ->
    snd (merge_obj_files_in_memory d) = Ok tt ->
    block_before (fst (merge_obj_files_in_memory d)) (A ++ ".obj") (B ++ ".obj").

Definition dash_dir : directory :=
  [ ("a.obj", RegularFile "v 0 0 0"); ("a-1.obj", RegularFile "v 1 1 1") ].

Example ex_dash_dir :
  String.ltb "a" "a-1" = true
  /\ merge_obj_files_in_memory dash_dir
     = ([Write header;
         Open "a-1.obj"; Write ("o a-1" ++ Py.nl); Write ("g a-1" ++ Py.nl);
         Write ("v 1 1 1" ++ Py.nl);
         Open "a.obj"; Write ("o a" ++ Py.nl); Write ("g a" ++ Py.nl);
         Write ("v 0 0 0" ++ Py.nl)],
        Ok tt).
Proof. split; reflexivity. Qed.

(** Files named [A.obj] and [B.obj] are merged in that order, in
    whichever order the directory lists them. *)
Definition ab_dir : directory :=
  [ ("B.obj", RegularFile "v 2 2 2"); ("A.obj", RegularFile "v 1 1 1") ].

Example ex_A_before_B :
  opens (fst (merge_obj_files_in_memory ab_dir)) = ["A.obj"; "B.obj"]
  /\ opens (fst (merge_obj_files_in_memory (rev ab_dir))) = ["A.obj"; "B.obj"].
Proof. split; reflexivity. Qed.

(** With the files [a.obj] and [a-1.obj] the stem ["a"] is smaller than
    the stem ["a-1"], yet the names sort as [a-1.obj], [a.obj], because
    ['-'] comes before ['.']: the block of [a.obj] is written last. *)
Lemma C4_counterexample : ~ stem_order_claim.
Proof.
  intros H.
  assert (Hnd : NoDup (listdir dash_dir)).
  { repeat constructor; simpl; intuition discriminate. }
  specialize (H dash_dir "a" "a-1" Hnd).
  assert (Hb : block_before (fst (merge_obj_files_in_memory dash_dir))
                            "a.obj" "a-1.obj").
  { apply H; try reflexivity; vm_compute; tauto. }
  apply block_before_opens in Hb. destruct Hb as (l1 & l2 & l3 & E).
  vm_compute in E.
  destruct l1 as [|x [|y [|z l1]]]; try discriminate E.
  injection E as _ E. destruct l2; discriminate E.
Qed.

(* ================================================================= *)
(** * Further properties of the code *)

(* ================================================================= *)
(** ** Renumbering a token twice *)

Section TokenAlgebra.

(** Adding two sets of offsets position by position. *)
Definition add_offsets (o1 o2 : offsets) : offsets :=
  mkOffsets (vertex_offset o1 + vertex_offset o2)
            (tex_offset o1 + tex_offset o2)
            (norm_offset o1 + norm_offset o2).

Definition shift (k : Z) (x : option Z) : option Z :=
  option_map (fun z => (z + k)%Z) x.

Lemma offset_of_add o1 o2 i :
  offset_of (add_offsets o1 o2) i = (offset_of o1 i + offset_of o2 i)%Z.
Proof. destruct i as [|[|i]]; reflexivity. Qed.

Lemma index_field_shift l i off k x :
  index_field l i off = Ok x ->
  index_field l i (off + k) = Ok (shift k x).
Proof.
  unfold index_field. destruct (nth_error l i) as [s|]; [|now intros [= <-]].
  destruct (s =? "")%string; [now intros [= <-]|].
  destruct (Py.int s) as [z|]; [|discriminate]. intros [= <-]. simpl.
  do 2 f_equal. lia.
Qed.

Lemma fmt_empty x : (fmt x =? "")%string = match x with None => true | Some _ => false end.
Proof.
  destruct x as [z|]; [|reflexivity]. simpl.
  apply String.eqb_neq, str_nonempty.
Qed.

(** Reading an index of an assembled token gives the index back. *)
Lemma index_field_assemble v t n i k :
  i < 3 ->
  index_field (Py.split_on "/" (assemble v t n)) i k
  = Ok (shift k (nth i [v; t; n] None)).
Proof.
  intros Hi. rewrite index_field_spec, nth_field_assemble by assumption.
  rewrite fmt_empty. destruct (nth i [v; t; n] None) as [z|]; [|reflexivity].
  simpl. now rewrite int_str.
Qed.

(** The token that [renumber_token] returns for a well-formed token, in
    terms of the three indices it read. *)
Lemma renumber_token_assembled o p p' :
  renumber_token o p = Ok p' ->
  exists v t n,
    p' = assemble v t n
    /\ index_field (Py.split_on "/" p) 0 (vertex_offset o) = Ok v
    /\ index_field (Py.split_on "/" p) 1 (tex_offset o) = Ok t
    /\ index_field (Py.split_on "/" p) 2 (norm_offset o) = Ok n.
Proof.
  intros H. destruct (token_ok p) eqn:E;
    [|rewrite (renumber_token_bad o p E) in H; discriminate].
  destruct (renumber_token_ok o p E) as (v & t & n & Hr & Hf).
  exists v, t, n. rewrite Hr in H. injection H as <-.
  split; [reflexivity|]. repeat split.
  - exact (Hf 0 ltac:(lia)).
  - exact (Hf 1 ltac:(lia)).
  - exact (Hf 2 ltac:(lia)).
Qed.

(** An assembled token is renumbered position by position. *)
Lemma renumber_assembled o v t n :
  renumber_token o (assemble v t n)
  = Ok (assemble (shift (vertex_offset o) v) (shift (tex_offset o) t)
                 (shift (norm_offset o) n)).
Proof. rewrite renumber_token_unfold, !index_field_assemble by lia. reflexivity. Qed.

Lemma renumber_token_again o1 o2 p p' :
  renumber_token o1 p = Ok p' ->
  renumber_token o2 p' = renumber_token (add_offsets o1 o2) p
  /\ renumber_token zero_offsets p' = Ok p'.
Proof.
  intros H.
  destruct (renumber_token_assembled o1 p p' H) as (v & t & n & -> & Hv & Ht & Hn).
  split.
  - rewrite renumber_assembled, renumber_token_unfold. unfold add_offsets.
    cbn [vertex_offset tex_offset norm_offset].
    rewrite (index_field_shift _ _ _ (vertex_offset o2) _ Hv).
    rewrite (index_field_shift _ _ _ (tex_offset o2) _ Ht).
    rewrite (index_field_shift _ _ _ (norm_offset o2) _ Hn).
    reflexivity.
  - rewrite renumber_assembled. f_equal.
    cbn [zero_offsets vertex_offset tex_offset norm_offset].
    assert (S0 : forall x, shift 0 x = x).
    { intros [z|]; [|reflexivity]. simpl. f_equal. lia. }
    now rewrite !S0.
Qed.

(** A field of an emitted token is within the limit for further
    offsets exactly when the source field is for the sums. *)
Lemma field_in_limit_again p p' o i k :
  renumber_token o p = Ok p' -> i < 3 ->
  field_in_limit (nth_field p i) (offset_of o i) = true ->
  field_in_limit (nth_field p' i) k
  = field_in_limit (nth_field p i) (offset_of o i + k).
Proof.
  intros H Hi Hl.
  destruct (renumber_token_fields o p p' H i Hi)
    as [[-> ->]|[Hne (z & Hz & ->)]]; [reflexivity|].
  apply String.eqb_neq in Hne. unfold field_in_limit in *.
  rewrite Hne, Hz in *. cbn [orb] in *. apply andb_true_iff in Hl.
  destruct Hl as [-> Hp]. rewrite Hp, int_str, Z.add_assoc.
  destruct (Py.str (z + offset_of o i) =? "")%string eqn:E; [|reflexivity].
  apply String.eqb_eq in E. now apply str_nonempty in E.
Qed.

Lemma token_in_limit_again p p' o1 o2 :
  renumber_token o1 p = Ok p' -> token_in_limit o1 p = true ->
  token_in_limit o2 p' = token_in_limit (add_offsets o1 o2) p.
Proof.
  intros H Hl. unfold token_in_limit in *.
  apply andb_true_iff in Hl. destruct Hl as [Hl H2].
  apply andb_true_iff in Hl. destruct Hl as [H0 H1].
  rewrite (field_in_limit_again p p' o1 0 (vertex_offset o2) H ltac:(lia) H0).
  rewrite (field_in_limit_again p p' o1 1 (tex_offset o2) H ltac:(lia) H1).
  rewrite (field_in_limit_again p p' o1 2 (norm_offset o2) H ltac:(lia) H2).
  reflexivity.
Qed.

Lemma renumber_token_limited_inv o p p' :
  Limited.renumber_token o p = Ok p' ->
  renumber_token o p = Ok p' /\ token_in_limit o p = true.
Proof.
  rewrite renumber_token_limited. destruct (token_in_limit o p);
    [now split | discriminate].
Qed.

(** X1: renumbering composes, with the interpreter's limit on the
    digits of a numeral and without it.  When a token renumbered with
    offsets [o1] is emitted, renumbering the emitted token with offsets
    [o2] has the same outcome, the same token or the same error, as
    renumbering the source token once with the sums of the offsets;
    and with zero offsets the emitted token is returned unchanged:
    emitted tokens are in normal form. *)
Theorem renumber_token_twice :
  forall (o1 o2 : offsets) (p p' : string),
    (renumber_token o1 p = Ok p' ->
     renumber_token o2 p' = renumber_token (add_offsets o1 o2) p
     /\ renumber_token zero_offsets p' = Ok p')
    /\ (Limited.renumber_token o1 p = Ok p' ->
        Limited.renumber_token o2 p'
        = Limited.renumber_token (add_offsets o1 o2) p
        /\ Limited.renumber_token zero_offsets p' = Ok p').
Proof.
  intros o1 o2 p p'. split; [apply renumber_token_again|].
  intros H. apply renumber_token_limited_inv in H. destruct H as [H Hl].
  destruct (renumber_token_again o1 o2 p p' H) as [E2 E0].
  rewrite !renumber_token_limited.
  rewrite (token_in_limit_again p p' o1 o2 H Hl), E2. split; [reflexivity|].
  rewrite (token_in_limit_again p p' o1 zero_offsets H Hl), E0.
  replace (add_offsets o1 zero_offsets) with o1; [now rewrite Hl|].
  destruct o1 as [a b c]. unfold add_offsets, zero_offsets.
  cbn [vertex_offset tex_offset norm_offset]. f_equal; lia.
Qed.

Lemma renumber_token_twice_witness :
  Limited.renumber_token (mkOffsets 10 20 30) "1//3" = Ok "11//33"
  /\ Limited.renumber_token (mkOffsets 1 2 3) "11//33"
     = Limited.renumber_token (mkOffsets 11 22 33) "1//3"
  /\ Limited.renumber_token zero_offsets "11//33" = Ok "11//33".
Proof.
  split; [reflexivity|].
  exact (proj2 (renumber_token_twice (mkOffsets 10 20 30) (mkOffsets 1 2 3)
                  "1//3" "11//33") eq_refl).
Defined.

(** A character of an emitted token. *)
Definition token_char (c : ascii) : bool :=
  Py.isdigit c || (c =? "-")%char || (c =? "/")%char.

Lemma numeral_char_token_char c : numeral_char c = true -> token_char c = true.
Proof. by_cases_on_char c. Qed.

Lemma fmt_token_chars x : all_chars token_char (fmt x) = true.
Proof.
  destruct x as [z|]; [|reflexivity]. simpl.
  apply all_chars_impl with (P := numeral_char);
    [exact numeral_char_token_char | apply str_numeral].
Qed.

(** X2: an emitted token is made of digits, minus signs and slashes
    only; it has at most three fields, and unless it is empty its last
    field is not empty, so it never ends in a slash: the trailing empty
    fields of tokens such as [1/], [1//] or [1/2/] are not re-emitted.
    The emitted token is empty exactly when the first three fields of
    the source token are all empty. *)
Theorem emitted_token_shape :
  forall (o : offsets) (p p' : string),
    renumber_token o p = Ok p' ->
    all_chars token_char p' = true
    /\ (p' = "" \/ last (Py.split_on "/" p') "" <> "")
    /\ (p' = "" <-> forall i, i < 3 -> nth_field p i = "").
Proof.
  intros o p p' H.
  destruct (renumber_token_assembled o p p' H) as (v & t & n & -> & Hv & Ht & Hn).
  assert (Hfield : forall i off x,
             index_field (Py.split_on "/" p) i off = Ok x ->
             (x = None <-> nth_field p i = "")).
  { intros i off x. rewrite index_field_spec.
    destruct (nth_field p i =? "")%string eqn:E.
    - apply String.eqb_eq in E. intros [= <-]. tauto.
    - apply String.eqb_neq in E.
      destruct (Py.int (nth_field p i)); [|discriminate].
      intros [= <-]. split; [discriminate | contradiction]. }
  apply Hfield in Hv, Ht, Hn.
  split; [|split].
  - unfold assemble. destruct t, n;
      rewrite ?all_chars_app, ?fmt_token_chars; reflexivity.
  - rewrite split_assemble.
    destruct t as [t|], n as [n|]; cbn [last fmt];
      try (right; apply str_nonempty).
    destruct v as [v|]; [right; apply str_nonempty | now left].
  - split.
    + intros E i Hi.
      assert (v = None /\ t = None /\ n = None) as (Ev & Et & En).
      { unfold assemble in E.
        destruct t as [t|], n as [n|], v as [v|]; cbn [fmt] in E;
          try discriminate E; try (now repeat split);
          try (exfalso; revert E; apply str_nonempty);
          destruct (Py.str v) eqn:Es; try discriminate E;
          now apply str_nonempty in Es. }
      destruct i as [|[|[|i]]]; [tauto|tauto|tauto|lia].
    + intros E.
      assert (v = None) as -> by (apply Hv, E; lia).
      assert (t = None) as -> by (apply Ht, E; lia).
      assert (n = None) as -> by (apply Hn, E; lia).
      reflexivity.
Qed.

Lemma emitted_token_shape_witness :
  renumber_token (mkOffsets 10 20 30) "1/2/" = Ok "11/22"
  /\ all_chars token_char "11/22" = true
  /\ renumber_token (mkOffsets 10 20 30) "//" = Ok "".
Proof.
  split; [reflexivity|]. split; [|reflexivity].
  exact (proj1 (emitted_token_shape (mkOffsets 10 20 30) "1/2/" "11/22"
                  eq_refl)).
Defined.

End TokenAlgebra.

(* ================================================================= *)
(** ** The statements that reach the output *)

Section WrittenStatements.

(** The six keywords of the statements the function writes. *)
Definition statement_keywords : list string :=
  ["o "; "g "; "v "; "vt "; "vn "; "f "].

(** A written string that is one whole statement: it begins with one
    of the keywords and ends with the line feed. *)
Definition is_statement (s : string) : bool :=
  Py.endswith s Py.nl && existsb (Py.startswith s) statement_keywords.

Lemma endswith_app s suf : Py.endswith (s ++ suf) suf = true.
Proof.
  induction s as [|c s IH]; cbn [append].
  - destruct suf; cbn [Py.endswith]; now rewrite String.eqb_refl.
  - cbn [Py.endswith]. now destruct (String c (s ++ suf) =? suf)%string.
Qed.

Lemma startswith_app l x k :
  Py.startswith l k = true -> Py.startswith (l ++ x) k = true.
Proof.
  revert l. induction k as [|a k IH]; intros l; [reflexivity|].
  destruct l as [|b l]; cbn [Py.startswith append]; [discriminate|].
  rewrite !andb_true_iff. intros [Hab Hl]. split; [assumption | now apply IH].
Qed.

Lemma startswith_first l c k :
  Py.startswith l (String c k) = true -> exists r, l = String c r.
Proof.
  destruct l as [|b l]; cbn [Py.startswith]; [discriminate|].
  rewrite andb_true_iff. intros [Hcb _]. apply Ascii.eqb_eq in Hcb.
  subst b. now exists l.
Qed.

(** A line that begins with one keyword does not begin with a keyword
    that has another first character. *)
Lemma startswith_other l x c k c' k' :
  Py.startswith l (String c k) = true -> (c' =? c)%char = false ->
  Py.startswith (l ++ x) (String c' k') = false.
Proof.
  intros H Hc. destruct (startswith_first l c k H) as [r ->].
  cbn [append Py.startswith]. now rewrite Hc.
Qed.

Lemma buffer_line_statement l k :
  In k ["v "; "vt "; "vn "] -> Py.startswith l k = true ->
  is_statement (l ++ Py.nl) = true.
Proof.
  intros Hk H. unfold is_statement. rewrite endswith_app.
  apply (startswith_app l Py.nl) in H. cbn [andb existsb statement_keywords].
  destruct Hk as [<-|[<-|[<-|[]]]]; rewrite H; rewrite ?orb_true_r; reflexivity.
Qed.

Lemma face_line_statement o face_line s :
  renumber_face o face_line = Ok s -> is_statement s = true.
Proof.
  intros H. destruct (renumber_face_tokens o face_line s H) as (toks & -> & _).
  unfold is_statement.
  replace ("f " ++ Py.join " " toks ++ Py.nl)%string
    with (("f " ++ Py.join " " toks) ++ Py.nl)%string
    by (now rewrite append_assoc).
  rewrite endswith_app. reflexivity.
Qed.

Lemma header_line_statement k name :
  In k ["o "; "g "] -> is_statement (k ++ name ++ Py.nl) = true.
Proof.
  intros Hk. unfold is_statement.
  replace (k ++ name ++ Py.nl)%string with ((k ++ name) ++ Py.nl)%string
    by (now rewrite append_assoc).
  rewrite endswith_app.
  destruct Hk as [<-|[<-|[]]]; reflexivity.
Qed.

Lemma in_line_writes s ls :
  In s (writes (line_writes ls)) -> exists l, In l ls /\ s = (l ++ Py.nl)%string.
Proof.
  rewrite writes_line_writes, in_map_iff. intros (l & <- & Hl). now exists l.
Qed.

Lemma block_statements d o name s :
  In s (writes (block d o name)) -> is_statement s = true.
Proof.
  destruct (file_buffers_keywords d name) as (Hv & Ht & Hn & _).
  unfold block. cbn [writes]. rewrite !writes_app, writes_map_Write.
  intros [<-|[<-|H]].
  - apply (header_line_statement "o "). simpl. tauto.
  - apply (header_line_statement "g "). simpl. tauto.
  - rewrite !in_app_iff in H. destruct H as [H|[H|[H|H]]].
    + apply in_line_writes in H. destruct H as (l & Hl & ->).
      apply (buffer_line_statement l "v "); [simpl; tauto | now apply Hv].
    + apply in_line_writes in H. destruct H as (l & Hl & ->).
      apply (buffer_line_statement l "vt "); [simpl; tauto | now apply Ht].
    + apply in_line_writes in H. destruct H as (l & Hl & ->).
      apply (buffer_line_statement l "vn "); [simpl; tauto | now apply Hn].
    + apply face_lines_in in H. destruct H as (f & _ & Hr).
      now apply (face_line_statement o f).
Qed.

Lemma blocks_statements d names : forall o s,
  In s (writes (blocks d o names)) -> is_statement s = true.
Proof.
  induction names as [|name rest IH]; intros o s; [contradiction|].
  cbn [blocks]. rewrite writes_app, in_app_iff. intros [H|H].
  - now apply (block_statements d o name).
  - destruct (file_ok d name); [exact (IH _ s H) | contradiction].
Qed.

(** X3: whatever the inputs hold and whether or not the merge raises,
    every string written after the header is one whole statement: it
    begins with [o ], [g ], [v ], [vt ], [vn ] or [f ] and ends with a
    line feed.  Comments, material and smoothing statements of the
    inputs never reach the output, and the output is never cut in the
    middle of a statement. *)
Theorem only_whole_statements_are_written :
  forall (d : directory) (s : string),
    In s (writes (fst (merge_obj_files_in_memory d))) ->
    s = header \/ is_statement s = true.
Proof.
  intros d s. rewrite merge_spec. cbn [fst writes]. intros [<-|H].
  - now left.
  - right. exact (blocks_statements d _ _ s H).
Qed.

Lemma only_whole_statements_witness :
  In ("f 4 4 4" ++ Py.nl)%string
     (writes (fst (merge_obj_files_in_memory broken_dir)))
  /\ is_statement ("f 4 4 4" ++ Py.nl) = true.
Proof.
  assert (H : In ("f 4 4 4" ++ Py.nl)%string
                 (writes (fst (merge_obj_files_in_memory broken_dir)))).
  { vm_compute. tauto. }
  split; [exact H|].
  destruct (only_whole_statements_are_written broken_dir _ H) as [E|E];
    [discriminate E | exact E].
Defined.

End WrittenStatements.

(* ================================================================= *)
(** ** The index fields and their buffers *)

Ltac split_second_chars :=
  repeat first
    [ progress cbn [Py.startswith andb orb append]
    | discriminate
    | reflexivity
    | match goal with
      | H : context [(?a =? ?b)%char] |- _ =>
          is_var b; destruct (Ascii.eqb_spec a b); [subst b|]
      | |- context [(?a =? ?b)%char] =>
          let v := eval vm_compute in (a =? b)%char in
          change (a =? b)%char with v
      | H : context [match ?s with "" => _ | String _ _ => _ end] |- _ =>
          is_var s; destruct s
      end
    | progress cbn [Py.startswith andb orb] in * ].

Section OtherIndices.

(** The buffer that field [i] of a face token indexes. *)
Definition indexed_buffer (i : nat) : buffers -> list string :=
  match i with
  | 0 => vertices
  | 1 => texcoords
  | _ => normals
  end.

Lemma offset_of_after d pre i :
  offset_of (offsets_after d zero_offsets pre) i
  = count_lines d (indexed_buffer i) pre.
Proof.
  rewrite offsets_after_counts. destruct i as [|[|i]]; reflexivity.
Qed.

(** Every index in field [i] of every face token lies within its own
    file. *)
Definition fields_in_own_range (d : directory) (i : nat) : Prop :=
  forall name face_line p z,
    In name (obj_files d) ->
    In face_line (faces (file_buffers d name)) ->
    In p (face_parts face_line) ->
    Py.int (nth_field p i) = Some z ->
    (1 <= z <= Z.of_nat (List.length
                           (indexed_buffer i (file_buffers d name))))%Z.

Lemma sample_dir_normals_in_range : fields_in_own_range sample_dir 2.
Proof.
  intros name face_line p z Hn Hf Hp Hz.
  vm_compute in Hn.
  destruct Hn as [<-|[<-|[]]]; vm_compute in Hf;
    repeat (destruct Hf as [<-|Hf];
            [vm_compute in Hp;
             repeat (destruct Hp as [<-|Hp];
                     [vm_compute in Hz;
                      first [discriminate Hz
                            | injection Hz as <-; split; vm_compute; discriminate]|]);
             destruct Hp|]);
    destruct Hf.
Qed.

End OtherIndices.

(* ================================================================= *)
(** ** Adding an entry to the directory *)

Section AddEntry.

Lemma lookup_other d1 n x d2 name :
  n <> name ->
  lookup (d1 ++ (n, x) :: d2) name = lookup (d1 ++ d2) name.
Proof.
  intros Hne. induction d1 as [|[m y] d1 IH]; cbn [app lookup].
  - destruct (String.eqb_spec n name); [contradiction | reflexivity].
  - now rewrite IH.
Qed.

Lemma lookup_new d1 n x d2 :
  ~ In n (listdir d1) -> lookup (d1 ++ (n, x) :: d2) n = Some x.
Proof.
  intros Hn. induction d1 as [|[m y] d1 IH]; cbn [app lookup].
  - now rewrite String.eqb_refl.
  - cbn [listdir map fst] in Hn.
    destruct (String.eqb_spec m n) as [->|_]; [exfalso; apply Hn; now left|].
    apply IH. intros H. apply Hn. now right.
Qed.

Lemma listdir_app d1 d2 : listdir (d1 ++ d2) = listdir d1 ++ listdir d2.
Proof. apply map_app. Qed.

(** Blocks only depend on the entries of the files they are for. *)
Lemma blocks_same_on d d' names : forall o,
  (forall name, In name names -> lookup d name = lookup d' name) ->
  blocks d o names = blocks d' o names
  /\ forallb (file_ok d) names = forallb (file_ok d') names.
Proof.
  induction names as [|name rest IH]; intros o H; [now split|].
  assert (Hb : file_buffers d name = file_buffers d' name).
  { unfold file_buffers. now rewrite (H name (or_introl eq_refl)). }
  assert (Hk : file_ok d name = file_ok d' name).
  { unfold file_ok. now rewrite Hb. }
  cbn [blocks forallb]. unfold block. rewrite <- Hb, <- Hk.
  destruct (IH (advance o (file_buffers d name))) as [-> ->];
    [intros m Hm; apply H; now right | now split].
Qed.

Lemma offsets_after_same_on d d' names : forall o,
  (forall name, In name names -> lookup d name = lookup d' name) ->
  offsets_after d o names = offsets_after d' o names.
Proof.
  induction names as [|name rest IH]; intros o H; [reflexivity|].
  assert (Hb : file_buffers d name = file_buffers d' name).
  { unfold file_buffers. now rewrite (H name (or_introl eq_refl)). }
  change (offsets_after d o (name :: rest))
    with (offsets_after d (advance o (file_buffers d name)) rest).
  change (offsets_after d' o (name :: rest))
    with (offsets_after d' (advance o (file_buffers d' name)) rest).
  rewrite Hb. apply IH. intros m Hm. apply H. now right.
Qed.

Section Insert.

Variables (d1 d2 : directory) (n : string) (x : node).
Hypothesis fresh : ~ In n (listdir (d1 ++ d2)).

Let d := d1 ++ d2.
Let d' := d1 ++ (n, x) :: d2.

Lemma is_obj_file_other name :
  n <> name -> is_obj_file d' name = is_obj_file d name.
Proof.
  intros Hne. unfold is_obj_file, isfile, d', d.
  now rewrite (lookup_other d1 n x d2 name Hne).
Qed.

Lemma filter_old (l : list string) :
  (forall name, In name l -> In name (listdir d)) ->
  filter (is_obj_file d') l = filter (is_obj_file d) l.
Proof.
  intros H. apply filter_ext_in. intros name Hin. apply is_obj_file_other.
  intros ->. apply fresh. now apply H.
Qed.

Lemma filter_listdir_insert :
  filter (is_obj_file d') (listdir d')
  = filter (is_obj_file d) (listdir d1)
    ++ (if is_obj_file d' n then [n] else [])
    ++ filter (is_obj_file d) (listdir d2).
Proof.
  unfold d' at 2. rewrite listdir_app. cbn [listdir map fst].
  rewrite filter_app. cbn [filter].
  rewrite !filter_old.
  - now destruct (is_obj_file d' n).
  - intros name H. unfold d. rewrite listdir_app, in_app_iff. now right.
  - intros name H. unfold d. rewrite listdir_app, in_app_iff. now left.
Qed.

Lemma obj_files_old_lookup name :
  In name (obj_files d) -> lookup d name = lookup d' name.
Proof.
  intros H. apply obj_files_in in H. destruct H as [H _].
  unfold d, d'. symmetry. apply lookup_other. intros ->. now apply fresh.
Qed.

End Insert.

(** X6: an entry that is not merged does not matter.  Putting into the
    directory, at any place of the enumeration, a new entry that is not
    a regular file or whose name does not end in [.obj] changes neither
    the trace nor the result of the merge. *)
Theorem unmerged_entry_is_ignored :
  forall (d1 d2 : directory) (n : string) (x : node),
    ~ In n (listdir (d1 ++ d2)) ->
    Py.endswith (Py.lower n) ".obj" = false \/ x = Other ->
    merge_obj_files_in_memory (d1 ++ (n, x) :: d2)
    = merge_obj_files_in_memory (d1 ++ d2).
Proof.
  intros d1 d2 n x Hfresh Hnot.
  assert (Hn : is_obj_file (d1 ++ (n, x) :: d2) n = false).
  { unfold is_obj_file, isfile. destruct Hnot as [->| ->]; [reflexivity|].
    rewrite lookup_new; [apply andb_false_r|].
    intros H. apply Hfresh. rewrite listdir_app, in_app_iff. now left. }
  assert (Hfiles : obj_files (d1 ++ (n, x) :: d2) = obj_files (d1 ++ d2)).
  { unfold obj_files. rewrite (filter_listdir_insert d1 d2 n x Hfresh), Hn.
    cbn [app]. now rewrite listdir_app, filter_app. }
  rewrite !merge_spec, Hfiles.
  destruct (blocks_same_on (d1 ++ d2) (d1 ++ (n, x) :: d2)
              (obj_files (d1 ++ d2)) zero_offsets) as [-> ->];
    [|reflexivity].
  intros name. now apply obj_files_old_lookup.
Qed.

Lemma unmerged_entry_witness :
  ~ In "readme.txt" (listdir ([] ++ sample_dir))
  /\ merge_obj_files_in_memory
       ([] ++ ("readme.txt", RegularFile "f 1 2 x") :: sample_dir)
     = merge_obj_files_in_memory ([] ++ sample_dir).
Proof.
  assert (H : ~ In "readme.txt" (listdir ([] ++ sample_dir))).
  { simpl. intuition discriminate. }
  split; [exact H|].
  exact (unmerged_entry_is_ignored [] sample_dir "readme.txt"
           (RegularFile "f 1 2 x") H (or_introl eq_refl)).
Defined.

Lemma StronglySorted_snoc l n :
  StronglySorted le l -> (forall m, In m l -> le m n) ->
  StronglySorted le (l ++ [n]).
Proof.
  induction 1 as [|a l Hl IH Ha]; intros Hn; cbn [app].
  - repeat constructor.
  - constructor.
    + apply IH. intros m Hm. apply Hn. now right.
    + apply Forall_app. split; [assumption|].
      constructor; [|constructor]. apply Hn. now left.
Qed.

Lemma ltb_le a b : String.ltb a b = true -> le a b.
Proof.
  unfold le, StringOrder.leb, String.ltb, String.leb, is_true.
  now destruct (String.compare a b).
Qed.

(** A failed merge does not look at the files that follow. *)
Lemma blocks_stop d l1 : forall o l2,
  forallb (file_ok d) l1 = false ->
  blocks d o (l1 ++ l2) = blocks d o l1.
Proof.
  induction l1 as [|name l1 IH]; intros o l2 H; [discriminate|].
  cbn [forallb] in H. cbn [app blocks].
  destruct (file_ok d name); [|reflexivity].
  cbn [andb] in H. now rewrite (IH _ _ H).
Qed.

(** X7: a file that sorts last only appends.  Put into the directory a
    new regular file whose name ends in [.obj] and is greater than
    every merged name.  If the merge of the old directory completes,
    the merge of the new one leaves the same trace followed by the
    trace of the new file alone, merged with the offsets that the old
    files add up to, and it raises only if the new file does.  If the
    merge of the old directory raises, nothing changes: the new file is
    never opened. *)
Theorem last_file_only_appends :
  forall (d1 d2 : directory) (n text : string),
    ~ In n (listdir (d1 ++ d2)) ->
    Py.endswith (Py.lower n) ".obj" = true ->
    (forall m, In m (obj_files (d1 ++ d2)) -> String.ltb m n = true) ->
    let d := d1 ++ d2 in
    let d' := d1 ++ (n, RegularFile text) :: d2 in
    let o := mkOffsets (count_lines d vertices (obj_files d))
                       (count_lines d texcoords (obj_files d))
                       (count_lines d normals (obj_files d)) in
    obj_files d' = obj_files d ++ [n]
    /\ (snd (merge_obj_files_in_memory d) = Ok tt ->
        merge_obj_files_in_memory d'
        = (fst (merge_obj_files_in_memory d) ++ fst (merge_file d' o n),
           match snd (merge_file d' o n) with
           | Ok _ => Ok tt
           | Raise e => Raise e
           end))
    /\ (snd (merge_obj_files_in_memory d) <> Ok tt ->
        merge_obj_files_in_memory d' = merge_obj_files_in_memory d).
Proof.
  intros d1 d2 n text Hfresh Hobj Hlast d d' o.
  assert (Hlook : lookup d' n = Some (RegularFile text)).
  { apply lookup_new. intros H. apply Hfresh.
    rewrite listdir_app, in_app_iff. now left. }
  assert (Hn : is_obj_file d' n = true).
  { unfold is_obj_file, isfile. now rewrite Hobj, Hlook. }
  assert (Hfiles : obj_files d' = obj_files d ++ [n]).
  { symmetry. apply sorted_unique.
    - apply StronglySorted_snoc; [apply sorted_obj_files|].
      intros m Hm. apply ltb_le. now apply Hlast.
    - apply sorted_obj_files.
    - rewrite <- (obj_files_perm d'), <- (obj_files_perm d).
      unfold d', d. rewrite (filter_listdir_insert d1 d2 n _ Hfresh).
      fold d'. rewrite Hn, listdir_app, filter_app.
      rewrite <- app_assoc. apply Permutation_app_head.
      apply Permutation_app_comm. }
  destruct (blocks_same_on d d' (obj_files d) zero_offsets) as [Hb Hk].
  { intros name. now apply obj_files_old_lookup. }
  split; [exact Hfiles|]. split.
  - intros Hok. apply merge_ok_files in Hok.
    rewrite (merge_spec d'), (merge_spec d), Hfiles. cbn [fst].
    rewrite blocks_app by (now rewrite <- Hk).
    rewrite forallb_app, <- Hk, Hok, <- Hb. cbn [blocks forallb andb].
    assert (Ho : offsets_after d' zero_offsets (obj_files d) = o).
    { rewrite <- (offsets_after_same_on d d') by
        (intros name; now apply obj_files_old_lookup).
      rewrite offsets_after_counts. reflexivity. }
    rewrite Ho, merge_file_spec by (unfold isfile; now rewrite Hlook).
    cbn [fst snd]. rewrite andb_true_r.
    destruct (file_ok d' n); rewrite ?app_nil_r; reflexivity.
  - intros Hbad. rewrite (merge_spec d) in Hbad. cbn [snd] in Hbad.
    assert (Hfalse : forallb (file_ok d) (obj_files d) = false).
    { destruct (forallb (file_ok d) (obj_files d)); [now destruct Hbad | reflexivity]. }
    rewrite (merge_spec d'), (merge_spec d), Hfiles.
    rewrite blocks_stop by (now rewrite <- Hk).
    rewrite forallb_app, <- Hk, Hfalse, <- Hb. reflexivity.
Qed.

Definition cube_only_dir : directory := [ ("cube.obj", RegularFile cube_text) ].

Lemma last_file_only_appends_witness :
  ~ In "tri.OBJ" (listdir ([] ++ cube_only_dir))
  /\ Py.endswith (Py.lower "tri.OBJ") ".obj" = true
  /\ (forall m, In m (obj_files ([] ++ cube_only_dir)) ->
                String.ltb m "tri.OBJ" = true)
  /\ obj_files ([] ++ ("tri.OBJ", RegularFile tri_text) :: cube_only_dir)
     = obj_files ([] ++ cube_only_dir) ++ ["tri.OBJ"].
Proof.
  assert (H1 : ~ In "tri.OBJ" (listdir ([] ++ cube_only_dir))).
  { simpl. intuition discriminate. }
  assert (H3 : forall m, In m (obj_files ([] ++ cube_only_dir)) ->
                         String.ltb m "tri.OBJ" = true).
  { intros m Hm. vm_compute in Hm. destruct Hm as [<-|[]]. reflexivity. }
  split; [exact H1|]. split; [reflexivity|]. split; [exact H3|].
  exact (proj1 (last_file_only_appends [] cube_only_dir "tri.OBJ" tri_text
                  H1 eq_refl H3)).
Defined.

End AddEntry.

(* ================================================================= *)
(** ** White space and line ends of the input *)

Section LineEnds.

Lemma rstrip_unfold c s :
  Py.rstrip (String c s)
  = match Py.rstrip s with
    | "" => if Py.isspace c then "" else String c ""
    | String a r => String c (String a r)
    end.
Proof. reflexivity. Qed.

Lemma rstrip_idem s : Py.rstrip (Py.rstrip s) = Py.rstrip s.
Proof.
  induction s as [|c s IH]; [reflexivity|]. rewrite rstrip_unfold.
  destruct (Py.rstrip s) as [|a r] eqn:E.
  - destruct (Py.isspace c) eqn:Ec; [reflexivity|].
    rewrite rstrip_unfold. cbn [Py.rstrip]. now rewrite Ec.
  - rewrite rstrip_unfold. now rewrite IH.
Qed.

(** [rstrip] keeps a first character that is not white space. *)
Lemma rstrip_cons c s :
  Py.isspace c = false -> exists r, Py.rstrip (String c s) = String c r.
Proof.
  intros Hc. rewrite rstrip_unfold. destruct (Py.rstrip s) as [|a r].
  - rewrite Hc. now exists "".
  - now exists (String a r).
Qed.

Lemma lstrip_first s :
  Py.lstrip s = "" \/ exists c r, Py.lstrip s = String c r /\ Py.isspace c = false.
Proof.
  induction s as [|c s IH]; [now left|]. cbn [Py.lstrip].
  destruct (Py.isspace c) eqn:Ec; [exact IH|]. right. now exists c, s.
Qed.

(** A stripped line is empty or begins with a character that is not
    white space. *)
Lemma strip_first s :
  Py.strip s = "" \/ exists c r, Py.strip s = String c r /\ Py.isspace c = false.
Proof.
  unfold Py.strip. destruct (lstrip_first s) as [->|(c & r & -> & Hc)];
    [now left|].
  right. destruct (rstrip_cons c r Hc) as [r' ->]. now exists c, r'.
Qed.

Lemma lstrip_cons c s : Py.isspace c = false -> Py.lstrip (String c s) = String c s.
Proof. intros H. cbn [Py.lstrip]. now rewrite H. Qed.

(** Stripping a stripped line changes nothing. *)
Lemma strip_idem s : Py.strip (Py.strip s) = Py.strip s.
Proof.
  destruct (strip_first s) as [E|(c & r & E & Hc)].
  - now rewrite E.
  - unfold Py.strip at 1. rewrite E, (lstrip_cons c r Hc), <- E.
    unfold Py.strip. apply rstrip_idem.
Qed.

Lemma rstrip_snoc_space s c :
  Py.isspace c = true -> Py.rstrip (s ++ String c "") = Py.rstrip s.
Proof.
  intros Hc. induction s as [|a s IH]; cbn [append].
  - cbn [Py.rstrip]. now rewrite Hc.
  - now rewrite !rstrip_unfold, IH.
Qed.

Lemma strip_snoc_space s c :
  Py.isspace c = true -> Py.strip (s ++ String c "") = Py.strip s.
Proof.
  intros Hc. unfold Py.strip. induction s as [|a s IH]; cbn [append Py.lstrip].
  - now rewrite Hc.
  - destruct (Py.isspace a); [exact IH|].
    change (String a (s ++ String c "")) with (String a s ++ String c "")%string.
    now apply rstrip_snoc_space.
Qed.

(** X8: Pass 1 does not depend on the white space around a line: the
    buffers of the lines of a file are the buffers of the same lines
    stripped, or followed by any further white-space character. *)
Theorem read_buffers_ignores_surrounding_space :
  forall lines : list string,
    read_buffers (map Py.strip lines) = read_buffers lines
    /\ forall c, Py.isspace c = true ->
         read_buffers (map (fun l => (l ++ String c "")%string) lines)
         = read_buffers lines.
Proof.
  intros lines. split.
  - rewrite !read_buffers_filter. cbv zeta.
    rewrite map_map. now rewrite (map_ext _ _ (fun l => strip_idem l)).
  - intros c Hc. rewrite !read_buffers_filter. cbv zeta. rewrite map_map.
    now rewrite (map_ext _ _ (fun l => strip_snoc_space l c Hc)).
Qed.

Lemma read_buffers_space_witness :
  Py.isspace " " = true
  /\ read_buffers (map (fun l => (l ++ " ")%string) ["  v 1 2 3"; "f 1 1 1 "])
     = read_buffers ["  v 1 2 3"; "f 1 1 1 "].
Proof.
  split; [reflexivity|].
  exact (proj2 (read_buffers_ignores_surrounding_space
                  ["  v 1 2 3"; "f 1 1 1 "]) " "%char eq_refl).
Defined.

(** Replacing every line feed by another line end. *)
Fixpoint with_line_end (e : string) (text : string) : string :=
  match text with
  | "" => ""
  | String c s =>
      if (c =? Py.LF)%char then (e ++ with_line_end e s)%string
      else String c (with_line_end e s)
  end.

Definition CRLF : string := String Py.CR (String Py.LF "").
Definition lone_CR : string := String Py.CR "".

Lemma readlines_crlf text :
  all_chars (not_char Py.CR) text = true ->
  Py.readlines (with_line_end CRLF text) = Py.readlines text.
Proof.
  induction text as [|c s IH]; [reflexivity|]. cbn [all_chars].
  rewrite andb_true_iff. intros [Hc Hs]. cbn [with_line_end].
  destruct (c =? Py.LF)%char eqn:El.
  - cbn [CRLF append Py.readlines]. rewrite El.
    change (Py.CR =? Py.LF)%char with false. cbv iota.
    rewrite Ascii.eqb_refl. change (Py.LF =? Py.LF)%char with true.
    cbv iota. now rewrite (IH Hs).
  - cbn [Py.readlines]. rewrite El.
    unfold not_char in Hc. apply negb_true_iff in Hc. rewrite Hc.
    now rewrite (IH Hs).
Qed.

Lemma with_lone_CR_first s :
  match with_line_end lone_CR s with
  | String c _ => (c =? Py.LF)%char = false
  | "" => True
  end.
Proof.
  destruct s as [|c s]; cbn [with_line_end]; [exact I|].
  destruct (c =? Py.LF)%char eqn:E; [reflexivity | exact E].
Qed.

Lemma readlines_lone_cr text :
  all_chars (not_char Py.CR) text = true ->
  Py.readlines (with_line_end lone_CR text) = Py.readlines text.
Proof.
  induction text as [|c s IH]; [reflexivity|]. cbn [all_chars].
  rewrite andb_true_iff. intros [Hc Hs]. cbn [with_line_end].
  destruct (c =? Py.LF)%char eqn:El.
  - cbn [lone_CR append Py.readlines]. rewrite El.
    change (Py.CR =? Py.LF)%char with false. cbv iota.
    rewrite Ascii.eqb_refl. f_equal. rewrite <- (IH Hs).
    pose proof (with_lone_CR_first s) as F.
    destruct (with_line_end lone_CR s) as [|c' s']; [reflexivity|].
    now rewrite F.
  - cbn [Py.readlines]. rewrite El.
    unfold not_char in Hc. apply negb_true_iff in Hc. rewrite Hc.
    now rewrite (IH Hs).
Qed.

(** X9: the line-end convention of an input file does not matter.  A
    file whose lines end in CR LF, or in a lone CR, is read into the
    same four buffers as the same text with LF line ends. *)
Theorem file_buffers_ignore_line_end_style :
  forall (d d' : directory) (name text : string) (e : string),
    e = CRLF \/ e = lone_CR ->
    all_chars (not_char Py.CR) text = true ->
    lookup d name = Some (RegularFile (with_line_end e text)) ->
    lookup d' name = Some (RegularFile text) ->
    file_buffers d name = file_buffers d' name.
Proof.
  intros d d' name text e He Hcr Hd Hd'. unfold file_buffers.
  rewrite Hd, Hd'.
  destruct He as [-> | ->]; [now rewrite readlines_crlf
                            | now rewrite readlines_lone_cr].
Qed.

Lemma file_buffers_line_end_witness :
  all_chars (not_char Py.CR) cube_text = true
  /\ file_buffers [("cube.obj", RegularFile (with_line_end CRLF cube_text))]
                  "cube.obj"
     = file_buffers [("cube.obj", RegularFile cube_text)] "cube.obj".
Proof.
  split; [reflexivity|].
  exact (file_buffers_ignore_line_end_style
           [("cube.obj", RegularFile (with_line_end CRLF cube_text))]
           [("cube.obj", RegularFile cube_text)]
           "cube.obj" cube_text CRLF
           (or_introl eq_refl) eq_refl eq_refl eq_refl).
Defined.

End LineEnds.

(* ================================================================= *)
(** ** Reading the merged output back *)

Section OutputText.

(** A character that does not end a line. *)
Definition no_break (c : ascii) : bool :=
  negb (c =? Py.LF)%char && negb (c =? Py.CR)%char.

(** A written string that is one line of the output text. *)
Definition one_line (w : string) : Prop :=
  exists l, w = (l ++ Py.nl)%string /\ all_chars no_break l = true.

Lemma nonspace_no_break c : nonspace c = true -> no_break c = true.
Proof. by_cases_on_char c. Qed.

Lemma token_char_no_break c : token_char c = true -> no_break c = true.
Proof. by_cases_on_char c. Qed.

Lemma readlines_line l rest :
  all_chars no_break l = true ->
  Py.readlines ((l ++ Py.nl) ++ rest) = (l ++ Py.nl)%string :: Py.readlines rest.
Proof.
  induction l as [|c l IH]; intros H.
  - reflexivity.
  - cbn [all_chars] in H. apply andb_true_iff in H. destruct H as [Hc Hl].
    unfold no_break in Hc. apply andb_true_iff in Hc.
    destruct Hc as [H1 H2]. apply negb_true_iff in H1, H2.
    cbn [append Py.readlines]. rewrite H1, H2.
    now rewrite (IH Hl).
Qed.

Lemma readlines_lines ws :
  Forall one_line ws -> Py.readlines (String.concat "" ws) = ws.
Proof.
  induction 1 as [|w ws (l & -> & Hl) _ IH]; [reflexivity|].
  rewrite concat_empty_cons, readlines_line by assumption. now rewrite IH.
Qed.

(** *** The lines of an input file hold no line break inside *)

Definition read_line (raw : string) : Prop :=
  exists body, all_chars no_break body = true
               /\ (raw = (body ++ Py.nl)%string \/ raw = body).

Lemma readlines_read_line text : Forall read_line (Py.readlines text).
Proof.
  induction text as [|c s IH]; [constructor|]. cbn [Py.readlines].
  destruct (c =? Py.LF)%char eqn:E1.
  - constructor; [|exact IH]. exists "". split; [reflexivity | now left].
  - destruct (c =? Py.CR)%char eqn:E2.
    + constructor; [exists ""; split; [reflexivity | now left]|].
      destruct s as [|c' s']; [constructor|].
      destruct (c' =? Py.LF)%char eqn:E3; [|exact IH].
      cbn [Py.readlines] in IH. rewrite E3 in IH. now inversion IH.
    + assert (Hc : no_break c = true) by (unfold no_break; now rewrite E1, E2).
      destruct (Py.readlines s) as [|l ls].
      * constructor; [|constructor]. exists (String c "").
        split; [cbn; now rewrite Hc | now right].
      * inversion IH as [|? ? (body & Hb & Hl) Hls]; subst.
        constructor; [|exact Hls]. exists (String c body).
        split; [cbn [all_chars]; now rewrite Hc, Hb|].
        destruct Hl as [-> | ->]; [now left | now right].
Qed.

Lemma all_chars_lstrip P s :
  all_chars P s = true -> all_chars P (Py.lstrip s) = true.
Proof.
  induction s as [|c s IH]; [reflexivity|]. cbn [all_chars Py.lstrip].
  rewrite andb_true_iff. intros [Hc Hs].
  destruct (Py.isspace c); [now apply IH|]. cbn [all_chars]. now rewrite Hc, Hs.
Qed.

Lemma all_chars_rstrip P s :
  all_chars P s = true -> all_chars P (Py.rstrip s) = true.
Proof.
  induction s as [|c s IH]; [reflexivity|]. cbn [all_chars].
  rewrite andb_true_iff. intros [Hc Hs]. rewrite rstrip_unfold.
  specialize (IH Hs). destruct (Py.rstrip s) as [|a r].
  - destruct (Py.isspace c); [reflexivity|]. cbn. now rewrite Hc.
  - cbn [all_chars] in *. now rewrite Hc, IH.
Qed.

Lemma all_chars_strip P s :
  all_chars P s = true -> all_chars P (Py.strip s) = true.
Proof. intros H. unfold Py.strip. now apply all_chars_rstrip, all_chars_lstrip. Qed.

Lemma strip_read_line raw :
  read_line raw -> all_chars no_break (Py.strip raw) = true.
Proof.
  intros (body & Hb & [-> | ->]).
  - unfold Py.nl. rewrite strip_snoc_space by reflexivity.
    now apply all_chars_strip.
  - now apply all_chars_strip.
Qed.

(** A buffered line is a stripped line of the file, without any line
    break. *)
Lemma buffered_line d name l :
  In l (vertices (file_buffers d name)) \/ In l (texcoords (file_buffers d name))
  \/ In l (normals (file_buffers d name)) \/ In l (faces (file_buffers d name)) ->
  Py.strip l = l /\ all_chars no_break l = true.
Proof.
  unfold file_buffers. destruct (lookup d name) as [[text|]|];
    try (cbn; tauto).
  rewrite read_buffers_filter. cbn [vertices texcoords normals faces].
  rewrite !filter_In, !in_map_iff.
  assert (H : (exists raw, Py.strip raw = l /\ In raw (Py.readlines text)) ->
              Py.strip l = l /\ all_chars no_break l = true).
  { intros (raw & <- & Hraw). split; [apply strip_idem|].
    apply strip_read_line. pose proof (readlines_read_line text) as F.
    rewrite Forall_forall in F. now apply F. }
  tauto.
Qed.

Lemma buffer_lines_one_line d name ls :
  (forall l, In l ls ->
     In l (vertices (file_buffers d name)) \/ In l (texcoords (file_buffers d name))
     \/ In l (normals (file_buffers d name)) \/ In l (faces (file_buffers d name))) ->
  Forall one_line (writes (line_writes ls)).
Proof.
  intros H. apply Forall_forall. intros w Hw. apply in_line_writes in Hw.
  destruct Hw as (l & Hl & ->). exists l. split; [reflexivity|].
  now apply (buffered_line d name l), H.
Qed.

Lemma join_no_break toks :
  Forall (fun p => all_chars nonspace p = true) toks ->
  all_chars no_break (Py.join " " toks) = true.
Proof.
  induction 1 as [|p toks Hp _ IH]; [reflexivity|].
  assert (Hp' : all_chars no_break p = true).
  { now apply (all_chars_impl nonspace no_break p nonspace_no_break). }
  unfold Py.join in *. cbn [String.concat]. destruct toks as [|q toks];
    [assumption|].
  rewrite !all_chars_app, Hp', IH. reflexivity.
Qed.

Lemma face_line_one_line o face_line s :
  renumber_face o face_line = Ok s -> one_line s.
Proof.
  intros H. destruct (renumber_face_tokens o face_line s H) as (toks & -> & F).
  exists ("f " ++ Py.join " " toks)%string.
  split; [now rewrite append_assoc|].
  rewrite all_chars_app. cbn [all_chars andb]. apply join_no_break.
  apply Forall_forall. intros q Hq.
  destruct (Forall2_in_right _ _ _ _ F Hq) as (p & _ & Hp).
  now apply (renumber_token_nonspace o p).
Qed.

Lemma all_chars_substring P s : forall n m,
  all_chars P s = true -> all_chars P (substring n m s) = true.
Proof.
  induction s as [|c s IH]; intros n m H.
  - now destruct n, m.
  - cbn [all_chars] in H. apply andb_true_iff in H. destruct H as [Hc Hs].
    destruct n as [|n]; cbn [substring].
    + destruct m as [|m]; [reflexivity|]. cbn [all_chars].
      now rewrite Hc, IH.
    + now apply IH.
Qed.

Lemma splitext_chars P p :
  all_chars P p = true -> all_chars P (fst (Py.splitext p)) = true.
Proof.
  intros H. unfold Py.splitext. destruct (Py.rfind "." p) as [i|]; [|exact H].
  destruct (_ && _); [|exact H]. cbn [fst]. now apply all_chars_substring.
Qed.

Lemma header_one_line k name :
  all_chars no_break k = true -> all_chars no_break name = true ->
  one_line (k ++ fst (Py.splitext name) ++ Py.nl).
Proof.
  intros Hk Hn. exists (k ++ fst (Py.splitext name))%string.
  split; [now rewrite append_assoc|].
  rewrite all_chars_app, Hk. now apply splitext_chars.
Qed.

Lemma block_one_line d o name :
  all_chars no_break name = true ->
  Forall one_line (writes (block d o name)).
Proof.
  intros Hn. unfold block. cbn [writes].
  constructor; [now apply (header_one_line "o ")|].
  constructor; [now apply (header_one_line "g ")|].
  rewrite !writes_app, writes_map_Write.
  apply Forall_app; split; [|apply Forall_app; split; [|apply Forall_app; split]].
  - apply (buffer_lines_one_line d name). tauto.
  - apply (buffer_lines_one_line d name). tauto.
  - apply (buffer_lines_one_line d name). tauto.
  - apply Forall_forall. intros s Hs. apply face_lines_in in Hs.
    destruct Hs as (f & _ & Hr). now apply (face_line_one_line o f).
Qed.

Lemma blocks_one_line d names : forall o,
  (forall name, In name names -> all_chars no_break name = true) ->
  Forall one_line (writes (blocks d o names)).
Proof.
  induction names as [|name rest IH]; intros o H; [constructor|].
  cbn [blocks]. rewrite writes_app. apply Forall_app. split.
  - apply block_one_line. apply H. now left.
  - destruct (file_ok d name); [|constructor].
    apply IH. intros m Hm. apply H. now right.
Qed.

(** The lines of the output text are the header's two lines and then
    the written strings, one line each. *)
Lemma output_lines d :
  (forall name, In name (obj_files d) -> all_chars no_break name = true) ->
  Py.readlines (file_text (fst (merge_obj_files_in_memory d)))
  = ("# Merged OBJ file" ++ Py.nl)%string :: Py.nl
    :: writes (blocks d zero_offsets (obj_files d)).
Proof.
  intros H. rewrite merge_spec. cbn [fst]. rewrite file_text_write.
  unfold header.
  change ("# Merged OBJ file" ++ Py.nl ++ Py.nl)%string
    with (("# Merged OBJ file" ++ Py.nl) ++ Py.nl)%string.
  rewrite append_assoc, readlines_line by reflexivity.
  change (Py.nl ++ ?r)%string with (("" ++ Py.nl) ++ r)%string.
  rewrite readlines_line by reflexivity.
  unfold file_text. rewrite readlines_lines; [reflexivity|].
  now apply blocks_one_line.
Qed.

End OutputText.

Section ReadOutput.

(** The lines that Pass 1 puts into the buffer of one keyword. *)
Definition kept (k : string) (lines : list string) : list string :=
  flat_map (fun raw => keep k (Py.strip raw)) lines.

Lemma read_buffers_kept lines :
  read_buffers lines
  = mkBuffers (kept "v " lines) (kept "vt " lines)
              (kept "vn " lines) (kept "f " lines).
Proof. unfold read_buffers. now rewrite read_buffers_from. Qed.

Lemma kept_app k l1 l2 : kept k (l1 ++ l2) = kept k l1 ++ kept k l2.
Proof. apply flat_map_app. Qed.

Lemma strip_cons c s :
  Py.isspace c = false -> exists r, Py.strip (String c s) = String c r.
Proof.
  intros Hc. unfold Py.strip. rewrite (lstrip_cons c s Hc).
  now apply rstrip_cons.
Qed.

(** A line that begins with another character than the keyword goes
    nowhere. *)
Lemma kept_other_first c s a k :
  Py.isspace c = false -> (a =? c)%char = false ->
  keep (String a k) (Py.strip (String c s)) = [].
Proof.
  intros Hc Ha. destruct (strip_cons c s Hc) as [r ->].
  unfold keep. cbn [Py.startswith]. now rewrite Ha.
Qed.

Lemma kept_none k ws :
  (forall w, In w ws -> keep k (Py.strip w) = []) -> kept k ws = [].
Proof.
  induction ws as [|w ws IH]; intros H; [reflexivity|].
  unfold kept. cbn [flat_map]. rewrite (H w (or_introl eq_refl)).
  apply IH. intros w' Hw'. apply H. now right.
Qed.

Lemma strip_line_nl l : Py.strip l = l -> Py.strip (l ++ Py.nl) = l.
Proof. intros H. unfold Py.nl. now rewrite strip_snoc_space by reflexivity. Qed.

(** The written lines of a buffer are read back into the buffer of
    their keyword. *)
Lemma kept_buffer_lines k ls :
  (forall l, In l ls -> Py.strip l = l /\ Py.startswith l k = true) ->
  kept k (writes (line_writes ls)) = ls.
Proof.
  rewrite writes_line_writes. induction ls as [|l ls IH]; intros H;
    [reflexivity|].
  destruct (H l (or_introl eq_refl)) as [Hs Hk].
  unfold kept. cbn [map flat_map]. rewrite (strip_line_nl l Hs).
  unfold keep at 1. rewrite Hk. cbn [app]. f_equal.
  apply IH. intros l' Hl'. apply H. now right.
Qed.

Lemma kept_buffer_lines_other k k' ls :
  (forall l, In l ls -> Py.strip l = l /\ Py.startswith l k' = true) ->
  (forall l, Py.startswith l k' = true -> Py.startswith l k = false) ->
  kept k (writes (line_writes ls)) = [].
Proof.
  intros H Hx. apply kept_none. intros w Hw. apply in_line_writes in Hw.
  destruct Hw as (l & Hl & ->). destruct (H l Hl) as [Hs Hk].
  rewrite (strip_line_nl l Hs). unfold keep. now rewrite (Hx l Hk).
Qed.

Lemma other_keyword l k k' :
  In k ["v "; "vt "; "vn "] -> In k' ["v "; "vt "; "vn "] -> k <> k' ->
  Py.startswith l k' = true -> Py.startswith l k = false.
Proof.
  intros Hk Hk' Hne H.
  destruct Hk as [<-|[<-|[<-|[]]]]; destruct Hk' as [<-|[<-|[<-|[]]]];
    try congruence; split_second_chars.
Qed.

Lemma kept_face_lines a k o fs :
  (a =? "f")%char = false ->
  kept (String a k) (writes (map Write (face_lines o fs))) = [].
Proof.
  intros Ha. apply kept_none. intros w Hw. rewrite writes_map_Write in Hw.
  apply face_lines_in in Hw. destruct Hw as (f & _ & Hr).
  destruct (renumber_face_tokens o f w Hr) as (toks & -> & _).
  cbn [append]. now apply kept_other_first.
Qed.

(** What Pass 1 finds in the written block of a file. *)
Lemma kept_block d o name :
  kept "v " (writes (block d o name)) = vertices (file_buffers d name)
  /\ kept "vt " (writes (block d o name)) = texcoords (file_buffers d name)
  /\ kept "vn " (writes (block d o name)) = normals (file_buffers d name).
Proof.
  destruct (file_buffers_keywords d name) as (Hv & Ht & Hn & _).
  assert (Sv : forall l, In l (vertices (file_buffers d name)) ->
                 Py.strip l = l /\ Py.startswith l "v " = true).
  { intros l Hl. split; [apply (buffered_line d name l); tauto | auto]. }
  assert (St : forall l, In l (texcoords (file_buffers d name)) ->
                 Py.strip l = l /\ Py.startswith l "vt " = true).
  { intros l Hl. split; [apply (buffered_line d name l); tauto | auto]. }
  assert (Sn : forall l, In l (normals (file_buffers d name)) ->
                 Py.strip l = l /\ Py.startswith l "vn " = true).
  { intros l Hl. split; [apply (buffered_line d name l); tauto | auto]. }
  assert (Hhead : forall a k,
            (a =? "o")%char = false -> (a =? "g")%char = false ->
            kept (String a k)
                 [("o " ++ fst (Py.splitext name) ++ Py.nl)%string;
                  ("g " ++ fst (Py.splitext name) ++ Py.nl)%string] = []).
  { intros a k Ho Hg. apply kept_none. intros w [<-|[<-|[]]]; cbn [append];
      now apply kept_other_first. }
  unfold block. cbn [writes].
  change (?a :: ?b :: writes ?rest) with ([a; b] ++ writes rest).
  rewrite !writes_app, !kept_app.
  rewrite !Hhead by reflexivity.
  rewrite !kept_face_lines by reflexivity.
  rewrite (kept_buffer_lines "v " _ Sv), (kept_buffer_lines "vt " _ St),
    (kept_buffer_lines "vn " _ Sn).
  rewrite (kept_buffer_lines_other "v " "vt " _ St),
    (kept_buffer_lines_other "v " "vn " _ Sn),
    (kept_buffer_lines_other "vt " "v " _ Sv),
    (kept_buffer_lines_other "vt " "vn " _ Sn),
    (kept_buffer_lines_other "vn " "v " _ Sv),
    (kept_buffer_lines_other "vn " "vt " _ St);
    try (intros l; apply other_keyword; simpl; (tauto || discriminate)).
  cbn [app]. rewrite !app_nil_r. repeat split.
Qed.

Lemma kept_blocks d names : forall o,
  let merged := opens (blocks d o names) in
  kept "v " (writes (blocks d o names))
  = flat_map (fun name => vertices (file_buffers d name)) merged
  /\ kept "vt " (writes (blocks d o names))
     = flat_map (fun name => texcoords (file_buffers d name)) merged
  /\ kept "vn " (writes (blocks d o names))
     = flat_map (fun name => normals (file_buffers d name)) merged.
Proof.
  cbv zeta. induction names as [|name rest IH]; intros o; [now repeat split|].
  cbn [blocks]. rewrite writes_app, opens_app, opens_block, !kept_app.
  destruct (kept_block d o name) as (-> & -> & ->). cbn [app flat_map].
  destruct (file_ok d name).
  - destruct (IH (advance o (file_buffers d name))) as (-> & -> & ->).
    now repeat split.
  - cbn [writes opens flat_map kept]. now repeat split.
Qed.

(** X10: the output can be read again.  When no merged file name holds
    a line break, Pass 1 applied to the text of the output file finds,
    as vertex, texcoord and normal lines, exactly the vertex, texcoord
    and normal lines of the files that were opened, file after file in
    merge order: no coordinate line is lost, changed, added or moved
    to another kind, also when the merge raised. *)
Theorem output_reads_back_coordinate_lines :
  forall d : directory,
    (forall name, In name (obj_files d) -> all_chars no_break name = true) ->
    let t := fst (merge_obj_files_in_memory d) in
    let b := read_buffers (Py.readlines (file_text t)) in
    vertices b = flat_map (fun name => vertices (file_buffers d name)) (opens t)
    /\ texcoords b
       = flat_map (fun name => texcoords (file_buffers d name)) (opens t)
    /\ normals b
       = flat_map (fun name => normals (file_buffers d name)) (opens t).
Proof.
  intros d Hnames. cbv zeta. rewrite (output_lines d Hnames), read_buffers_kept.
  cbn [vertices texcoords normals]. rewrite merge_spec. cbn [fst opens].
  change (?a :: ?b :: writes ?rest) with ([a; b] ++ writes rest).
  rewrite !kept_app.
  destruct (kept_blocks d (obj_files d) zero_offsets) as (-> & -> & ->).
  repeat split.
Qed.

Lemma output_reads_back_witness :
  (forall name, In name (obj_files sample_dir) ->
                all_chars no_break name = true)
  /\ vertices (read_buffers (Py.readlines
        (file_text (fst (merge_obj_files_in_memory sample_dir)))))
     = ["v 0 0 0"; "v 1 0 0"; "v 1 1 0"; "v 5 5 5"; "v 6 5 5"; "v 6 6 5"].
Proof.
  assert (H : forall name, In name (obj_files sample_dir) ->
                           all_chars no_break name = true).
  { intros name Hn. vm_compute in Hn. destruct Hn as [<-|[<-|[]]]; reflexivity. }
  split; [exact H|].
  exact (proj1 (output_reads_back_coordinate_lines sample_dir H)).
Defined.

End ReadOutput.

(* ================================================================= *)
(** ** Reading the written face statements back *)

Section ReadFaces.

Lemma split_ws_nil_rstrip r : Py.split_ws r = [] -> Py.rstrip r = "".
Proof.
  induction r as [|c r IH]; [reflexivity|]. cbn [Py.split_ws].
  destruct (Py.isspace c) eqn:Ec.
  - intros H. rewrite rstrip_unfold, (IH H). now rewrite Ec.
  - destruct r as [|c' r']; [discriminate|].
    destruct (Py.isspace c'); [discriminate|].
    destruct (Py.split_ws (String c' r')); discriminate.
Qed.

Lemma strip_fixed_rstrip l : Py.strip l = l -> Py.rstrip l = l.
Proof.
  intros H. rewrite <- H at 1. unfold Py.strip. rewrite rstrip_idem. exact H.
Qed.

(** A buffered face line has at least one token after its keyword. *)
Lemma face_parts_nonempty l :
  Py.strip l = l -> Py.startswith l "f " = true -> face_parts l <> [].
Proof.
  intros Hs Hf.
  destruct l as [|a [|b r]]; cbn [Py.startswith] in Hf; try discriminate.
  { rewrite andb_false_r in Hf. discriminate. }
  rewrite andb_true_r in Hf. apply andb_true_iff in Hf. destruct Hf as [Ha Hb].
  apply Ascii.eqb_eq in Ha, Hb. subst a b.
  unfold face_parts. intros E.
  assert (Hr : Py.split_ws r = []).
  { cbn [Py.split_ws] in E. change (Py.isspace "f") with false in E.
    change (Py.isspace " ") with true in E. cbv iota in E.
    cbn [tl] in E. exact E. }
  apply split_ws_nil_rstrip in Hr. apply strip_fixed_rstrip in Hs.
  rewrite !rstrip_unfold, Hr in Hs. discriminate Hs.
Qed.

Lemma rstrip_app_keep a b :
  Py.rstrip b <> "" -> Py.rstrip (a ++ b) = (a ++ Py.rstrip b)%string.
Proof.
  intros Hb. induction a as [|c a IH]; [reflexivity|].
  cbn [append]. rewrite rstrip_unfold, IH.
  destruct (a ++ Py.rstrip b)%string eqn:E; [|reflexivity].
  destruct a; cbn [append] in E; [contradiction | discriminate].
Qed.

(** A token with all its characters and at least one. *)
Definition solid (p : string) : Prop :=
  all_chars nonspace p = true /\ p <> "".

Lemma rstrip_join toks :
  Forall solid toks -> toks <> [] ->
  Py.rstrip (Py.join " " toks) = Py.join " " toks /\ Py.join " " toks <> "".
Proof.
  induction 1 as [|p toks [Hp Hne] Htoks IH]; intros Hnil; [congruence|].
  destruct toks as [|q toks].
  - unfold Py.join. cbn [String.concat]. split; [now apply rstrip_nonspace|assumption].
  - destruct IH as [IH1 IH2]; [discriminate|].
    unfold Py.join in *.
    change (String.concat " " (p :: q :: toks))
      with (p ++ " " ++ String.concat " " (q :: toks))%string.
    rewrite <- append_assoc. split.
    + rewrite rstrip_app_keep by (now rewrite IH1). now rewrite IH1.
    + destruct p; [congruence | discriminate].
Qed.

(** The written face statement without its line feed is what [strip]
    gives back. *)
Lemma strip_written_face toks :
  Forall solid toks -> toks <> [] ->
  Py.strip ("f " ++ Py.join " " toks ++ Py.nl) = ("f " ++ Py.join " " toks)%string.
Proof.
  intros Hs Hnil. destruct (rstrip_join toks Hs Hnil) as [Hr Hne].
  rewrite <- append_assoc. unfold Py.nl.
  rewrite strip_snoc_space by reflexivity.
  unfold Py.strip. cbn [append]. rewrite lstrip_cons by reflexivity.
  change (String "f" (String " " (Py.join " " toks)))
    with ("f " ++ Py.join " " toks)%string.
  rewrite rstrip_app_keep by (now rewrite Hr). now rewrite Hr.
Qed.

Variable d : directory.

(** Every face token of every merged file has a vertex index. *)
Hypothesis vertex_present :
  forall name face_line p,
    In name (obj_files d) ->
    In face_line (faces (file_buffers d name)) ->
    In p (face_parts face_line) ->
    nth_field p 0 <> "".

Lemma nth_field_empty i : nth_field "" i = "".
Proof. destruct i as [|[|i]]; reflexivity. Qed.

Lemma written_face_shape o name s :
  In name (obj_files d) ->
  In s (face_lines o (faces (file_buffers d name))) ->
  exists x,
    s = (x ++ Py.nl)%string /\ Py.strip s = x /\ Py.startswith x "f " = true.
Proof.
  intros Hname Hs. apply face_lines_in in Hs. destruct Hs as (f & Hf & Hr).
  destruct (renumber_face_tokens o f s Hr) as (toks & -> & F).
  assert (Hsolid : Forall solid toks).
  { apply Forall_forall. intros q Hq.
    destruct (Forall2_in_right _ _ _ _ F Hq) as (p & Hp & Ht).
    split; [now apply (renumber_token_nonspace o p)|].
    intros ->.
    destruct (renumber_token_fields o p "" Ht 0 ltac:(lia))
      as [[E _]|[_ (z & _ & E)]].
    - now apply (vertex_present name f p).
    - rewrite nth_field_empty in E. symmetry in E.
      now apply str_nonempty in E. }
  assert (Hnil : toks <> []).
  { intros ->. inversion F as [E|]; subst.
    destruct (buffered_line d name f) as [Hstrip _]; [tauto|].
    destruct (file_buffers_keywords d name) as (_ & _ & _ & Hkw).
    apply (face_parts_nonempty f Hstrip (Hkw f Hf)). now symmetry. }
  exists ("f " ++ Py.join " " toks)%string. split; [now rewrite append_assoc|].
  split; [now apply strip_written_face | reflexivity].
Qed.

Definition is_face (w : string) : bool := Py.startswith w "f ".

Lemma kept_faces_block o name :
  In name (obj_files d) ->
  kept "f " (writes (block d o name))
  = map Py.strip (filter is_face (writes (block d o name)))
  /\ Forall (fun w => w = (Py.strip w ++ Py.nl)%string)
            (filter is_face (writes (block d o name))).
Proof.
  intros Hname.
  destruct (file_buffers_keywords d name) as (Hv & Ht & Hn & _).
  set (F := face_lines o (faces (file_buffers d name))).
  assert (HF : forall s, In s F ->
             keep "f " (Py.strip s) = [Py.strip s] /\ is_face s = true
             /\ s = (Py.strip s ++ Py.nl)%string).
  { intros s Hs. destruct (written_face_shape o name s Hname Hs) as (x & E & Hx & Hk).
    rewrite Hx. unfold keep. rewrite Hk. split; [reflexivity|].
    split; [|exact E]. rewrite E. unfold is_face. now apply startswith_app. }
  assert (Hlines : forall c k ls,
            (c =? "f")%char = false ->
            (forall l, In l ls -> Py.strip l = l /\ Py.startswith l (String c k) = true) ->
            kept "f " (writes (line_writes ls)) = []
            /\ filter is_face (writes (line_writes ls)) = []).
  { intros c k ls Hc H. split.
    - apply (kept_buffer_lines_other "f " (String c k) ls H).
      intros l Hl. rewrite <- (append_nil_r l).
      now apply (startswith_other l "" c k).
    - apply filter_none. intros w Hw. apply in_line_writes in Hw.
      destruct Hw as (l & Hl & ->). unfold is_face.
      apply (startswith_other l Py.nl c k); [now apply H | exact Hc]. }
  assert (Sb : forall (kind : buffers -> list string) l,
            In l (kind (file_buffers d name)) ->
            kind = vertices \/ kind = texcoords \/ kind = normals ->
            Py.strip l = l).
  { intros kind l Hl [->|[->| ->]]; apply (buffered_line d name l); tauto. }
  destruct (Hlines "v"%char " " (vertices (file_buffers d name)) eq_refl)
    as [Kv Fv]; [intros l Hl; split; [apply (Sb vertices); tauto | auto]|].
  destruct (Hlines "v"%char "t " (texcoords (file_buffers d name)) eq_refl)
    as [Kt Ft]; [intros l Hl; split; [apply (Sb texcoords); tauto | auto]|].
  destruct (Hlines "v"%char "n " (normals (file_buffers d name)) eq_refl)
    as [Kn Fn]; [intros l Hl; split; [apply (Sb normals); tauto | auto]|].
  unfold block. cbn [writes].
  change (?a :: ?b :: writes ?rest) with ([a; b] ++ writes rest).
  rewrite !writes_app, !kept_app, !filter_app, writes_map_Write.
  rewrite Kv, Kt, Kn, Fv, Ft, Fn.
  assert (Hhead : kept "f " [("o " ++ fst (Py.splitext name) ++ Py.nl)%string;
                             ("g " ++ fst (Py.splitext name) ++ Py.nl)%string] = []).
  { apply kept_none. intros w [<-|[<-|[]]]; cbn [append];
      now apply kept_other_first. }
  rewrite Hhead. cbn [filter is_face Py.startswith append Ascii.eqb andb app].
  change (("f" =? "o")%char) with false. change (("f" =? "g")%char) with false.
  cbn [andb app].
  fold F. clearbody F. clear -HF. induction F as [|s F IH].
  - split; [reflexivity | constructor].
  - destruct (HF s (or_introl eq_refl)) as (Hk & Hi & Hs).
    destruct IH as [IH1 IH2]; [intros s' Hs'; apply HF; now right|].
    unfold kept in *. cbn [flat_map filter map]. rewrite Hk, Hi, IH1.
    split; [reflexivity | now constructor].
Qed.

Lemma kept_faces_blocks names : forall o,
  (forall name, In name names -> In name (obj_files d)) ->
  kept "f " (writes (blocks d o names))
  = map Py.strip (filter is_face (writes (blocks d o names)))
  /\ Forall (fun w => w = (Py.strip w ++ Py.nl)%string)
            (filter is_face (writes (blocks d o names))).
Proof.
  induction names as [|name rest IH]; intros o H; [split; [reflexivity|constructor]|].
  cbn [blocks]. rewrite writes_app, kept_app, filter_app, map_app.
  destruct (kept_faces_block o name (H name (or_introl eq_refl))) as [-> Hb].
  destruct (file_ok d name).
  - destruct (IH (advance o (file_buffers d name))) as [-> Hr];
      [intros m Hm; apply H; now right|].
    split; [reflexivity | now apply Forall_app].
  - cbn [writes filter map kept flat_map]. split; [reflexivity|].
    now rewrite app_nil_r.
Qed.

(** The face buffer that Pass 1 fills from the output text. *)
Lemma output_faces_read_back :
  (forall name, In name (obj_files d) -> all_chars no_break name = true) ->
  let t := fst (merge_obj_files_in_memory d) in
  faces (read_buffers (Py.readlines (file_text t)))
  = map Py.strip (filter is_face (writes t))
  /\ Forall (fun w => w = (Py.strip w ++ Py.nl)%string)
            (filter is_face (writes t)).
Proof.
  intros Hnames. cbv zeta. rewrite (output_lines d Hnames), read_buffers_kept.
  cbn [faces]. rewrite merge_spec. cbn [fst writes].
  change (?a :: ?b :: writes ?rest) with ([a; b] ++ writes rest).
  rewrite kept_app.
  destruct (kept_faces_blocks (obj_files d) zero_offsets) as [-> HF];
    [auto|].
  split; [reflexivity | exact HF].
Qed.

End ReadFaces.

(** X11: the face statements of the output can be read again.  When no
    merged file name holds a line break and every face token of the
    merged files has a vertex index, Pass 1 applied to the text of the
    output file finds as face lines exactly the face statements that
    were written, in order, each without its final line feed and
    otherwise character for character. *)
Theorem output_reads_back_face_statements :
  forall d : directory,
    (forall name, In name (obj_files d) -> all_chars no_break name = true) ->
    (forall name face_line p,
        In name (obj_files d) ->
        In face_line (faces (file_buffers d name)) ->
        In p (face_parts face_line) ->
        nth_field p 0 <> "") ->
    let t := fst (merge_obj_files_in_memory d) in
    let written := filter (fun w => Py.startswith w "f ") (writes t) in
    faces (read_buffers (Py.readlines (file_text t))) = map Py.strip written
    /\ Forall (fun w => w = (Py.strip w ++ Py.nl)%string) written.
Proof.
  intros d Hnames Hvertex. exact (output_faces_read_back d Hvertex Hnames).
Qed.

Lemma output_reads_back_faces_witness :
  (forall name, In name (obj_files sample_dir) ->
                all_chars no_break name = true)
  /\ faces (read_buffers (Py.readlines
        (file_text (fst (merge_obj_files_in_memory sample_dir)))))
     = ["f 1/1/1 2/1/1 3/1/2"; "f 1//2 2//2 3//1";
        "f 4 5 6"; "f 4/2 5/2 6/2"; "f 6//3 5//3 4//3"].
Proof.
  assert (H : forall name, In name (obj_files sample_dir) ->
                           all_chars no_break name = true).
  { intros name Hn. vm_compute in Hn. destruct Hn as [<-|[<-|[]]]; reflexivity. }
  split; [exact H|].
  refine (proj1 (output_reads_back_face_statements sample_dir H _)).
  intros name face_line p Hn Hf Hp.
  vm_compute in Hn.
  destruct Hn as [<-|[<-|[]]]; vm_compute in Hf;
    repeat (destruct Hf as [<-|Hf];
            [vm_compute in Hp;
             repeat (destruct Hp as [<-|Hp]; [vm_compute; discriminate|]);
             destruct Hp|]);
    destruct Hf.
Defined.

(* ================================================================= *)
(** ** The lines of the output text *)

Section OutputLines.

(** What Pass 1 finds when it reads the text that a trace leaves in the
    output file: its [v], [vt], [vn] and [f] lines. *)
Definition output_buffers (t : list event) : buffers :=
  read_buffers (Py.readlines (file_text t)).

(** The lines of a text that begin with a keyword. *)
Definition lines_starting (k : string) (text : string) : list string :=
  filter (fun l => Py.startswith l k) (Py.readlines text).

(** No merged file name holds a line feed or a carriage return. *)
Definition names_without_break (d : directory) : Prop :=
  forall name, In name (obj_files d) -> all_chars no_break name = true.

Lemma output_text_lines d :
  names_without_break d ->
  let t := fst (merge_obj_files_in_memory d) in
  Py.readlines (file_text t)
  = ("# Merged OBJ file" ++ Py.nl)%string :: Py.nl :: tl (writes t).
Proof.
  intros H. cbv zeta. rewrite (output_lines d H), merge_spec. reflexivity.
Qed.

(** The coordinate lines of the output are those of the opened files. *)
Lemma output_buffers_opened d :
  names_without_break d ->
  let t := fst (merge_obj_files_in_memory d) in
  vertices (output_buffers t)
  = flat_map (fun name => vertices (file_buffers d name)) (opens t)
  /\ texcoords (output_buffers t)
     = flat_map (fun name => texcoords (file_buffers d name)) (opens t)
  /\ normals (output_buffers t)
     = flat_map (fun name => normals (file_buffers d name)) (opens t).
Proof.
  intros Hnames. cbv zeta. unfold output_buffers.
  rewrite (output_lines d Hnames), read_buffers_kept.
  cbn [vertices texcoords normals]. rewrite merge_spec. cbn [fst opens].
  change (?a :: ?b :: writes ?rest) with ([a; b] ++ writes rest).
  rewrite !kept_app.
  destruct (kept_blocks d (obj_files d) zero_offsets) as (-> & -> & ->).
  repeat split.
Qed.

Lemma length_flat_map_buffers d (kind : buffers -> list string) names :
  Z.of_nat (List.length (flat_map (fun name => kind (file_buffers d name)) names))
  = count_lines d kind names.
Proof.
  induction names as [|name rest IH]; [reflexivity|].
  cbn [flat_map]. rewrite length_app, Nat2Z.inj_add, IH. reflexivity.
Qed.

Lemma merge_ok_opens d :
  snd (merge_obj_files_in_memory d) = Ok tt ->
  opens (fst (merge_obj_files_in_memory d)) = obj_files d.
Proof.
  intros H. apply merge_ok_files in H. rewrite merge_spec. cbn [fst opens].
  now apply opens_blocks.
Qed.

(** The numbers of coordinate lines in the output of a completed
    merge. *)
Lemma output_counts d :
  snd (merge_obj_files_in_memory d) = Ok tt ->
  names_without_break d ->
  let b := output_buffers (fst (merge_obj_files_in_memory d)) in
  Z.of_nat (List.length (vertices b)) = count_lines d vertices (obj_files d)
  /\ Z.of_nat (List.length (texcoords b)) = count_lines d texcoords (obj_files d)
  /\ Z.of_nat (List.length (normals b)) = count_lines d normals (obj_files d).
Proof.
  intros Hok Hnames. cbv zeta.
  destruct (output_buffers_opened d Hnames) as (-> & -> & ->).
  rewrite (merge_ok_opens d Hok), !length_flat_map_buffers. now repeat split.
Qed.

(** The block of a merged file in a completed merge, and the range of
    the indices that its face statements hold in field [i]. *)
Lemma indices_in_block d i :
  i < 3 ->
  snd (merge_obj_files_in_memory d) = Ok tt ->
  (forall name face_line p z,
      In name (obj_files d) ->
      In face_line (faces (file_buffers d name)) ->
      In p (face_parts face_line) ->
      Py.int (nth_field p i) = Some z ->
      (1 <= z <= Z.of_nat (List.length
                             (indexed_buffer i (file_buffers d name))))%Z) ->
  forall pre name post,
    obj_files d = pre ++ name :: post ->
    let o := offsets_after d zero_offsets pre in
    fst (merge_obj_files_in_memory d)
    = Write header :: blocks d zero_offsets pre ++ block d o name
      ++ blocks d (offsets_after d zero_offsets (pre ++ [name])) post
    /\ opens (blocks d zero_offsets pre) = pre
    /\ opens (blocks d (offsets_after d zero_offsets (pre ++ [name])) post) = post
    /\ List.length (face_lines o (faces (file_buffers d name)))
       = List.length (faces (file_buffers d name))
    /\ forall s p' z',
         In s (face_lines o (faces (file_buffers d name))) ->
         In p' (face_parts s) ->
         Py.int (nth_field p' i) = Some z' ->
         (count_lines d (indexed_buffer i) pre + 1 <= z'
          <= count_lines d (indexed_buffer i) pre
             + Z.of_nat (List.length
                           (indexed_buffer i (file_buffers d name))))%Z.
Proof.
  intros Hi Hok Hrange pre name post Hfiles o. apply merge_ok_files in Hok.
  rewrite Hfiles in Hok.
  apply forallb_app_true in Hok. destruct Hok as [Hpre Hrest].
  cbn [forallb] in Hrest. apply andb_true_iff in Hrest.
  destruct Hrest as [Hname Hpost]. split; [|split; [|split; [|split]]].
  - rewrite merge_spec, Hfiles. cbn [fst].
    now rewrite (blocks_at d _ _ _ _ Hpre), Hname.
  - now apply opens_blocks.
  - now apply opens_blocks.
  - symmetry. eapply Forall2_length. apply face_lines_ok. exact Hname.
  - intros s p' z' Hs Hp' Hz'.
    apply face_lines_in in Hs. destruct Hs as (face_line & Hf & Hr).
    destruct (written_face_tokens o face_line s p' Hr Hp') as (p & Hp & Ht).
    assert (Hin : In name (obj_files d)) by (rewrite Hfiles; apply in_elt).
    destruct (renumber_token_fields o p p' Ht i Hi)
      as [[_ E]|[_ (z & Hz & E)]].
    + rewrite E in Hz'. discriminate Hz'.
    + rewrite E, int_str in Hz'. injection Hz' as <-.
      specialize (Hrange name face_line p z Hin Hf Hp Hz).
      unfold o. rewrite offset_of_after. lia.
Qed.

End OutputLines.

(** C3: take a merge that completes, over files whose names hold no
    line break and in which every vertex index of every face token lies
    between 1 and the number of vertex lines of its own file.  Then the
    lines of the output text are the two header lines and the strings
    written after them; the number of vertex lines that Pass 1 finds
    in the output text is the sum of the files' vertex-line counts;
    and every vertex index read back from a face line in the block of
    a file lies above the total count of the files before it and at
    most at that total plus the file's own count, so it never reaches
    into a later file. *)
Theorem C3_vertex_indices_stay_in_own_block :
  forall d : directory,
    snd (merge_obj_files_in_memory d) = Ok tt ->
    names_without_break d ->
    (forall name face_line p z,
        In name (obj_files d) ->
        In face_line (faces (file_buffers d name)) ->
        In p (face_parts face_line) ->
        Py.int (nth_field p 0) = Some z ->
        (1 <= z <= Z.of_nat (List.length (vertices (file_buffers d name))))%Z) ->
    let t := fst (merge_obj_files_in_memory d) in
    Py.readlines (file_text t)
    = ("# Merged OBJ file" ++ Py.nl)%string :: Py.nl :: tl (writes t)
    /\ Z.of_nat (List.length (vertices (output_buffers t)))
       = count_lines d vertices (obj_files d)
    /\ forall pre name post,
         obj_files d = pre ++ name :: post ->
         exists before after new_faces,
           let b := file_buffers d name in
           let obj_name := fst (Py.splitext name) in
           t = Write header :: before
               ++ (Open name
                   :: Write ("o " ++ obj_name ++ Py.nl)
                   :: Write ("g " ++ obj_name ++ Py.nl)
                   :: line_writes (vertices b) ++ line_writes (texcoords b)
                      ++ line_writes (normals b) ++ map Write new_faces)
               ++ after
           /\ opens before = pre
           /\ opens after = post
           /\ List.length new_faces = List.length (faces b)
           /\ forall s p' z',
                In s new_faces ->
                In p' (face_parts s) ->
                Py.int (nth_field p' 0) = Some z' ->
                (count_lines d vertices pre + 1 <= z'
                 <= count_lines d vertices pre
                    + Z.of_nat (List.length (vertices b)))%Z.
Proof.
  intros d Hok Hnames Hrange. cbv zeta.
  split; [exact (output_text_lines d Hnames)|].
  split; [exact (proj1 (output_counts d Hok Hnames))|].
  intros pre name post Hfiles.
  destruct (indices_in_block d 0 ltac:(lia) Hok Hrange pre name post Hfiles)
    as (Ht & Hpre & Hpost & Hlen & Hidx).
  exists (blocks d zero_offsets pre),
    (blocks d (offsets_after d zero_offsets (pre ++ [name])) post),
    (face_lines (offsets_after d zero_offsets pre) (faces (file_buffers d name))).
  split; [exact Ht|]. split; [exact Hpre|]. split; [exact Hpost|].
  split; [exact Hlen | exact Hidx].
Qed.

(** A file whose name holds a line feed followed by a vertex
    statement. *)
Definition break_dir : directory :=
  [ (("a" ++ Py.nl ++ "v 9 9 9.obj")%string,
     RegularFile ("v 0 0 0" ++ Py.nl ++ "f 1 1 1")) ].

(** The count as the claim has it, for any file names. *)
Definition vertex_count_claim : Prop :=
  forall d : directory,
    snd (merge_obj_files_in_memory d) = Ok tt ->
    indices_in_own_range d ->
    Z.of_nat (List.length
                (vertices (output_buffers (fst (merge_obj_files_in_memory d)))))
    = count_lines d vertices (obj_files d).

Lemma break_dir_in_range : indices_in_own_range break_dir.
Proof.
  intros name face_line p z Hn Hf Hp Hz.
  vm_compute in Hn.
  destruct Hn as [<-|[]]; vm_compute in Hf;
    repeat (destruct Hf as [<-|Hf];
            [vm_compute in Hp;
             repeat (destruct Hp as [<-|Hp];
                     [vm_compute in Hz; injection Hz as <-;
                      split; vm_compute; discriminate|]);
             destruct Hp|]);
    destruct Hf.
Qed.

Example ex_break_dir :
  file_text (fst (merge_obj_files_in_memory break_dir))
  = "# Merged OBJ file

o a
v 9 9 9
g a
v 9 9 9
v 0 0 0
f 1 1 1
"
  /\ vertices (output_buffers (fst (merge_obj_files_in_memory break_dir)))
     = ["v 9 9 9"; "v 9 9 9"; "v 0 0 0"]
  /\ count_lines break_dir vertices (obj_files break_dir) = 1%Z.
Proof. repeat split; reflexivity. Qed.

Lemma C3_counterexample : ~ vertex_count_claim.
Proof.
  intros H. specialize (H break_dir eq_refl break_dir_in_range).
  discriminate H.
Qed.

Lemma sample_names_without_break : names_without_break sample_dir.
Proof.
  intros name Hn. vm_compute in Hn. destruct Hn as [<-|[<-|[]]]; reflexivity.
Qed.

Lemma C3_witness :
  snd (merge_obj_files_in_memory sample_dir) = Ok tt
  /\ names_without_break sample_dir
  /\ indices_in_own_range sample_dir
  /\ Z.of_nat (List.length (vertices (output_buffers
                 (fst (merge_obj_files_in_memory sample_dir)))))
     = count_lines sample_dir vertices (obj_files sample_dir)
  /\ count_lines sample_dir vertices (obj_files sample_dir) = 6%Z.
Proof.
  split; [reflexivity|]. split; [exact sample_names_without_break|].
  split; [exact sample_dir_in_range|].
  split; [|reflexivity].
  exact (proj1 (proj2 (C3_vertex_indices_stay_in_own_block sample_dir eq_refl
                         sample_names_without_break sample_dir_in_range))).
Defined.

Section HeaderLines.

(** The object and group statements of a merged file. *)
Definition object_line (name : string) : string :=
  "o " ++ fst (Py.splitext name) ++ Py.nl.

Definition group_line (name : string) : string :=
  "g " ++ fst (Py.splitext name) ++ Py.nl.

(** In a block only the generated header begins with [o ], and only
    the other generated header begins with [g ]. *)
Lemma header_lines_block d o name :
  filter (fun l => Py.startswith l "o ") (writes (block d o name))
  = [object_line name]
  /\ filter (fun l => Py.startswith l "g ") (writes (block d o name))
     = [group_line name].
Proof.
  destruct (file_buffers_keywords d name) as (Hv & Ht & Hn & _).
  assert (Hrest : forall c, (c =? "v")%char = false -> (c =? "f")%char = false ->
            forall k s,
            In s (writes (line_writes (vertices (file_buffers d name))
                          ++ line_writes (texcoords (file_buffers d name))
                          ++ line_writes (normals (file_buffers d name))
                          ++ map Write (face_lines o (faces (file_buffers d name))))) ->
            Py.startswith s (String c k) = false).
  { intros c Hcv Hcf k s. rewrite !writes_app, writes_map_Write, !in_app_iff.
    intros [H|[H|[H|H]]].
    - apply in_line_writes in H. destruct H as (l & Hl & ->).
      eapply startswith_other; [apply Hv, Hl | exact Hcv].
    - apply in_line_writes in H. destruct H as (l & Hl & ->).
      eapply startswith_other; [apply Ht, Hl | exact Hcv].
    - apply in_line_writes in H. destruct H as (l & Hl & ->).
      eapply startswith_other; [apply Hn, Hl | exact Hcv].
    - apply face_lines_in in H. destruct H as (f & _ & Hr).
      destruct (renumber_face_tokens o f s Hr) as (toks & -> & _).
      cbn [append Py.startswith]. now rewrite Hcf. }
  assert (Eoo : forall x, Py.startswith ("o " ++ x) "o " = true) by reflexivity.
  assert (Egg : forall x, Py.startswith ("g " ++ x) "g " = true) by reflexivity.
  assert (Eog : forall x, Py.startswith ("o " ++ x) "g " = false) by reflexivity.
  assert (Ego : forall x, Py.startswith ("g " ++ x) "o " = false) by reflexivity.
  unfold block, object_line, group_line. cbn [writes].
  set (rest := line_writes _ ++ _) in *.
  split; cbn [filter]; rewrite ?Eoo, ?Egg, ?Eog, ?Ego;
    rewrite filter_none; try reflexivity; intros s; now apply Hrest.
Qed.

Lemma header_lines_blocks d names : forall o,
  filter (fun l => Py.startswith l "o ") (writes (blocks d o names))
  = map object_line (opens (blocks d o names))
  /\ filter (fun l => Py.startswith l "g ") (writes (blocks d o names))
     = map group_line (opens (blocks d o names)).
Proof.
  induction names as [|name rest IH]; intros o; [now split|].
  cbn [blocks]. rewrite writes_app, opens_app, opens_block, !filter_app.
  destruct (header_lines_block d o name) as [-> ->].
  destruct (file_ok d name).
  - destruct (IH (advance o (file_buffers d name))) as [-> ->]. now split.
  - now split.
Qed.

End HeaderLines.

(** X4: in a completed merge whose merged file names hold no line
    break, the lines of the output text that begin with [o ] are the
    generated object statements, one for every merged file and in
    merge order, and the lines that begin with [g ] are the generated
    group statements, likewise.  The [o] and [g] lines of the inputs
    are not among them: every merged file becomes one object and one
    group. *)
Theorem one_object_and_group_per_file :
  forall d : directory,
    snd (merge_obj_files_in_memory d) = Ok tt ->
    names_without_break d ->
    let text := file_text (fst (merge_obj_files_in_memory d)) in
    lines_starting "o " text = map object_line (obj_files d)
    /\ lines_starting "g " text = map group_line (obj_files d).
Proof.
  intros d Hok Hnames. cbv zeta. unfold lines_starting.
  rewrite (output_lines d Hnames). apply merge_ok_files in Hok.
  cbn [filter].
  change (Py.startswith ("# Merged OBJ file" ++ Py.nl) "o ") with false.
  change (Py.startswith ("# Merged OBJ file" ++ Py.nl) "g ") with false.
  change (Py.startswith Py.nl "o ") with false.
  change (Py.startswith Py.nl "g ") with false. cbv iota.
  destruct (header_lines_blocks d (obj_files d) zero_offsets) as [-> ->].
  now rewrite (opens_blocks d _ _ Hok).
Qed.

Definition headers_dir : directory :=
  [ ("b.obj", RegularFile ("o Cube" ++ Py.nl ++ "g side" ++ Py.nl ++ "v 1 1 1"));
    ("a.obj", RegularFile ("g all" ++ Py.nl ++ "v 0 0 0")) ].

Lemma one_object_and_group_witness :
  snd (merge_obj_files_in_memory headers_dir) = Ok tt
  /\ names_without_break headers_dir
  /\ lines_starting "o " (file_text (fst (merge_obj_files_in_memory headers_dir)))
     = [("o a" ++ Py.nl)%string; ("o b" ++ Py.nl)%string].
Proof.
  assert (H : names_without_break headers_dir).
  { intros name Hn. vm_compute in Hn. destruct Hn as [<-|[<-|[]]]; reflexivity. }
  split; [reflexivity|]. split; [exact H|].
  exact (proj1 (one_object_and_group_per_file headers_dir eq_refl H)).
Defined.

(** X5: take a completed merge whose merged file names hold no line
    break.  The numbers of texcoord and normal lines that Pass 1 finds
    in the output text are the sums of the files' texcoord and normal
    line counts.  Moreover, for field 1 (texcoord) or field 2 (normal):
    if every index that the face tokens of each file hold in that
    field lies between 1 and the file's own count of such lines, then
    every index read back from that field of a face statement written
    for a file lies above the total count of the files merged before
    it and at most at that total plus the file's own count: it refers
    to a line of the same file's block. *)
Theorem texcoord_and_normal_indices_stay_in_own_block :
  forall d : directory,
    snd (merge_obj_files_in_memory d) = Ok tt ->
    names_without_break d ->
    let t := fst (merge_obj_files_in_memory d) in
    Z.of_nat (List.length (texcoords (output_buffers t)))
    = count_lines d texcoords (obj_files d)
    /\ Z.of_nat (List.length (normals (output_buffers t)))
       = count_lines d normals (obj_files d)
    /\ forall i,
         i = 1 \/ i = 2 ->
         (forall name face_line p z,
             In name (obj_files d) ->
             In face_line (faces (file_buffers d name)) ->
             In p (face_parts face_line) ->
             Py.int (nth_field p i) = Some z ->
             (1 <= z <= Z.of_nat (List.length
                                    (indexed_buffer i (file_buffers d name))))%Z) ->
         forall pre name post,
           obj_files d = pre ++ name :: post ->
           let o := offsets_after d zero_offsets pre in
           t = Write header :: blocks d zero_offsets pre ++ block d o name
               ++ blocks d (offsets_after d zero_offsets (pre ++ [name])) post
           /\ forall s p' z',
                In s (face_lines o (faces (file_buffers d name))) ->
                In p' (face_parts s) ->
                Py.int (nth_field p' i) = Some z' ->
                (count_lines d (indexed_buffer i) pre + 1 <= z'
                 <= count_lines d (indexed_buffer i) pre
                    + Z.of_nat (List.length
                                  (indexed_buffer i (file_buffers d name))))%Z.
Proof.
  intros d Hok Hnames. cbv zeta.
  destruct (output_counts d Hok Hnames) as (_ & Ht & Hn).
  split; [exact Ht|]. split; [exact Hn|].
  intros i Hi Hrange pre name post Hfiles.
  assert (Hi3 : i < 3) by (destruct Hi; subst; lia).
  destruct (indices_in_block d i Hi3 Hok Hrange pre name post Hfiles)
    as (Htrace & _ & _ & _ & Hidx).
  split; [exact Htrace | exact Hidx].
Qed.

(** A directory whose texcoord and normal indices point outside the
    file: the counts hold all the same. *)
Definition wide_dir : directory :=
  [ ("a.obj", RegularFile ("vt 0 0" ++ Py.nl ++ "vn 0 0 1" ++ Py.nl ++ "f 1/2/2")) ].

Lemma texcoord_and_normal_indices_witness :
  snd (merge_obj_files_in_memory wide_dir) = Ok tt
  /\ names_without_break wide_dir
  /\ Z.of_nat (List.length (texcoords (output_buffers
                 (fst (merge_obj_files_in_memory wide_dir)))))
     = count_lines wide_dir texcoords (obj_files wide_dir)
  /\ snd (merge_obj_files_in_memory sample_dir) = Ok tt
  /\ names_without_break sample_dir
  /\ fields_in_own_range sample_dir 2
  /\ obj_files sample_dir = ["cube.obj"] ++ "tri.OBJ" :: []
  /\ (count_lines sample_dir normals ["cube.obj"] + 1 <= 3
      <= count_lines sample_dir normals ["cube.obj"]
         + Z.of_nat (List.length (normals (file_buffers sample_dir "tri.OBJ"))))%Z.
Proof.
  assert (H : names_without_break wide_dir).
  { intros name Hn. vm_compute in Hn. destruct Hn as [<-|[]]; reflexivity. }
  split; [reflexivity|]. split; [exact H|]. split.
  { exact (proj1 (texcoord_and_normal_indices_stay_in_own_block
                    wide_dir eq_refl H)). }
  split; [reflexivity|]. split; [exact sample_names_without_break|].
  split; [exact sample_dir_normals_in_range|]. split; [reflexivity|].
  destruct (proj2 (proj2 (texcoord_and_normal_indices_stay_in_own_block
                            sample_dir eq_refl sample_names_without_break))
              2 (or_intror eq_refl) sample_dir_normals_in_range
              ["cube.obj"] "tri.OBJ" [] eq_refl) as [_ Hb].
  apply (Hb ("f 6//3 5//3 4//3" ++ Py.nl)%string "6//3" 3%Z);
    [vm_compute; tauto | vm_compute; tauto | reflexivity].
Defined.

(* ================================================================= *)
(** ** The command line *)

(** The part of the file system that a run looks at: the directories
    that [os.listdir] can list, by path, and the paths that
    [open(path, 'w')] can open. *)
Record filesystem : Type := mkFilesystem {
  dir_at : string -> option directory;
  can_write : string -> bool
}.

(** What a run of the script does to the outside. *)
Inductive sys_event : Type :=
| Print (s : string)           (* print(s) *)
| OpenOutput (path : string)   (* open(output_file, 'w') *)
| Merging (e : event).         (* an event of the merge itself *)

(** [merge_obj_files_in_memory(input_directory, output_file)] on paths:
    the directory is listed first, then the output file is opened, then
    the merge runs on the directory as it was listed.  The output path
    is taken not to name an entry of the input directory (such an
    entry would be emptied before it is read), and the inputs to be
    readable text. *)
Definition merge_paths (fs : filesystem) (input_directory output_file : string)
  : list sys_event * result unit :=
  match dir_at fs input_directory with
  | None => ([], Raise OSError)
  | Some d =>
      if can_write fs output_file then
        let (t, r) := merge_obj_files_in_memory d in
        (OpenOutput output_file :: map Merging t, r)
      else ([], Raise OSError)
  end.

(** How the process ends: [sys.exit(status)] or the end of the script
    (status 0), or an exception that nothing catches. *)
Inductive outcome : Type :=
| Exit (status : Z)
| Uncaught (e : exn).


Definition usage : string :=
  "Usage: python merge_obj.py <input_directory> [output_file]".

Definition default_output : string := "merged_output.obj".

Definition finished (input_dir out_file : string) : string :=
  "Finished merging OBJ files in '" ++ input_dir ++ "' into '"
  ++ out_file ++ "'.".

(** The [__main__] block, for [sys.argv = argv]. *)
Definition main (fs : filesystem) (argv : list string)
  : list sys_event * outcome :=
  if (List.length argv <? 2)%nat then ([Print usage], Exit 1)
  else
    let input_dir := nth 1 argv "" in
    let out_file :=
      if (List.length argv =? 3)%nat then nth 2 argv "" else default_output in
    match merge_paths fs input_dir out_file with
    | (t, Ok _) => (t ++ [Print (finished input_dir out_file)], Exit 0)
    | (t, Raise e) => (t, Uncaught e)
    end.

(** The output path that a command line selects. *)
Definition chosen_output (argv : list string) : string :=
  if (List.length argv =? 3)%nat then nth 2 argv "" else default_output.

Definition sample_fs : filesystem :=
  mkFilesystem (fun path => if (path =? "meshes")%string then Some sample_dir
                            else if (path =? "broken")%string then Some broken_dir
                            else None)
               (fun path => negb (path =? "/proc/out.obj")%string).

Example ex_main_usage :
  main sample_fs ["merge_obj.py"] = ([Print usage], Exit 1).
Proof. reflexivity. Qed.

Example ex_main_extra_argument :
  hd (Print "") (fst (main sample_fs ["merge_obj.py"; "meshes"; "out.obj"; "-v"]))
  = OpenOutput "merged_output.obj".
Proof. reflexivity. Qed.

Example ex_main_missing_directory :
  main sample_fs ["merge_obj.py"; "nowhere"] = ([], Uncaught OSError).
Proof. reflexivity. Qed.

Section Main.

Lemma merge_paths_spec fs input_directory output_file :
  merge_paths fs input_directory output_file
  = match dir_at fs input_directory with
    | None => ([], Raise OSError)
    | Some d =>
        if can_write fs output_file then
          (OpenOutput output_file
           :: map Merging (Write header :: blocks d zero_offsets (obj_files d)),
           status (forallb (file_ok d) (obj_files d)))
        else ([], Raise OSError)
    end.
Proof.
  unfold merge_paths. destruct (dir_at fs input_directory) as [d|]; [|reflexivity].
  destruct (can_write fs output_file); [|reflexivity].
  now rewrite merge_spec.
Qed.


Lemma in_map_Merging_open p t : ~ In (OpenOutput p) (map Merging t).
Proof. induction t as [|e t IH]; simpl; [tauto|]. intros [H|H]; [discriminate | auto]. Qed.



(** X13: which output file is touched.  The script opens at most one
    output file, and only after the input directory could be listed.
    It is the third command-line word when there are exactly three, and
    [merged_output.obj] in every other case: with two words, but also
    with four or more, where the word given for the output is ignored.
    Without an input directory, or when it cannot be listed, no file is
    opened, read or written. *)
Theorem main_output_file :
  forall (fs : filesystem) (argv : list string),
    let trace := fst (main fs argv) in
    (forall path, In (OpenOutput path) trace ->
        2 <= List.length argv
        /\ dir_at fs (nth 1 argv "") <> None
        /\ path = chosen_output argv
        /\ exists rest, trace = OpenOutput path :: rest
                        /\ forall path', ~ In (OpenOutput path') rest)
    /\ (3 < List.length argv -> chosen_output argv = default_output)
    /\ (List.length argv < 2 \/ dir_at fs (nth 1 argv "") = None ->
        forall e, In e trace -> e = Print usage).
Proof.
  intros fs argv. cbv zeta. unfold main. fold (chosen_output argv).
  split; [|split].
  - intros path.
    destruct (Nat.ltb_spec (List.length argv) 2) as [Hlt|Hge].
    { cbn [fst]. intros [H|[]]. discriminate H. }
    rewrite merge_paths_spec.
    destruct (dir_at fs (nth 1 argv "")) as [d|] eqn:Ed;
      [|cbn [fst]; intros []].
    destruct (can_write fs (chosen_output argv)); [|cbn [fst]; intros []].
    assert (Hrest : forall rest path',
              (rest = map Merging (Write header :: blocks d zero_offsets (obj_files d))
               \/ exists s, rest = map Merging (Write header :: blocks d zero_offsets (obj_files d))
                                   ++ [Print s]) ->
              ~ In (OpenOutput path') rest).
    { intros rest path' [-> | [s ->]].
      - apply in_map_Merging_open.
      - intros H. apply in_app_or in H. destruct H as [H|[H|[]]];
          [now apply in_map_Merging_open in H | discriminate H]. }
    destruct (forallb (file_ok d) (obj_files d)); cbn [status fst].
    + intros H. assert (Hp : path = chosen_output argv).
      { cbn [app] in H. destruct H as [[= <-]|H]; [reflexivity|].
        exfalso. revert H. apply Hrest. right. eauto. }
      subst path. repeat split; try assumption; try discriminate.
      eexists. split; [reflexivity|]. intros path'. apply Hrest. right. eauto.
    + intros H. assert (Hp : path = chosen_output argv).
      { destruct H as [[= <-]|H]; [reflexivity|].
        exfalso. revert H. apply Hrest. now left. }
      subst path. repeat split; try assumption; try discriminate.
      eexists. split; [reflexivity|]. intros path'. apply Hrest. now left.
  - intros H. unfold chosen_output.
    destruct (Nat.eqb_spec (List.length argv) 3); [lia | reflexivity].
  - intros H e.
    destruct (Nat.ltb_spec (List.length argv) 2) as [Hlt|Hge].
    { cbn [fst]. intros [<-|[]]. reflexivity. }
    destruct H as [H|H]; [lia|].
    unfold merge_paths. rewrite H. cbn [fst]. intros [].
Qed.

Lemma main_output_file_witness :
  In (OpenOutput "merged_output.obj")
     (fst (main sample_fs ["merge_obj.py"; "meshes"; "out.obj"; "-v"]))
  /\ 3 < List.length ["merge_obj.py"; "meshes"; "out.obj"; "-v"]
  /\ chosen_output ["merge_obj.py"; "meshes"; "out.obj"; "-v"] = default_output.
Proof.
  split; [vm_compute; tauto|]. split; [vm_compute; lia|].
  exact (proj1 (proj2 (main_output_file sample_fs
                         ["merge_obj.py"; "meshes"; "out.obj"; "-v"]))
           ltac:(vm_compute; lia)).
Defined.

End Main.

(* ================================================================= *)
(** ** The object names in the output *)

Section ObjectNames.

Lemma endswith_lower_split name :
  Py.endswith (Py.lower name) ".obj" = true ->
  exists stem ext, name = (stem ++ ext)%string /\ Py.lower ext = ".obj".
Proof.
  induction name as [|c s IH]; cbn [Py.lower Py.endswith].
  - discriminate.
  - destruct (String.eqb_spec (String (Py.lower_char c) (Py.lower s)) ".obj")
      as [E|_].
    + intros _. exists "", (String c s). split; [reflexivity | exact E].
    + intros H. destruct (IH H) as (stem & ext & -> & Hext).
      exists (String c stem), ext. split; [reflexivity | exact Hext].
Qed.

(** A name made of dots and the extension has no extension for
    [os.path.splitext]. *)
Lemma splitext_dots stem e :
  Py.all_dots stem = true ->
  all_chars (not_char ".") e = true ->
  all_chars (not_char "/") e = true ->
  all_chars (not_char "/") stem = true ->
  Py.splitext (stem ++ String "." e) = ((stem ++ String "." e)%string, "").
Proof.
  intros Hd He Hes Hs. unfold Py.splitext.
  rewrite (rfind_last "." stem e He).
  rewrite rfind_absent by (rewrite all_chars_app, Hs; simpl; exact Hes).
  cbn [Nat.leb andb]. now rewrite Nat.sub_0_r, substring_prefix, Hd.
Qed.

Definition case_dir : directory :=
  [ ("x.OBJ", RegularFile "v 1 1 1"); (".obj", RegularFile "v 2 2 2");
    ("x.obj", RegularFile "v 3 3 3") ].

Example ex_object_names :
  writes (fst (merge_obj_files_in_memory case_dir))
  = [header;
     ("o .obj" ++ Py.nl)%string; ("g .obj" ++ Py.nl)%string;
     ("v 2 2 2" ++ Py.nl)%string;
     ("o x" ++ Py.nl)%string; ("g x" ++ Py.nl)%string;
     ("v 1 1 1" ++ Py.nl)%string;
     ("o x" ++ Py.nl)%string; ("g x" ++ Py.nl)%string;
     ("v 3 3 3" ++ Py.nl)%string].
Proof. reflexivity. Qed.

(** What [os.path.splitext] keeps of a merged name. *)
Lemma splitext_merged_name stem ext :
  Py.lower ext = ".obj" ->
  all_chars (not_char "/") stem = true ->
  fst (Py.splitext (stem ++ ext))
  = if Py.all_dots stem then (stem ++ ext)%string else stem.
Proof.
  intros Hext Hs. destruct (Py.all_dots stem) eqn:Hd;
    [|now apply obj_name_is_stem].
  destruct ext as [|c1 [|c2 [|c3 [|c4 [|c5 ext]]]]]; try discriminate Hext.
  cbn [Py.lower] in Hext. injection Hext as H1 H2 H3 H4.
  apply lower_char_dot in H1. subst c1.
  destruct (lower_char_letter c2 _ H2 eq_refl) as [D2 S2].
  destruct (lower_char_letter c3 _ H3 eq_refl) as [D3 S3].
  destruct (lower_char_letter c4 _ H4 eq_refl) as [D4 S4].
  rewrite splitext_dots; try assumption; [reflexivity| |];
    cbn [all_chars]; rewrite ?D2, ?D3, ?D4, ?S2, ?S3, ?S4; reflexivity.
Qed.

(** The start of the block of a merged file in a completed merge. *)
Lemma merged_file_headers d name :
  snd (merge_obj_files_in_memory d) = Ok tt ->
  In name (obj_files d) ->
  exists before after,
    fst (merge_obj_files_in_memory d)
    = before
      ++ Open name
         :: Write ("o " ++ fst (Py.splitext name) ++ Py.nl)
         :: Write ("g " ++ fst (Py.splitext name) ++ Py.nl)
         :: after.
Proof.
  intros Hok Hin. apply merge_ok_files in Hok.
  destruct (in_split _ _ Hin) as (pre & post & Hfiles).
  rewrite Hfiles in Hok. apply forallb_app_true in Hok. destruct Hok as [Hpre _].
  rewrite merge_spec, Hfiles. cbn [fst].
  rewrite (blocks_at d _ _ _ _ Hpre). unfold block at 1.
  exists (Write header :: blocks d zero_offsets pre). eexists.
  reflexivity.
Qed.

(** X14: the name in the [o] and [g] statements of a merged file.
    Every merged name is a stem followed by [.obj] in some letter
    case.  In a completed merge, once a merged file whose stem holds no
    slash is opened, the next two strings written are [o ] and [g ],
    each followed by one and the same object name and a line feed.
    The object name is the stem, except when the stem is empty or made
    of dots only; then it is the whole file name, extension
    included. *)
Theorem object_name_of_merged_file :
  forall d : directory,
    (forall name, In name (obj_files d) ->
       exists stem ext, name = (stem ++ ext)%string /\ Py.lower ext = ".obj")
    /\ (snd (merge_obj_files_in_memory d) = Ok tt ->
        forall stem ext,
          In (stem ++ ext)%string (obj_files d) ->
          Py.lower ext = ".obj" ->
          all_chars (not_char "/") stem = true ->
          let obj_name :=
            if Py.all_dots stem then (stem ++ ext)%string else stem in
          exists before after,
            fst (merge_obj_files_in_memory d)
            = before
              ++ Open (stem ++ ext)
                 :: Write ("o " ++ obj_name ++ Py.nl)
                 :: Write ("g " ++ obj_name ++ Py.nl)
                 :: after).
Proof.
  intros d. split.
  - intros name Hin. apply obj_files_in in Hin. destruct Hin as [_ Hobj].
    unfold is_obj_file in Hobj. apply andb_true_iff in Hobj.
    destruct Hobj as [Hend _]. exact (endswith_lower_split name Hend).
  - intros Hok stem ext Hin Hext Hs. cbv zeta.
    rewrite <- (splitext_merged_name stem ext Hext Hs).
    exact (merged_file_headers d _ Hok Hin).
Qed.

Lemma object_name_witness :
  snd (merge_obj_files_in_memory case_dir) = Ok tt
  /\ In ("x" ++ ".OBJ")%string (obj_files case_dir)
  /\ In ("" ++ ".obj")%string (obj_files case_dir)
  /\ (exists before after,
        fst (merge_obj_files_in_memory case_dir)
        = before ++ Open "x.OBJ" :: Write ("o x" ++ Py.nl)
                 :: Write ("g x" ++ Py.nl) :: after)
  /\ (exists before after,
        fst (merge_obj_files_in_memory case_dir)
        = before ++ Open ".obj" :: Write ("o .obj" ++ Py.nl)
                 :: Write ("g .obj" ++ Py.nl) :: after).
Proof.
  assert (H1 : In ("x" ++ ".OBJ")%string (obj_files case_dir)) by (vm_compute; tauto).
  assert (H2 : In ("" ++ ".obj")%string (obj_files case_dir)) by (vm_compute; tauto).
  split; [reflexivity|]. split; [exact H1|]. split; [exact H2|]. split.
  - exact (proj2 (object_name_of_merged_file case_dir) eq_refl "x" ".OBJ"
             H1 eq_refl eq_refl).
  - exact (proj2 (object_name_of_merged_file case_dir) eq_refl "" ".obj"
             H2 eq_refl eq_refl).
Defined.

End ObjectNames.
